(** * LegalDocAI: the browser client's state and the relational schema

    A shallow embedding of the parts of the repository that carry behaviour:

    - [Api]: the shared axios client of [services/api.ts], its request and
      response interceptors and the record types it exports;
    - [DocumentSlice]: the Redux slice [store/slices/documentSlice.ts];
    - [Sql]: the schema of [database/init.sql], read as data, with the
      statement semantics of the relational engine it is written for;
    - [Orchestrator]: the analysis pipeline, whose handlers are not part of
      the sources at hand.

    Browser globals ([localStorage], [window.location]) are threaded
    explicitly; a reducer is a function from state and action to state. *)

From Stdlib Require Import ZArith List Bool Ascii String.
From stdpp Require Import base option list strings gmap.

Local Open Scope string_scope.
Local Open Scope Z_scope.

(** Statements of the source that assign one field read left to right. *)
Notation "s |> f" := (f s) (at level 45, left associativity, only parsing).

(* ===================================================================== *)
(** ** services/api.ts *)
(* ===================================================================== *)

Module Api.

(** The response types. A TypeScript [number] is only ever stored and
    handed on by the client, never computed with; it is carried as [Z].
    An optional field [f?: T] is [option T]. *)

Record Document := mkDocument {
  id : string;
  filename : string;
  original_filename : string;
  file_size : Z;
  file_type : string;
  document_type : option string;
  status : string;
  page_count : option Z;
  word_count : option Z;
  created_at : string;
  updated_at : string
}.

Record DocumentList := mkDocumentList {
  dl_documents : list Document;
  dl_total : Z;
  dl_skip : Z;
  dl_limit : Z
}.

(** [localStorage]: a map from keys to strings. [getItem] answers [null]
    ([None]) for a key that is not stored. *)
Abbreviation Storage := (gmap string string).

Definition getItem (st : Storage) (key : string) : option string := st !! key.
Definition removeItem (st : Storage) (key : string) : Storage := delete key st.
Definition setItem (st : Storage) (key value : string) : Storage := <[key := value]> st.

(** JavaScript truthiness of a [string | null]: [null] and the empty
    string are falsy, every other string is truthy. *)
Definition truthy (v : option string) : bool :=
  match v with
  | None => false
  | Some s => negb (String.eqb s "")
  end.

Record AxiosRequestConfig := mkConfig {
  url : string;
  method : string;
  headers : gmap string string;
  data : option string
}.

Definition set_header (name value : string) (config : AxiosRequestConfig)
  : AxiosRequestConfig :=
  {| url := url config; method := method config;
     headers := <[name := value]> (headers config); data := data config |}.

(** api.interceptors.request.use((config) => { ... }) *)
Definition request_interceptor (localStorage : Storage) (config : AxiosRequestConfig)
  : AxiosRequestConfig :=
  let token := getItem localStorage "token" in
  if truthy token then
    match token with
    | Some t => config |> set_header "Authorization" ("Bearer " ++ t)
    | None => config
    end
  else config.

(** The interceptor's second function, (error) => Promise.reject(error),
    is the identity on a request that already failed. *)

Record AxiosResponse := mkResponse {
  resp_status : Z;
  resp_data : string
}.

(** An axios error; [response] is absent when no reply arrived. *)
Record AxiosError := mkError {
  err_message : string;
  response : option AxiosResponse
}.

(** The two browser globals the response interceptor writes. *)
Record Window := mkWindow {
  localStorage : Storage;
  location_href : string
}.

(** [error.response?.status === 401] *)
Definition is_unauthorized (error : AxiosError) : bool :=
  match response error with
  | Some r => resp_status r =? 401
  | None => false
  end.

(** A settled promise. *)
Inductive Settled (A : Type) :=
| Fulfilled (value : A)
| Rejected (reason : AxiosError).
Arguments Fulfilled {A} value.
Arguments Rejected {A} reason.

(** api.interceptors.response.use((response) => response, (error) => { ... }) *)
Definition response_fulfilled (r : AxiosResponse) (w : Window)
  : Window * Settled AxiosResponse :=
  (w, Fulfilled r).

Definition response_rejected (error : AxiosError) (w : Window)
  : Window * Settled AxiosResponse :=
  let w' :=
    if is_unauthorized error then
      {| localStorage := removeItem (localStorage w) "token";
         location_href := "/login" |}
    else w in
  (w', Rejected error).

(** axios settles a reply by its status: the instance keeps the default
    [validateStatus], which fulfils exactly the 2xx replies; every other
    reply is rejected with an error that carries it. *)
Definition validateStatus (status : Z) : bool :=
  (200 <=? status) && (status <? 300).

Definition on_reply (r : AxiosResponse) (w : Window) : Window * Settled AxiosResponse :=
  if validateStatus (resp_status r) then response_fulfilled r w
  else response_rejected
         {| err_message := "Request failed with status code"; response := Some r |} w.

(** *** Sample data *)

Definition sample_storage : Storage := {[ "token" := "abc" ]}.
Definition sample_config : AxiosRequestConfig := mkConfig "/documents/" "get" ∅ None.

End Api.

(* ===================================================================== *)
(** ** store/slices/documentSlice.ts *)
(* ===================================================================== *)

Module DocumentSlice.
Import Api.

Record DocumentState := mkState {
  documents : list Document;
  currentDocument : option Document;
  isLoading : bool;
  uploadProgress : Z;
  error : option string;
  total : Z;
  skip : Z;
  limit : Z
}.

Definition initialState : DocumentState :=
  {| documents := []; currentDocument := None; isLoading := false;
     uploadProgress := 0; error := None; total := 0; skip := 0; limit := 20 |}.

(** One setter per field, for [state.field = value]. *)
Definition set_documents v (s : DocumentState) :=
  {| documents := v; currentDocument := currentDocument s; isLoading := isLoading s;
     uploadProgress := uploadProgress s; error := error s; total := total s;
     skip := skip s; limit := limit s |}.
Definition set_currentDocument v (s : DocumentState) :=
  {| documents := documents s; currentDocument := v; isLoading := isLoading s;
     uploadProgress := uploadProgress s; error := error s; total := total s;
     skip := skip s; limit := limit s |}.
Definition set_isLoading v (s : DocumentState) :=
  {| documents := documents s; currentDocument := currentDocument s; isLoading := v;
     uploadProgress := uploadProgress s; error := error s; total := total s;
     skip := skip s; limit := limit s |}.
Definition set_uploadProgress v (s : DocumentState) :=
  {| documents := documents s; currentDocument := currentDocument s;
     isLoading := isLoading s; uploadProgress := v; error := error s;
     total := total s; skip := skip s; limit := limit s |}.
Definition set_error v (s : DocumentState) :=
  {| documents := documents s; currentDocument := currentDocument s;
     isLoading := isLoading s; uploadProgress := uploadProgress s; error := v;
     total := total s; skip := skip s; limit := limit s |}.
Definition set_total v (s : DocumentState) :=
  {| documents := documents s; currentDocument := currentDocument s;
     isLoading := isLoading s; uploadProgress := uploadProgress s; error := error s;
     total := v; skip := skip s; limit := limit s |}.
Definition set_skip v (s : DocumentState) :=
  {| documents := documents s; currentDocument := currentDocument s;
     isLoading := isLoading s; uploadProgress := uploadProgress s; error := error s;
     total := total s; skip := v; limit := limit s |}.
Definition set_limit v (s : DocumentState) :=
  {| documents := documents s; currentDocument := currentDocument s;
     isLoading := isLoading s; uploadProgress := uploadProgress s; error := error s;
     total := total s; skip := skip s; limit := v |}.

(** The actions of the slice: its three reducers, and [pending],
    [fulfilled], [rejected] of each of the four thunks. A thunk rejects
    with [rejectWithValue (detail || "...")], read by the slice
    [as string]. *)
Inductive Action :=
| clearError
| setUploadProgress (payload : Z)
| clearCurrentDocument
| uploadDocument_pending
| uploadDocument_fulfilled (payload : Document)
| uploadDocument_rejected (payload : string)
| fetchDocuments_pending
| fetchDocuments_fulfilled (payload : DocumentList)
| fetchDocuments_rejected (payload : string)
| fetchDocument_pending
| fetchDocument_fulfilled (payload : Document)
| fetchDocument_rejected (payload : string)
| deleteDocument_pending
| deleteDocument_fulfilled (payload : string)
| deleteDocument_rejected (payload : string).

(** [state.currentDocument?.id === action.payload] *)
Definition current_has_id (cur : option Document) (payload : string) : bool :=
  match cur with
  | Some d => String.eqb (id d) payload
  | None => false
  end.

Definition reducer (state : DocumentState) (action : Action) : DocumentState :=
  match action with
  | clearError => state |> set_error None
  | setUploadProgress payload => state |> set_uploadProgress payload
  | clearCurrentDocument => state |> set_currentDocument None
  (* Upload document *)
  | uploadDocument_pending =>
      state |> set_isLoading true |> set_error None |> set_uploadProgress 0
  | uploadDocument_fulfilled payload =>
      state |> set_isLoading false
            |> (fun s => set_documents (payload :: documents s) s)
            |> set_uploadProgress 100
            |> set_error None
  | uploadDocument_rejected payload =>
      state |> set_isLoading false |> set_error (Some payload) |> set_uploadProgress 0
  (* Fetch documents *)
  | fetchDocuments_pending => state |> set_isLoading true |> set_error None
  | fetchDocuments_fulfilled payload =>
      state |> set_isLoading false
            |> set_documents (dl_documents payload)
            |> set_total (dl_total payload)
            |> set_skip (dl_skip payload)
            |> set_limit (dl_limit payload)
            |> set_error None
  | fetchDocuments_rejected payload =>
      state |> set_isLoading false |> set_error (Some payload)
  (* Fetch single document *)
  | fetchDocument_pending => state |> set_isLoading true |> set_error None
  | fetchDocument_fulfilled payload =>
      state |> set_isLoading false |> set_currentDocument (Some payload) |> set_error None
  | fetchDocument_rejected payload =>
      state |> set_isLoading false |> set_error (Some payload)
  (* Delete document *)
  | deleteDocument_pending => state |> set_isLoading true |> set_error None
  | deleteDocument_fulfilled payload =>
      state |> set_isLoading false
            |> (fun s => set_documents
                           (List.filter (fun doc => negb (String.eqb (id doc) payload))
                                        (documents s)) s)
            |> (fun s => if current_has_id (currentDocument s) payload
                         then set_currentDocument None s else s)
            |> set_error None
  | deleteDocument_rejected payload =>
      state |> set_isLoading false |> set_error (Some payload)
  end.

(** The state after a run of actions dispatched to the store. *)
Definition run (actions : list Action) : DocumentState :=
  fold_left reducer actions initialState.

Definition is_pending (a : Action) : bool :=
  match a with
  | uploadDocument_pending | fetchDocuments_pending
  | fetchDocument_pending | deleteDocument_pending => true
  | _ => false
  end.

(** The state is not at once loading and in error. *)
Definition loading_without_error (s : DocumentState) : Prop :=
  isLoading s = true -> error s = None.

(** The message a [rejected] action carries. *)
Definition rejected_with (a : Action) : option string :=
  match a with
  | uploadDocument_rejected payload | fetchDocuments_rejected payload
  | fetchDocument_rejected payload | deleteDocument_rejected payload => Some payload
  | _ => None
  end.

(** *** Sample data *)

Definition sample_lease : Document :=
  mkDocument "a" "lease.txt" "lease.txt" 10240 "txt" None "uploaded" None None
             "2024-01-01" "2024-01-01".
Definition sample_loan : Document :=
  mkDocument "b" "loan.txt" "loan.txt" 2048 "txt" None "uploaded" None None
             "2024-01-02" "2024-01-02".
Definition sample_state : DocumentState :=
  mkState [sample_lease; sample_loan] (Some sample_lease) true 100 None 2 0 20.

End DocumentSlice.

(* ===================================================================== *)
(** ** database/init.sql *)
(* ===================================================================== *)

Module Sql.

(** init.sql is a list of definitions; what it guarantees shows when
    statements run against the tables it defines. Columns, types,
    defaults, constraints, foreign keys and triggers are transcribed from
    it, table by table, as data. [INSERT], [UPDATE] and [DELETE] then
    follow the rules of the engine the script is written for: the default
    of a column that is left out, [NOT NULL], [CHECK] (which an unknown
    result passes), [UNIQUE], foreign keys with their [ON DELETE] action,
    the [BEFORE UPDATE] row triggers; a statement is all or nothing. *)

(** *** Values and column types *)

(** A value held in a column. Text is a Rocq string (one character per
    byte); a [DECIMAL(p,s)] holds its digits as an integer scaled by
    [10^s]; a timestamp is a count of microseconds; a JSONB document is
    kept as its text. *)
Inductive value :=
| NULL
| VUuid (u : N)
| VText (s : string)
| VInt (n : Z)
| VBool (b : bool)
| VTimestamp (t : Z)
| VDecimal (digits : Z)
| VJson (j : string).

#[global] Instance value_eq_dec : EqDecision value.
Proof. solve_decision. Defined.

Inductive sql_type :=
| UUID
| VARCHAR (n : nat)
| TEXT
| INTEGER
| BOOLEAN
| TIMESTAMP
| DECIMAL (precision scale : nat)
| JSONB.

Inductive sql_error :=
| undefined_column
| duplicate_column
| datatype_mismatch
| string_data_right_truncation
| numeric_value_out_of_range
| not_null_violation
| check_violation
| unique_violation
| foreign_key_violation
| cascade_too_deep.

Inductive result (A : Type) :=
| Ok (a : A)
| Error (e : sql_error).
Arguments Ok {A} a.
Arguments Error {A} e.

Definition bind {A B} (m : result A) (k : A -> result B) : result B :=
  match m with
  | Ok a => k a
  | Error e => Error e
  end.

Definition guard (b : bool) (e : sql_error) : result unit :=
  if b then Ok tt else Error e.

Notation "'do' x <- m ; k" := (bind m (fun x => k))
  (at level 10, x name, m at level 100, k at level 200, only parsing).

(** *** The schema language *)

Inductive table_name := users | documents | analyses | legal_templates.

#[global] Instance table_name_eq_dec : EqDecision table_name.
Proof. solve_decision. Defined.

Definition all_tables : list table_name :=
  [users; documents; analyses; legal_templates].

Inductive default_expr :=
| uuid_generate_v4
| CURRENT_TIMESTAMP
| Lit (v : value).

(** The action of a foreign key when the row it references is deleted;
    a key declared without [ON DELETE] has [NO_ACTION]. *)
Inductive on_delete := NO_ACTION | CASCADE.

(** The boolean expressions [CHECK] is used with in this schema. *)
Inductive check_expr :=
| Ge (column : string) (bound : Z)
| Le (column : string) (bound : Z)
| And (a b : check_expr).

Record column := mkColumn {
  col_name : string;
  col_type : sql_type;
  col_primary_key : bool;
  col_not_null : bool;
  col_unique : bool;
  col_default : option default_expr;
  col_references : option (table_name * on_delete);
  col_check : option check_expr
}.

(** A column definition is written as in the DDL: name and type first,
    then its constraints. *)
Definition col (name : string) (ty : sql_type) : column :=
  mkColumn name ty false false false None None None.
Definition PRIMARY_KEY (c : column) : column :=
  mkColumn (col_name c) (col_type c) true (col_not_null c) (col_unique c)
           (col_default c) (col_references c) (col_check c).
Definition NOT_NULL (c : column) : column :=
  mkColumn (col_name c) (col_type c) (col_primary_key c) true (col_unique c)
           (col_default c) (col_references c) (col_check c).
Definition UNIQUE (c : column) : column :=
  mkColumn (col_name c) (col_type c) (col_primary_key c) (col_not_null c) true
           (col_default c) (col_references c) (col_check c).
Definition DEFAULT (d : default_expr) (c : column) : column :=
  mkColumn (col_name c) (col_type c) (col_primary_key c) (col_not_null c) (col_unique c)
           (Some d) (col_references c) (col_check c).
Definition REFERENCES (t : table_name) (a : on_delete) (c : column) : column :=
  mkColumn (col_name c) (col_type c) (col_primary_key c) (col_not_null c) (col_unique c)
           (col_default c) (Some (t, a)) (col_check c).
Definition CHECK (e : check_expr) (c : column) : column :=
  mkColumn (col_name c) (col_type c) (col_primary_key c) (col_not_null c) (col_unique c)
           (col_default c) (col_references c) (Some e).

(** *** The four tables of init.sql *)

Definition users_columns : list column := [
  col "id" UUID |> PRIMARY_KEY |> DEFAULT uuid_generate_v4;
  col "email" (VARCHAR 255) |> UNIQUE |> NOT_NULL;
  col "full_name" (VARCHAR 255) |> NOT_NULL;
  col "hashed_password" (VARCHAR 255);
  col "is_active" BOOLEAN |> DEFAULT (Lit (VBool true));
  col "is_verified" BOOLEAN |> DEFAULT (Lit (VBool false));
  col "firebase_uid" (VARCHAR 255) |> UNIQUE;
  col "created_at" TIMESTAMP |> DEFAULT CURRENT_TIMESTAMP;
  col "updated_at" TIMESTAMP |> DEFAULT CURRENT_TIMESTAMP;
  col "last_login" TIMESTAMP;
  col "company" (VARCHAR 255);
  col "role" (VARCHAR 255);
  col "preferred_language" (VARCHAR 10) |> DEFAULT (Lit (VText "en"));
  col "documents_processed" INTEGER |> DEFAULT (Lit (VInt 0));
  col "api_calls_count" INTEGER |> DEFAULT (Lit (VInt 0))
].

Definition documents_columns : list column := [
  col "id" UUID |> PRIMARY_KEY |> DEFAULT uuid_generate_v4;
  col "user_id" UUID |> NOT_NULL |> REFERENCES users CASCADE;
  col "filename" (VARCHAR 255) |> NOT_NULL;
  col "original_filename" (VARCHAR 255) |> NOT_NULL;
  col "file_path" (VARCHAR 500) |> NOT_NULL;
  col "file_size" INTEGER |> NOT_NULL;
  col "file_type" (VARCHAR 50) |> NOT_NULL;
  col "mime_type" (VARCHAR 100) |> NOT_NULL;
  col "extracted_text" TEXT;
  col "page_count" INTEGER;
  col "word_count" INTEGER;
  col "status" (VARCHAR 50) |> DEFAULT (Lit (VText "uploaded"));
  col "processing_started_at" TIMESTAMP;
  col "processing_completed_at" TIMESTAMP;
  col "error_message" TEXT;
  col "document_type" (VARCHAR 100);
  col "confidence_score" (DECIMAL 5 4);
  col "language" (VARCHAR 10) |> DEFAULT (Lit (VText "en"));
  col "is_sensitive" BOOLEAN |> DEFAULT (Lit (VBool true));
  col "retention_days" INTEGER |> DEFAULT (Lit (VInt 30));
  col "created_at" TIMESTAMP |> DEFAULT CURRENT_TIMESTAMP;
  col "updated_at" TIMESTAMP |> DEFAULT CURRENT_TIMESTAMP;
  col "expires_at" TIMESTAMP
].

Definition analyses_columns : list column := [
  col "id" UUID |> PRIMARY_KEY |> DEFAULT uuid_generate_v4;
  col "user_id" UUID |> NOT_NULL |> REFERENCES users CASCADE;
  col "document_id" UUID |> NOT_NULL |> REFERENCES documents CASCADE;
  col "analysis_type" (VARCHAR 100) |> NOT_NULL;
  col "request_data" JSONB;
  col "model_used" (VARCHAR 100) |> NOT_NULL;
  col "model_version" (VARCHAR 50);
  col "prompt_template" TEXT;
  col "summary" TEXT;
  col "simplified_explanation" TEXT;
  col "key_points" JSONB;
  col "risk_assessment" JSONB;
  col "legal_implications" JSONB;
  col "clauses_analyzed" JSONB;
  col "problematic_clauses" JSONB;
  col "question" TEXT;
  col "answer" TEXT;
  col "confidence_score" (DECIMAL 5 4);
  col "source_language" (VARCHAR 10) |> DEFAULT (Lit (VText "en"));
  col "target_language" (VARCHAR 10) |> DEFAULT (Lit (VText "en"));
  col "processing_time_seconds" (DECIMAL 8 3);
  col "token_count_input" INTEGER;
  col "token_count_output" INTEGER;
  col "status" (VARCHAR 50) |> DEFAULT (Lit (VText "pending"));
  col "quality_score" (DECIMAL 5 4);
  col "human_reviewed" BOOLEAN |> DEFAULT (Lit (VBool false));
  col "user_rating" INTEGER |> CHECK (And (Ge "user_rating" 1) (Le "user_rating" 5));
  col "user_feedback" TEXT;
  col "created_at" TIMESTAMP |> DEFAULT CURRENT_TIMESTAMP;
  col "updated_at" TIMESTAMP |> DEFAULT CURRENT_TIMESTAMP;
  col "completed_at" TIMESTAMP
].

Definition legal_templates_columns : list column := [
  col "id" UUID |> PRIMARY_KEY |> DEFAULT uuid_generate_v4;
  col "name" (VARCHAR 255) |> NOT_NULL;
  col "category" (VARCHAR 100) |> NOT_NULL;
  col "subcategory" (VARCHAR 100);
  col "description" TEXT |> NOT_NULL;
  col "common_clauses" JSONB |> NOT_NULL;
  col "risk_factors" JSONB |> NOT_NULL;
  col "key_terms_to_check" JSONB |> NOT_NULL;
  col "red_flags" JSONB |> NOT_NULL;
  col "standard_protections" JSONB;
  col "simplified_language" JSONB;
  col "question_templates" JSONB;
  col "jurisdiction" (VARCHAR 100) |> DEFAULT (Lit (VText "US"));
  col "applicable_laws" JSONB;
  col "version" (VARCHAR 50) |> DEFAULT (Lit (VText "1.0"));
  col "is_active" BOOLEAN |> DEFAULT (Lit (VBool true));
  col "usage_count" INTEGER |> DEFAULT (Lit (VInt 0));
  col "effectiveness_score" (DECIMAL 5 4);
  col "created_at" TIMESTAMP |> DEFAULT CURRENT_TIMESTAMP;
  col "updated_at" TIMESTAMP |> DEFAULT CURRENT_TIMESTAMP;
  col "last_used" TIMESTAMP
].

Definition schema (t : table_name) : list column :=
  match t with
  | users => users_columns
  | documents => documents_columns
  | analyses => analyses_columns
  | legal_templates => legal_templates_columns
  end.

(** *** Rows and the database *)

(** A row holds one value per column, in the order of the table's
    definition. A table is the list of its rows, oldest first. *)
Definition row := list (string * value).

Fixpoint assoc (name : string) (r : row) : option value :=
  match r with
  | [] => None
  | (n, v) :: r' => if String.eqb n name then Some v else assoc name r'
  end.

Definition get (r : row) (name : string) : value :=
  match assoc name r with
  | Some v => v
  | None => NULL
  end.

Fixpoint set (r : row) (name : string) (v : value) : row :=
  match r with
  | [] => []
  | (n, x) :: r' =>
      if String.eqb n name then (n, v) :: r' else (n, x) :: set r' name v
  end.

Record database := mkDb {
  rows_users : list row;
  rows_documents : list row;
  rows_analyses : list row;
  rows_legal_templates : list row
}.

Definition empty : database := mkDb [] [] [] [].

Definition table (db : database) (t : table_name) : list row :=
  match t with
  | users => rows_users db
  | documents => rows_documents db
  | analyses => rows_analyses db
  | legal_templates => rows_legal_templates db
  end.

Definition with_table (db : database) (t : table_name) (rs : list row) : database :=
  match t with
  | users => mkDb rs (rows_documents db) (rows_analyses db) (rows_legal_templates db)
  | documents => mkDb (rows_users db) rs (rows_analyses db) (rows_legal_templates db)
  | analyses => mkDb (rows_users db) (rows_documents db) rs (rows_legal_templates db)
  | legal_templates => mkDb (rows_users db) (rows_documents db) (rows_analyses db) rs
  end.

Definition is_null (v : value) : bool :=
  match v with
  | NULL => true
  | _ => false
  end.

(** [a = b] in SQL: unknown, hence not true, as soon as one side is
    [NULL]. *)
Definition sql_eq (a b : value) : bool :=
  negb (is_null a) && negb (is_null b) && bool_decide (a = b).

(** The [WHERE] clauses of the statements considered. *)
Inductive condition :=
| TRUE
| Eq (column : string) (v : value)
| Both (a b : condition).

Fixpoint selects (w : condition) (r : row) : bool :=
  match w with
  | TRUE => true
  | Eq c v => sql_eq (get r c) v
  | Both a b => selects a r && selects b r
  end.

(** What a statement reads from outside the database: the clock, and
    the identifier [uuid_generate_v4()] hands out. *)
Record env := mkEnv {
  now : Z;
  fresh_uuid : N
}.

(** *** Storing a value in a column *)

Fixpoint all_spaces (s : string) : bool :=
  match s with
  | EmptyString => true
  | String a s' => Ascii.eqb a " "%char && all_spaces s'
  end.

(** [VARCHAR(n)] refuses a longer string, unless what exceeds [n] is
    spaces only, which are cut off. *)
Definition varchar (n : nat) (s : string) : result value :=
  if (String.length s <=? n)%nat then Ok (VText s)
  else if all_spaces (substring n (String.length s - n) s)
       then Ok (VText (substring 0 n s))
       else Error string_data_right_truncation.

Definition coerce (ty : sql_type) (v : value) : result value :=
  match v, ty with
  | NULL, _ => Ok NULL
  | VUuid u, UUID =>
      if (u <? 2 ^ 128)%N then Ok v else Error numeric_value_out_of_range
  | VText s, VARCHAR n => varchar n s
  | VText _, TEXT => Ok v
  | VInt n, INTEGER =>
      if (- 2 ^ 31 <=? n) && (n <? 2 ^ 31) then Ok v
      else Error numeric_value_out_of_range
  | VBool _, BOOLEAN => Ok v
  | VTimestamp _, TIMESTAMP => Ok v
  | VDecimal d, DECIMAL p _ =>
      if Z.abs d <? 10 ^ Z.of_nat p then Ok v else Error numeric_value_out_of_range
  | VJson _, JSONB => Ok v
  | _, _ => Error datatype_mismatch
  end.

Definition eval_default (e : env) (d : option default_expr) : value :=
  match d with
  | None => NULL
  | Some uuid_generate_v4 => VUuid (fresh_uuid e)
  | Some CURRENT_TIMESTAMP => VTimestamp (now e)
  | Some (Lit v) => v
  end.

(** A row is built column by column, in the order of the definition. *)
Fixpoint build (f : column -> result value) (cols : list column) : result row :=
  match cols with
  | [] => Ok []
  | c :: cols' =>
      do v <- f c;
      do r <- build f cols';
      Ok ((col_name c, v) :: r)
  end.

(** *** Constraints *)

(** [CHECK] expressions have three truth values; [None] is unknown. *)
Fixpoint eval_check (r : row) (e : check_expr) : option bool :=
  match e with
  | Ge c bound =>
      match get r c with
      | NULL => None
      | VInt n => Some (bound <=? n)
      | _ => Some false
      end
  | Le c bound =>
      match get r c with
      | NULL => None
      | VInt n => Some (n <=? bound)
      | _ => Some false
      end
  | And a b =>
      match eval_check r a, eval_check r b with
      | Some false, _ | _, Some false => Some false
      | Some true, Some true => Some true
      | _, _ => None
      end
  end.

(** A [CHECK] is violated only when its expression is false. *)
Definition check_passes (r : row) (e : check_expr) : bool :=
  match eval_check r e with
  | Some false => false
  | _ => true
  end.

Definition column_constraints (r : row) (c : column) : result unit :=
  do _ <- guard (negb ((col_not_null c || col_primary_key c)
                       && is_null (get r (col_name c)))) not_null_violation;
  match col_check c with
  | Some e => guard (check_passes r e) check_violation
  | None => Ok tt
  end.

Fixpoint row_constraints (cols : list column) (r : row) : result unit :=
  match cols with
  | [] => Ok tt
  | c :: cols' =>
      do _ <- column_constraints r c;
      row_constraints cols' r
  end.

(** The values other than [NULL] that a column takes in a table. *)
Definition column_values (name : string) (rs : list row) : list value :=
  List.filter (fun v => negb (is_null v)) (map (fun r => get r name) rs).

Definition unique_holds (t : table_name) (rs : list row) : bool :=
  forallb (fun c =>
             negb (col_unique c || col_primary_key c)
             || bool_decide (NoDup (column_values (col_name c) rs)))
          (schema t).

(** Whether row [r] refers, through its column [c], to the row [p]: every
    foreign key of the schema references the [id] of its parent table. *)
Definition points_to (r : row) (c : string) (p : row) : bool :=
  sql_eq (get r c) (get p "id").

(** Whether row [r] refers, through its column [c], to one of [parents]. *)
Definition refers (r : row) (c : string) (parents : list row) : bool :=
  existsb (points_to r c) parents.

Definition foreign_keys_hold (db : database) (t : table_name) (r : row) : bool :=
  forallb (fun c =>
             match col_references c with
             | Some (parent, _) =>
                 is_null (get r (col_name c)) || refers r (col_name c) (table db parent)
             | None => true
             end)
          (schema t).

(** A foreign key of [r] holds: it is [NULL], or names one of [parents]. *)
Definition key_holds (r : row) (c : string) (parents : list row) : Prop :=
  is_null (get r c) = true \/ refers r c parents = true.

(** No row is an orphan: each of its foreign keys is [NULL] or names a
    row that exists. *)
Definition no_orphans (db : database) : Prop :=
  forall t r, In r (table db t) -> foreign_keys_hold db t r = true.

(** The foreign keys that point at a table: child table, child column
    and action. *)
Definition referencing (parent : table_name) : list (table_name * string * on_delete) :=
  flat_map
    (fun child =>
       flat_map
         (fun c =>
            match col_references c with
            | Some (p, a) =>
                if bool_decide (p = parent) then [(child, col_name c, a)] else []
            | None => []
            end)
         (schema child))
    all_tables.

(** The column of that name in a table definition. *)
Definition column_named (name : string) (cols : list column) : option column :=
  List.find (fun c => String.eqb (col_name c) name) cols.

Definition known_columns (t : table_name) (given : row) : bool :=
  forallb (fun nv => existsb (fun c => String.eqb (col_name c) (fst nv)) (schema t))
          given.

(** The checks on the column list of a statement: every column exists,
    and none is named twice. *)
Definition column_list (t : table_name) (given : row) : result unit :=
  do _ <- guard (known_columns t given) undefined_column;
  guard (bool_decide (NoDup (map fst given))) duplicate_column.

(** *** INSERT *)

Definition insert_value (e : env) (given : row) (c : column) : result value :=
  match assoc (col_name c) given with
  | Some v => coerce (col_type c) v
  | None => coerce (col_type c) (eval_default e (col_default c))
  end.

Definition insert (e : env) (t : table_name) (given : row) (db : database)
  : result database :=
  do _ <- column_list t given;
  do r <- build (insert_value e given) (schema t);
  do _ <- row_constraints (schema t) r;
  let rs := (table db t ++ [r])%list in
  do _ <- guard (unique_holds t rs) unique_violation;
  let db' := with_table db t rs in
  do _ <- guard (foreign_keys_hold db' t r) foreign_key_violation;
  Ok db'.

(** *** UPDATE *)

Definition update_value (given old : row) (c : column) : result value :=
  match assoc (col_name c) given with
  | Some v => coerce (col_type c) v
  | None => Ok (get old (col_name c))
  end.

(** The trigger function: NEW.updated_at = CURRENT_TIMESTAMP; RETURN NEW. *)
Definition update_updated_at_column (e : env) (new : row) : row :=
  set new "updated_at" (VTimestamp (now e)).

(** The [BEFORE UPDATE ... FOR EACH ROW] triggers of each table. *)
Definition before_update (t : table_name) : list (env -> row -> row) :=
  match t with
  | users => [update_updated_at_column]
  | documents => [update_updated_at_column]
  | analyses => [update_updated_at_column]
  | legal_templates => [update_updated_at_column]
  end.

Definition update_row (e : env) (t : table_name) (given old : row) : result row :=
  do r <- build (update_value given old) (schema t);
  let r' := fold_left (fun new trigger => trigger e new) (before_update t) r in
  do _ <- row_constraints (schema t) r';
  Ok r'.

Fixpoint update_rows (e : env) (t : table_name) (given : row) (w : condition)
         (rs : list row) : result (list row) :=
  match rs with
  | [] => Ok []
  | r :: rs' =>
      do r' <- (if selects w r then update_row e t given r else Ok r);
      do rs'' <- update_rows e t given w rs';
      Ok (r' :: rs'')
  end.

(** The new versions of the rows a [WHERE] clause selected. *)
Fixpoint updated (w : condition) (old new : list row) : list row :=
  match old, new with
  | o :: old', n :: new' =>
      if selects w o then n :: updated w old' new' else updated w old' new'
  | _, _ => []
  end.

Definition update (e : env) (t : table_name) (given : row) (w : condition)
           (db : database) : result database :=
  do _ <- column_list t given;
  do rs <- update_rows e t given w (table db t);
  do _ <- guard (unique_holds t rs) unique_violation;
  let db' := with_table db t rs in
  do _ <- guard (forallb (foreign_keys_hold db' t) (updated w (table db t) rs))
                foreign_key_violation;
  (* no key declares ON UPDATE: an identifier that disappears must not
     be referred to *)
  let lost := List.filter (fun o => negb (refers o "id" rs))
                          (List.filter (selects w) (table db t)) in
  do _ <- guard (forallb (fun fk : table_name * string * on_delete =>
                            negb (existsb (fun r => refers r (snd (fst fk)) lost)
                                          (table db' (fst (fst fk)))))
                         (referencing t))
                foreign_key_violation;
  Ok db'.

(** *** DELETE *)

(** Deleting the rows of [t] that [doomed] selects, then, for every
    foreign key pointing at [t], what its action asks for the rows that
    referred to a deleted one. [fuel] bounds the depth of the cascade. *)
Fixpoint delete_rows (fuel : nat) (t : table_name) (doomed : row -> bool)
         (db : database) : result database :=
  match fuel with
  | O => Error cascade_too_deep
  | S fuel' =>
      let gone := List.filter doomed (table db t) in
      let db1 := with_table db t (List.filter (fun r => negb (doomed r)) (table db t)) in
      fold_left
        (fun acc (fk : table_name * string * on_delete) =>
           do db2 <- acc;
           let '(child, c, action) := fk in
           match action with
           | CASCADE => delete_rows fuel' child (fun r => refers r c gone) db2
           | NO_ACTION =>
               do _ <- guard (negb (existsb (fun r => refers r c gone) (table db2 child)))
                             foreign_key_violation;
               Ok db2
           end)
        (referencing t) (Ok db1)
  end.

Definition delete (t : table_name) (w : condition) (db : database) : result database :=
  delete_rows (length all_tables) t (selects w) db.

(** *** Statements *)

Inductive statement :=
| INSERT (t : table_name) (given : row)
| UPDATE (t : table_name) (given : row) (w : condition)
| DELETE (t : table_name) (w : condition).

Definition exec (e : env) (s : statement) (db : database) : result database :=
  match s with
  | INSERT t given => insert e t given db
  | UPDATE t given w => update e t given w db
  | DELETE t w => delete t w db
  end.

(** A statement that fails leaves the database as it found it. *)
Definition step (db : database) (c : env * statement) : database :=
  match exec (fst c) (snd c) db with
  | Ok db' => db'
  | Error _ => db
  end.

(** The database after a history of statements, from the empty one that
    init.sql creates. *)
Definition run (history : list (env * statement)) : database :=
  fold_left step history empty.

(** *** Notions the properties are stated with *)

(** A property of every row of every table. *)
Definition every_row (P : table_name -> row -> Prop) (db : database) : Prop :=
  forall t r, In r (table db t) -> P t r.

(** What a [VARCHAR(n)] column can hold: [NULL], or text of at most [n]
    characters. *)
Definition short_text (n : nat) (v : value) : Prop :=
  v = NULL \/ exists s, v = VText s /\ (String.length s <= n)%nat.

(** What the [CHECK] on [user_rating] allows. *)
Definition rating_in_range (v : value) : Prop :=
  v = NULL \/ exists n, v = VInt n /\ 1 <= n <= 5.

Definition rating_ok (t : table_name) (r : row) : Prop :=
  t = analyses -> rating_in_range (get r "user_rating").

(** The two tables with a [status] column. *)
Definition has_status (t : table_name) : Prop := t = documents \/ t = analyses.

Definition status_ok (t : table_name) (r : row) : Prop :=
  has_status t -> short_text 50 (get r "status").

(** The status values the specification lists for a Document and for an
    Analysis (section 3); init.sql names only the two defaults. *)
Definition spec_document_statuses : list string :=
  ["uploaded"; "processing"; "completed"; "failed"].
Definition spec_analysis_statuses : list string :=
  ["pending"; "completed"; "failed"].

(** An assignment list that names no column but the two a feedback
    submission writes. *)
Definition feedback_only (given : row) : Prop :=
  forall c v, assoc c given = Some v -> c = "user_rating" \/ c = "user_feedback".

(** Two versions of an analyses row that agree on every column of the
    table but the feedback columns and [updated_at]. *)
Definition same_but_feedback (old new : row) : Prop :=
  forall c, In c (map col_name (schema analyses)) ->
            c <> "user_rating" -> c <> "user_feedback" -> c <> "updated_at" ->
            get new c = get old c.

(** *** Sample data *)

(** One user, one document of theirs, one completed analysis of it. *)
Definition sample_history : list (env * statement) :=
  [ (mkEnv 1000 1, INSERT users [("email", VText "a@example.org");
                                 ("full_name", VText "A")]);
    (mkEnv 2000 2, INSERT documents
                     [("user_id", VUuid 1); ("filename", VText "lease.txt");
                      ("original_filename", VText "lease.txt");
                      ("file_path", VText "/uploads/lease.txt");
                      ("file_size", VInt 10240); ("file_type", VText "txt");
                      ("mime_type", VText "text/plain")]);
    (mkEnv 3000 3, INSERT analyses
                     [("user_id", VUuid 1); ("document_id", VUuid 2);
                      ("analysis_type", VText "risk_assessment");
                      ("model_used", VText "gemini-pro");
                      ("summary", VText "first"); ("status", VText "completed")]) ].

Definition sample_db : database := run sample_history.

Definition sample_document : row :=
  [("user_id", VUuid 1); ("filename", VText "loan.txt");
   ("original_filename", VText "loan.txt"); ("file_path", VText "/uploads/loan.txt");
   ("file_size", VInt 2048); ("file_type", VText "txt");
   ("mime_type", VText "text/plain")].

Definition sample_feedback : row :=
  [("user_rating", VInt 4); ("user_feedback", VText "clear")].

End Sql.

(* ===================================================================== *)
(** ** The analysis orchestrator *)
(* ===================================================================== *)

(** The request handlers of the backend are not among the sources at
    hand; what follows is written from the specification (sections 3, 4.2,
    4.3 and 7), one definition per sentence of its contract. *)

Module Orchestrator.

(** Modelled from the spec: the status values of a Document (section
    3); the backend's own declaration is missing. *)
Inductive DocumentStatus := doc_uploaded | doc_processing | doc_completed | doc_failed.

(** Modelled from the spec: the status values of an Analysis (section
    3); the backend's own declaration is missing. *)
Inductive AnalysisStatus := pending | completed | failed.

(** Modelled from the spec: the Document entity of section 3; the ORM
    class of the backend is missing. *)
Record Document := mkDocument {
  doc_owner : N;
  doc_category : option string;
  doc_text : string;
  doc_status : DocumentStatus
}.

(** Modelled from the spec: the structured reply of section 4.2, step 4
    (summary, key points, risk list with severities, clause list,
    confidence score); the response schema of the backend is missing. *)
Record ParsedResult := mkParsed {
  summary : string;
  key_points : list string;
  risk_assessment : list (string * string);
  clauses : list string;
  confidence_score : Z
}.

(** Modelled from the spec: the Analysis entity of section 3, with the
    error message that section 7 stores on a failed one. *)
Record Analysis := mkAnalysis {
  an_id : N;
  an_owner : N;
  an_document : N;
  an_type : string;
  an_result : option ParsedResult;
  an_status : AnalysisStatus;
  an_error : option string
}.

(** Modelled from the spec: a LegalTemplate of section 3, keyed by
    category. *)
Record LegalTemplate := mkTemplate {
  tpl_category : string;
  tpl_guidance : string
}.

(** Modelled from the spec: the analysis-type request of section 4.2
    (requested type and focus areas); the request schema is missing. *)
Record AnalysisRequest := mkRequest {
  req_type : string;
  req_focus_areas : list string
}.

(** Modelled from the spec: the Document and Analysis stores of section
    4.3 (create, get-by-id-scoped-to-owner). Documents are keyed by id;
    analyses are kept newest first. *)
Record Store := mkStore {
  documents : gmap N Document;
  analyses : list Analysis;
  next_id : N
}.

(** Modelled from the spec: what the call to the external model comes
    back with (sections 4.2 and 7): a reply, or the model unreachable, or
    the bounded wait expired; the client of the model is missing. *)
Inductive ModelOutcome :=
| Reply (raw : string)
| Unreachable (message : string)
| TimedOut (message : string).

(** Modelled from the spec: the answers of the analyze endpoint
    (section 7); the handler is missing. *)
Inductive Response :=
| Success (a : Analysis)
| NotFoundOrForbidden
| ExternalServiceError (gateway_timeout : bool).

(** Modelled from the spec: the status codes of section 7. A malformed
    reply is answered with the failed Analysis, not with a 5xx. *)
Definition status_code (r : Response) : Z :=
  match r with
  | Success _ => 200
  | NotFoundOrForbidden => 404
  | ExternalServiceError false => 502
  | ExternalServiceError true => 504
  end.

(** Modelled from the spec: the Analysis an answer carries, if any; the
    error answers carry a structured error body and no data. *)
Definition body (r : Response) : option Analysis :=
  match r with
  | Success a => Some a
  | _ => None
  end.

(** Modelled from the spec: get-by-id-scoped-to-owner (section 4.3). *)
Definition get_document (st : Store) (owner id : N) : option Document :=
  match documents st !! id with
  | Some d => if bool_decide (doc_owner d = owner) then Some d else None
  | None => None
  end.

(** Modelled from the spec: create, on the Analysis store. *)
Definition create_analysis (st : Store) (owner document : N) (type : string)
           (res : option ParsedResult) (status : AnalysisStatus) (err : option string)
  : Store * Analysis :=
  let a := mkAnalysis (next_id st) owner document type res status err in
  (mkStore (documents st) (a :: analyses st) (N.succ (next_id st)), a).

Section WithCollaborators.

(** Modelled from the spec: the collaborators it leaves outside, taken
    as given: the template catalog with its generic entry, the external
    model, and the validation of its reply against the expected schema
    ([None] when the reply does not parse or lacks a required field). *)
Variable templates : list LegalTemplate.
Variable generic_template : LegalTemplate.
Variable call_model : string -> LegalTemplate -> AnalysisRequest -> ModelOutcome.
Variable parse_reply : string -> option ParsedResult.

(** Modelled from the spec: step 2 of section 4.2; never fails. *)
Definition resolve_template (category : option string) : LegalTemplate :=
  match category with
  | Some c =>
      match List.find (fun t => String.eqb (tpl_category t) c) templates with
      | Some t => t
      | None => generic_template
      end
  | None => generic_template
  end.

(** Modelled from the spec: steps 3 to 5 of section 4.2, once the
    document is loaded. *)
Definition analyze_document (st : Store) (caller document_id : N) (doc : Document)
           (req : AnalysisRequest) : Store * Response :=
  let template := resolve_template (doc_category doc) in
  match call_model (doc_text doc) template req with
  | Reply raw =>
      match parse_reply raw with
      | Some parsed =>
          let '(st', a) := create_analysis st caller document_id (req_type req)
                                           (Some parsed) completed None in
          (st', Success a)
      | None =>
          let '(st', a) := create_analysis st caller document_id (req_type req)
                                           None failed (Some "MalformedModelResponse") in
          (st', Success a)
      end
  | Unreachable message =>
      let '(st', _) := create_analysis st caller document_id (req_type req)
                                       None failed (Some message) in
      (st', ExternalServiceError false)
  | TimedOut message =>
      let '(st', _) := create_analysis st caller document_id (req_type req)
                                       None failed (Some message) in
      (st', ExternalServiceError true)
  end.

(** Modelled from the spec: POST /analysis/analyze/{documentId}
    (section 4.2), for an authenticated caller. *)
Definition analyze (st : Store) (caller document_id : N) (req : AnalysisRequest)
  : Store * Response :=
  match get_document st caller document_id with
  | None => (st, NotFoundOrForbidden)
  | Some doc => analyze_document st caller document_id doc req
  end.

End WithCollaborators.

(** *** Sample data *)

(** A store with one document, of user 1, and a model that answers
    every request with the same reply, which the validation accepts. *)
Definition sample_document : Document :=
  mkDocument 1 (Some "rental_agreement") "Rent is due on the 1st of each month"
             doc_uploaded.
Definition sample_store : Store := mkStore {[ 7%N := sample_document ]} [] 0.
Definition sample_generic : LegalTemplate := mkTemplate "generic" "".
Definition sample_model (text : string) (t : LegalTemplate) (req : AnalysisRequest)
  : ModelOutcome := Reply "{}".
Definition sample_parse (raw : string) : option ParsedResult :=
  Some (mkParsed "..." [] [("late_fee", "low")] [] 9000).
Definition sample_request : AnalysisRequest := mkRequest "risk_assessment" [].

End Orchestrator.

(* ===================================================================== *)
(** ** Runs of the documents slice *)
(* ===================================================================== *)

Module DocumentRuns.
Import Api DocumentSlice.

(** What an action assigns to [isLoading], if it assigns it: the three
    plain reducers do not, a [pending] case assigns true, a [fulfilled]
    or [rejected] case false. *)
Definition writes_isLoading (a : Action) : option bool :=
  match a with
  | clearError | setUploadProgress _ | clearCurrentDocument => None
  | uploadDocument_pending | fetchDocuments_pending
  | fetchDocument_pending | deleteDocument_pending => Some true
  | _ => Some false
  end.

(** What an action assigns to [error], if it assigns it. *)
Definition writes_error (a : Action) : option (option string) :=
  match a with
  | setUploadProgress _ | clearCurrentDocument => None
  | uploadDocument_rejected payload | fetchDocuments_rejected payload
  | fetchDocument_rejected payload | deleteDocument_rejected payload =>
      Some (Some payload)
  | _ => Some None
  end.

(** What an action assigns to [total], [skip] and [limit], if it assigns
    them: [fetchDocuments.fulfilled] alone does. *)
Definition writes_page (a : Action) : option (Z * Z * Z) :=
  match a with
  | fetchDocuments_fulfilled payload =>
      Some (dl_total payload, dl_skip payload, dl_limit payload)
  | _ => None
  end.

Definition page (s : DocumentState) : Z * Z * Z := (total s, skip s, limit s).

(** Actions that leave a field alone. *)
Definition keeps_isLoading (a : Action) : bool :=
  match writes_isLoading a with None => true | Some _ => false end.
Definition keeps_error (a : Action) : bool :=
  match writes_error a with None => true | Some _ => false end.
Definition keeps_page (a : Action) : bool :=
  match writes_page a with None => true | Some _ => false end.

(** The test [doc.id !== X] of [deleteDocument.fulfilled]. *)
Definition other_than (X : string) (doc : Document) : bool :=
  negb (String.eqb (id doc) X).

End DocumentRuns.

(* ===================================================================== *)
(** ** The thunks of documentSlice.ts, from request to state *)
(* ===================================================================== *)

Module DocumentThunks.
Import Api DocumentSlice.

(** [v || fallback], for [v] a string or undefined. *)
Definition or_else (v : option string) (fallback : string) : string :=
  match v with
  | Some s => if truthy v then s else fallback
  | None => fallback
  end.

(** What comes back for a request: a reply of the server, or none
    (network failure, timeout). *)
Inductive Reply :=
| Answered (r : AxiosResponse)
| NoAnswer (message : string).

(** The reply as the caller of [api.get], [api.post], [api.delete] sees
    it, past the response interceptor. *)
Definition receive (reply : Reply) (w : Window) : Window * Settled AxiosResponse :=
  match reply with
  | Answered r => on_reply r w
  | NoAnswer message =>
      response_rejected {| err_message := message; response := None |} w
  end.

(** The four thunks, with their arguments. *)
Inductive Thunk :=
| uploadDocument (file : string)
| fetchDocuments
| fetchDocument (id : string)
| deleteDocument (id : string).

Definition pending (t : Thunk) : Action :=
  match t with
  | uploadDocument _ => uploadDocument_pending
  | fetchDocuments => fetchDocuments_pending
  | fetchDocument _ => fetchDocument_pending
  | deleteDocument _ => deleteDocument_pending
  end.

Section WithBodies.

(** Reading a response body, which is the work of the JSON parser and
    of the unchecked typing of [res.data]: its [detail] member when it
    has one, which the slice reads as a string; the body as a
    [Document]; the body as a [DocumentList]. *)
Variable detail : string -> option string.
Variable as_document : string -> Document.
Variable as_list : string -> DocumentList.

(** [error.response?.data?.detail] *)
Definition error_detail (error : AxiosError) : option string :=
  match response error with
  | Some r => detail (resp_data r)
  | None => None
  end.

(** [rejectWithValue(error.response?.data?.detail || fallback)] *)
Definition rejectWithValue (fallback : string) (error : AxiosError) : string :=
  or_else (error_detail error) fallback.

(** The action a thunk dispatches once its request is settled: the
    [try] branch returns the data of the response (the id, for a
    deletion), the [catch] branch rejects with a message. *)
Definition settled (t : Thunk) (p : Settled AxiosResponse) : Action :=
  match t, p with
  | uploadDocument _, Fulfilled r => uploadDocument_fulfilled (as_document (resp_data r))
  | uploadDocument _, Rejected e =>
      uploadDocument_rejected (rejectWithValue "Upload failed" e)
  | fetchDocuments, Fulfilled r => fetchDocuments_fulfilled (as_list (resp_data r))
  | fetchDocuments, Rejected e =>
      fetchDocuments_rejected (rejectWithValue "Failed to fetch documents" e)
  | fetchDocument _, Fulfilled r => fetchDocument_fulfilled (as_document (resp_data r))
  | fetchDocument _, Rejected e =>
      fetchDocument_rejected (rejectWithValue "Failed to fetch document" e)
  | deleteDocument id, Fulfilled _ => deleteDocument_fulfilled id
  | deleteDocument _, Rejected e =>
      deleteDocument_rejected (rejectWithValue "Failed to delete document" e)
  end.

(** One thunk from dispatch to the end, with nothing else dispatched in
    between: [pending], the request and its reply through the
    interceptor, then [fulfilled] or [rejected]. *)
Definition dispatch (t : Thunk) (reply : Reply) (w : Window) (s : DocumentState)
  : Window * DocumentState :=
  let s1 := reducer s (pending t) in
  let '(w', p) := receive reply w in
  (w', reducer s1 (settled t p)).

End WithBodies.

(** Whether axios rejects the reply: no answer, or a status outside 2xx. *)
Definition refused (reply : Reply) : bool :=
  match reply with
  | Answered r => negb (validateStatus (resp_status r))
  | NoAnswer _ => true
  end.

Definition unauthorized (reply : Reply) : bool :=
  match reply with
  | Answered r => resp_status r =? 401
  | NoAnswer _ => false
  end.

End DocumentThunks.

(* ===================================================================== *)
(** ** store/slices/analysisSlice.ts *)
(* ===================================================================== *)

Module AnalysisSlice.

(** The types of services/api.ts the slice stores. A field typed [any]
    is carried as the text of its JSON value, a [number] as [Z]: the
    slice stores them and computes with none. *)
Record Analysis := mkAnalysis {
  id : string;
  analysis_type : string;
  status : string;
  summary : option string;
  simplified_explanation : option string;
  key_points : option (list string);
  risk_assessment : option string;
  legal_implications : option string;
  clauses_analyzed : option (list string);
  problematic_clauses : option (list string);
  confidence_score : option Z;
  processing_time_seconds : option Z;
  created_at : string;
  completed_at : option string
}.

Record QuestionResponse := mkQuestionResponse {
  question : string;
  answer : string;
  qr_confidence_score : option Z;
  analysis_id : string
}.

(** What [analysisAPI.list] resolves to. *)
Record AnalysisList := mkAnalysisList {
  al_analyses : list Analysis;
  al_total : Z;
  al_skip : Z;
  al_limit : Z
}.

(** What the [submitFeedback] thunk returns: { id, rating, feedback }. *)
Record Feedback := mkFeedback {
  fb_id : string;
  fb_rating : Z;
  fb_feedback : option string
}.

Record AnalysisState := mkState {
  analyses : list Analysis;
  currentAnalysis : option Analysis;
  isLoading : bool;
  isAnalyzing : bool;
  questionAnswer : option QuestionResponse;
  error : option string
}.

Definition initialState : AnalysisState :=
  {| analyses := []; currentAnalysis := None; isLoading := false;
     isAnalyzing := false; questionAnswer := None; error := None |}.

Definition set_analyses v (s : AnalysisState) :=
  {| analyses := v; currentAnalysis := currentAnalysis s; isLoading := isLoading s;
     isAnalyzing := isAnalyzing s; questionAnswer := questionAnswer s;
     error := error s |}.
Definition set_currentAnalysis v (s : AnalysisState) :=
  {| analyses := analyses s; currentAnalysis := v; isLoading := isLoading s;
     isAnalyzing := isAnalyzing s; questionAnswer := questionAnswer s;
     error := error s |}.
Definition set_isLoading v (s : AnalysisState) :=
  {| analyses := analyses s; currentAnalysis := currentAnalysis s; isLoading := v;
     isAnalyzing := isAnalyzing s; questionAnswer := questionAnswer s;
     error := error s |}.
Definition set_isAnalyzing v (s : AnalysisState) :=
  {| analyses := analyses s; currentAnalysis := currentAnalysis s;
     isLoading := isLoading s; isAnalyzing := v; questionAnswer := questionAnswer s;
     error := error s |}.
Definition set_questionAnswer v (s : AnalysisState) :=
  {| analyses := analyses s; currentAnalysis := currentAnalysis s;
     isLoading := isLoading s; isAnalyzing := isAnalyzing s; questionAnswer := v;
     error := error s |}.
Definition set_error v (s : AnalysisState) :=
  {| analyses := analyses s; currentAnalysis := currentAnalysis s;
     isLoading := isLoading s; isAnalyzing := isAnalyzing s;
     questionAnswer := questionAnswer s; error := v |}.

(** The actions of the slice and of its five thunks. The slice has no
    case for [submitFeedback.pending] and [submitFeedback.rejected]. *)
Inductive Action :=
| clearError
| clearCurrentAnalysis
| clearQuestionAnswer
| analyzeDocument_pending
| analyzeDocument_fulfilled (payload : Analysis)
| analyzeDocument_rejected (payload : string)
| askQuestion_pending
| askQuestion_fulfilled (payload : QuestionResponse)
| askQuestion_rejected (payload : string)
| fetchAnalyses_pending
| fetchAnalyses_fulfilled (payload : AnalysisList)
| fetchAnalyses_rejected (payload : string)
| fetchAnalysis_pending
| fetchAnalysis_fulfilled (payload : Analysis)
| fetchAnalysis_rejected (payload : string)
| submitFeedback_pending
| submitFeedback_fulfilled (payload : Feedback)
| submitFeedback_rejected (payload : string).

Definition reducer (state : AnalysisState) (action : Action) : AnalysisState :=
  match action with
  | clearError => state |> set_error None
  | clearCurrentAnalysis => state |> set_currentAnalysis None
  | clearQuestionAnswer => state |> set_questionAnswer None
  (* Analyze document *)
  | analyzeDocument_pending => state |> set_isAnalyzing true |> set_error None
  | analyzeDocument_fulfilled payload =>
      state |> set_isAnalyzing false
            |> set_currentAnalysis (Some payload)
            |> (fun s => set_analyses (payload :: analyses s) s)
            |> set_error None
  | analyzeDocument_rejected payload =>
      state |> set_isAnalyzing false |> set_error (Some payload)
  (* Ask question *)
  | askQuestion_pending => state |> set_isLoading true |> set_error None
  | askQuestion_fulfilled payload =>
      state |> set_isLoading false |> set_questionAnswer (Some payload) |> set_error None
  | askQuestion_rejected payload =>
      state |> set_isLoading false |> set_error (Some payload)
  (* Fetch analyses *)
  | fetchAnalyses_pending => state |> set_isLoading true |> set_error None
  | fetchAnalyses_fulfilled payload =>
      state |> set_isLoading false |> set_analyses (al_analyses payload) |> set_error None
  | fetchAnalyses_rejected payload =>
      state |> set_isLoading false |> set_error (Some payload)
  (* Fetch single analysis *)
  | fetchAnalysis_pending => state |> set_isLoading true |> set_error None
  | fetchAnalysis_fulfilled payload =>
      state |> set_isLoading false |> set_currentAnalysis (Some payload) |> set_error None
  | fetchAnalysis_rejected payload =>
      state |> set_isLoading false |> set_error (Some payload)
  (* Submit feedback: the analysis is looked up, and nothing is done
     with it *)
  | submitFeedback_fulfilled payload =>
      match List.find (fun a => String.eqb (id a) (fb_id payload)) (analyses state) with
      | Some analysis => state
      | None => state
      end
  | submitFeedback_pending | submitFeedback_rejected _ => state
  end.

Definition run (actions : list Action) : AnalysisState :=
  fold_left reducer actions initialState.

(** *** Notions the properties are stated with *)

(** The actions of the [analyzeDocument] thunk, which drive
    [isAnalyzing], and those of [askQuestion], [fetchAnalyses] and
    [fetchAnalysis], which drive [isLoading]. *)
Definition of_analyze (a : Action) : bool :=
  match a with
  | analyzeDocument_pending | analyzeDocument_fulfilled _
  | analyzeDocument_rejected _ => true
  | _ => false
  end.

Definition of_feedback (a : Action) : bool :=
  match a with
  | submitFeedback_pending | submitFeedback_fulfilled _
  | submitFeedback_rejected _ => true
  | _ => false
  end.

(** What an action assigns to [analyses]: [fetchAnalyses.fulfilled]
    replaces the list, [analyzeDocument.fulfilled] puts one in front. *)
Definition replaces_analyses (a : Action) : bool :=
  match a with
  | fetchAnalyses_fulfilled _ => true
  | _ => false
  end.

Definition analyzed (a : Action) : list Analysis :=
  match a with
  | analyzeDocument_fulfilled payload => [payload]
  | _ => []
  end.

End AnalysisSlice.

(* ===================================================================== *)
(** ** App.tsx and components/PrivateRoute.tsx *)
(* ===================================================================== *)

Module Routes.

(** The screens a route can end in. The private ones are drawn inside
    [Layout]. *)
Inductive Page :=
| LoadingScreen
| Login
| Register
| Dashboard
| DocumentUpload
| DocumentList
| DocumentView (id : string)
| AnalysisView (id : string)
| Profile.

(** The entries of the route table of App.tsx, in its order; the last
    one is the "*" route. *)
Inductive Route :=
| route_login
| route_register
| route_index
| route_dashboard
| route_upload
| route_documents
| route_document (id : string)
| route_analysis (id : string)
| route_profile
| route_fallback.

(** What a route element renders: a screen, or [<Navigate to=... replace />]. *)
Inductive Element :=
| Show (p : Page)
| Navigate (to : string).

(** PrivateRoute: isAuthenticated ? <Outlet /> : <Navigate to="/login" replace /> *)
Definition PrivateRoute (isAuthenticated : bool) (outlet : Element) : Element :=
  if isAuthenticated then outlet else Navigate "/login".

(** The element of each route of App.tsx. *)
Definition element (isAuthenticated : bool) (r : Route) : Element :=
  match r with
  | route_login => if negb isAuthenticated then Show Login else Navigate "/dashboard"
  | route_register =>
      if negb isAuthenticated then Show Register else Navigate "/dashboard"
  | route_index => PrivateRoute isAuthenticated (Navigate "/dashboard")
  | route_dashboard => PrivateRoute isAuthenticated (Show Dashboard)
  | route_upload => PrivateRoute isAuthenticated (Show DocumentUpload)
  | route_documents => PrivateRoute isAuthenticated (Show DocumentList)
  | route_document id => PrivateRoute isAuthenticated (Show (DocumentView id))
  | route_analysis id => PrivateRoute isAuthenticated (Show (AnalysisView id))
  | route_profile => PrivateRoute isAuthenticated (Show Profile)
  | route_fallback => Navigate "/dashboard"
  end.

Section WithRouter.

(** The router's matching of a location against the route table. *)
Variable matches : string -> Route.

(** Rendering a location: a [Navigate] element renders the location it
    names, at most [fuel] elements in a row. *)
Fixpoint render (fuel : nat) (isAuthenticated : bool) (location : string)
  : option Page :=
  match fuel with
  | O => None
  | S fuel' =>
      match element isAuthenticated (matches location) with
      | Show p => Some p
      | Navigate to => render fuel' isAuthenticated to
      end
  end.

(** App: the loading screen while [isLoading], the routes otherwise. *)
Definition App (fuel : nat) (isAuthenticated isLoading : bool) (location : string)
  : option Page :=
  if isLoading then Some LoadingScreen else render fuel isAuthenticated location.

End WithRouter.

(** The screens shown to a visitor who is not signed in. *)
Definition is_public (p : Page) : bool :=
  match p with
  | Login | Register => true
  | _ => false
  end.

(** A router that knows the two locations App.tsx navigates to and the
    routes without parameters. *)
Definition sample_matches (location : string) : Route :=
  if String.eqb location "/login" then route_login
  else if String.eqb location "/register" then route_register
  else if String.eqb location "/" then route_index
  else if String.eqb location "/dashboard" then route_dashboard
  else if String.eqb location "/upload" then route_upload
  else if String.eqb location "/documents" then route_documents
  else if String.eqb location "/profile" then route_profile
  else route_fallback.

End Routes.

(* ===================================================================== *)
(** ** pages/Dashboard.tsx *)
(* ===================================================================== *)

Module Dashboard.
Import Api.

(** The [User] of services/api.ts. *)
Record User := mkUser {
  user_id : string;
  email : string;
  full_name : string;
  is_active : bool;
  is_verified : bool;
  company : option string;
  role : option string;
  preferred_language : string;
  user_created_at : string;
  last_login : option string;
  documents_processed : Z;
  api_calls_count : Z
}.

(** [n || 0], for [n] a number or undefined. *)
Definition or_zero (n : option Z) : Z :=
  match n with
  | Some v => if v =? 0 then 0 else v
  | None => 0
  end.

Record Stat := mkStat {
  title : string;
  value : Z;
  color : string
}.

Definition stats (user : option User) (documents : list Document) : list Stat :=
  [ mkStat "Documents Processed" (or_zero (documents_processed <$> user)) "primary.main";
    mkStat "API Calls" (or_zero (api_calls_count <$> user)) "secondary.main";
    mkStat "Recent Documents" (Z.of_nat (length documents)) "success.main" ].

(** documents.slice(0, 3), one list item each. *)
Definition recent_activity (documents : list Document) : list Document :=
  firstn 3 documents.

(** documents.length === 0 && <ListItem> No documents yet </ListItem> *)
Definition shows_no_documents (documents : list Document) : bool :=
  Z.of_nat (length documents) =? 0.

End Dashboard.

(* ===================================================================== *)
(** ** The Netlify configuration (config/api.ts) *)
(* ===================================================================== *)

Module NetlifyConfig.
Import Api.

(** [process.env]: a variable is a string or undefined. *)
Abbreviation Env := (gmap string string).







End NetlifyConfig.

(* ===================================================================== *)
(** ** The calls of services/api.ts *)
(* ===================================================================== *)

Module ApiCalls.

Inductive Method := GET | POST | DELETE.

(** The method and the address of the request a function of
    [authAPI], [documentsAPI] or [analysisAPI] issues, relative to the
    base URL of the client. An id is put into the address as it is. *)
Record Call := mkCall {
  call_method : Method;
  call_url : string
}.

Definition authAPI_login : Call := mkCall POST "/auth/login".
Definition authAPI_register : Call := mkCall POST "/auth/register".
Definition authAPI_getCurrentUser : Call := mkCall GET "/users/me".
Definition authAPI_logout : Call := mkCall POST "/auth/logout".

Definition documentsAPI_upload : Call := mkCall POST "/documents/upload".



End ApiCalls.

(* ===================================================================== *)
(** ** Further notions about the tables of init.sql *)
(* ===================================================================== *)

Module SqlNotions.
Import Sql.

(** A column that must hold a value: [NOT NULL], or the primary key. *)
Definition required (c : column) : bool := col_not_null c || col_primary_key c.

(** Every required column of the row holds a value. *)
Definition filled (t : table_name) (r : row) : Prop :=
  forall c, In c (schema t) -> required c = true -> get r (col_name c) <> NULL.

(** In every table, every [UNIQUE] column and the primary key take each
    value at most once. *)
Definition keys_distinct (db : database) : Prop :=
  forall t, unique_holds t (table db t) = true.

(** The rows of [parents] that row [r] refers to through column [c] are
    one row exactly. *)
Definition one_parent (r : row) (c : string) (parents : list row) : Prop :=
  exists p, In p parents /\ points_to r c p = true
            /\ forall p', In p' parents -> points_to r c p' = true -> p' = p.

(** Row [r] refers, through column [c], to none of the rows of [parents]
    that [doomed] selects. *)
Definition clear_of (r : row) (c : string) (doomed : row -> bool) (parents : list row)
  : Prop :=
  forall p, In p parents -> doomed p = true -> points_to r c p = false.

(** A column whose values are told apart: [UNIQUE], or the primary key. *)
Definition keyed (c : column) : bool := col_unique c || col_primary_key c.

(** The values a column of a type can hold. *)
Definition has_type (ty : sql_type) (v : value) : Prop :=
  match v, ty with
  | NULL, _ => True
  | VUuid u, UUID => (u < 2 ^ 128)%N
  | VText s, VARCHAR n => (String.length s <= n)%nat
  | VText _, TEXT => True
  | VInt n, INTEGER => - 2 ^ 31 <= n < 2 ^ 31
  | VBool _, BOOLEAN => True
  | VTimestamp _, TIMESTAMP => True
  | VDecimal d, DECIMAL p _ => Z.abs d < 10 ^ Z.of_nat p
  | VJson _, JSONB => True
  | _, _ => False
  end.

(** Every column of the row holds a value of the column's type. *)
Definition typed (t : table_name) (r : row) : Prop :=
  forall c, In c (schema t) -> has_type (col_type c) (get r (col_name c)).

(** What an accepted [UPDATE] makes of a row: a selected row carries the
    clock in [updated_at], another row is as it was. *)
Definition stamped (e : env) (w : condition) (old new : row) : Prop :=
  if selects w old then get new "updated_at" = VTimestamp (now e) else new = old.

End SqlNotions.

(* ===================================================================== *)
(** ** The seed script (insert_legal_templates.sql) *)
(* ===================================================================== *)

Module Seeds.
Import Sql.

(** What tells the four statements of the script apart, besides their
    JSON documents: name, category, subcategory, description. *)
Record entry := mkEntry {
  entry_name : string;
  entry_category : string;
  entry_subcategory : string;
  entry_description : string
}.

Definition entries : list entry := [
  mkEntry "Standard Rental Agreement" "rental_agreement" "residential_lease"
    "Template for analyzing residential rental agreements and lease contracts";
  mkEntry "Personal Loan Agreement" "loan_contract" "personal_loan"
    "Template for analyzing personal loan agreements and credit contracts";
  mkEntry "Employment Agreement" "employment_contract" "full_time_employment"
    "Template for analyzing employment contracts and job agreements";
  mkEntry "Website Terms of Service" "terms_of_service" "website_tos"
    "Template for analyzing website terms of service and user agreements"
].

Section WithJson.

(** The JSON documents of the script ('...'::jsonb), by template name
    and column. They are taken as well-formed documents; their text
    plays no part below. *)
Variable json : string -> string -> string.

(** INSERT INTO legal_templates (name, category, subcategory,
    description, common_clauses, ..., jurisdiction, applicable_laws)
    VALUES (...). *)
Definition values (x : entry) : row :=
  let doc c := (c, VJson (json (entry_name x) c)) in
  [ ("name", VText (entry_name x));
    ("category", VText (entry_category x));
    ("subcategory", VText (entry_subcategory x));
    ("description", VText (entry_description x));
    doc "common_clauses"; doc "risk_factors"; doc "key_terms_to_check";
    doc "red_flags"; doc "standard_protections"; doc "simplified_language";
    doc "question_templates";
    ("jurisdiction", VText "US");
    doc "applicable_laws" ].

Definition statement_of (x : entry) : statement :=
  INSERT legal_templates (values x).

Definition script : list statement := map statement_of entries.

(** The row such a statement is to add. *)
Definition seeded_row (e : env) (x : entry) : row :=
  let doc c := (c, VJson (json (entry_name x) c)) in
  [ ("id", VUuid (fresh_uuid e));
    ("name", VText (entry_name x));
    ("category", VText (entry_category x));
    ("subcategory", VText (entry_subcategory x));
    ("description", VText (entry_description x));
    doc "common_clauses"; doc "risk_factors"; doc "key_terms_to_check";
    doc "red_flags"; doc "standard_protections"; doc "simplified_language";
    doc "question_templates";
    ("jurisdiction", VText "US");
    doc "applicable_laws";
    ("version", VText "1.0");
    ("is_active", VBool true);
    ("usage_count", VInt 0);
    ("effectiveness_score", NULL);
    ("created_at", VTimestamp (now e));
    ("updated_at", VTimestamp (now e));
    ("last_used", NULL) ].

End WithJson.

(** The texts of an entry fit their columns. *)
Definition fits (x : entry) : Prop :=
  (String.length (entry_name x) <= 255)%nat
  /\ (String.length (entry_category x) <= 100)%nat
  /\ (String.length (entry_subcategory x) <= 100)%nat.

(** The identifiers handed out to the statements are identifiers, are
    pairwise distinct, and are those of no template already there. *)
Definition fresh_for (es : list env) (db : database) : Prop :=
  Forall (fun e => (fresh_uuid e < 2 ^ 128)%N) es
  /\ NoDup (map fresh_uuid es)
  /\ forall e l, In e es -> In l (table db legal_templates) ->
                 get l "id" <> VUuid (fresh_uuid e).

(** The script run statement by statement, each at its own time and
    with its own generated identifier. *)
Definition run_script (json : string -> string -> string) (es : list env)
           (db : database) : database :=
  fold_left step (combine es (script json)) db.

End Seeds.

(* ===================================================================== *)
(** * Properties *)
(* ===================================================================== *)

(** ** The shared axios client *)

Module ApiSpec.
Import Api.

Lemma truthy_Some (t : string) : truthy (Some t) = true <-> t <> "".
Proof.
  unfold truthy. rewrite negb_true_iff. split.
  - intros H ->. discriminate.
  - intros H. apply String.eqb_neq. exact H.
Qed.

Lemma request_interceptor_with_token (ls : Storage) (config : AxiosRequestConfig) (t : string) :
  getItem ls "token" = Some t -> t <> "" ->
  request_interceptor ls config = set_header "Authorization" ("Bearer " ++ t) config.
Proof.
  intros Hget Hne. unfold request_interceptor. rewrite Hget.
  apply truthy_Some in Hne. rewrite Hne. reflexivity.
Qed.

Lemma request_interceptor_without_token (ls : Storage) (config : AxiosRequestConfig) :
  truthy (getItem ls "token") = false -> request_interceptor ls config = config.
Proof. intros H. unfold request_interceptor. rewrite H. reflexivity. Qed.

Lemma is_unauthorized_spec (error : AxiosError) :
  is_unauthorized error = true <->
  exists r, response error = Some r /\ resp_status r = 401.
Proof.
  unfold is_unauthorized. destruct (response error) as [r|].
  - rewrite Z.eqb_eq. split; [eauto | intros (r' & [= <-] & H); exact H].
  - split; [discriminate | intros (r' & [=] & _)].
Qed.

Example sample_request_with_token :
  request_interceptor sample_storage sample_config
  = mkConfig "/documents/" "get" {[ "Authorization" := "Bearer abc" ]} None.
Proof. reflexivity. Qed.

Example sample_forbidden_keeps_token :
  fst (on_reply (mkResponse 403 "") (mkWindow sample_storage "/documents"))
  = mkWindow sample_storage "/documents".
Proof. reflexivity. Qed.

(** C7, as the code has it: a stored token that is the empty string is
    falsy, and the request goes out without the header. *)
Lemma empty_token_sends_no_header :
  let ls : Storage := {[ "token" := "" ]} in
  let config := mkConfig "/documents/" "get" ∅ None in
  is_Some (getItem ls "token")
  /\ headers (request_interceptor ls config) !! "Authorization" = None.
Proof. split; [eexists; reflexivity | reflexivity]. Qed.

(** C7 (amended): the request interceptor sets [Authorization] to
    [Bearer <token>] exactly when [localStorage] holds a non-empty token,
    leaving every other header and field of the request as it was, and
    hands the request on unchanged otherwise; the response interceptor,
    on an error whose response has status 401, removes the token (and no
    other key) and points the browser to [/login], and on any other error
    leaves [localStorage] and the location as they were; either way the
    error is passed on as a rejection. A reply with status 401 reaches
    that error branch. *)
Theorem interceptors_bearer_and_401 :
  (forall (ls : Storage) (config : AxiosRequestConfig) (t : string),
      getItem ls "token" = Some t -> t <> "" ->
      let config' := request_interceptor ls config in
      headers config' !! "Authorization" = Some ("Bearer " ++ t)
      /\ (forall h, h <> "Authorization" -> headers config' !! h = headers config !! h)
      /\ url config' = url config /\ method config' = method config
      /\ data config' = data config)
  /\ (forall (ls : Storage) (config : AxiosRequestConfig),
         getItem ls "token" = None \/ getItem ls "token" = Some "" ->
         request_interceptor ls config = config)
  /\ (forall (error : AxiosError) (w : Window) (r : AxiosResponse),
         response error = Some r -> resp_status r = 401 ->
         let w' := fst (response_rejected error w) in
         getItem (localStorage w') "token" = None
         /\ (forall k, k <> "token" -> getItem (localStorage w') k = getItem (localStorage w) k)
         /\ location_href w' = "/login"
         /\ snd (response_rejected error w) = Rejected error)
  /\ (forall (error : AxiosError) (w : Window),
         (forall r, response error = Some r -> resp_status r <> 401) ->
         response_rejected error w = (w, Rejected error))
  /\ (forall (r : AxiosResponse) (w : Window),
         resp_status r = 401 ->
         getItem (localStorage (fst (on_reply r w))) "token" = None
         /\ location_href (fst (on_reply r w)) = "/login").
Proof.
  split; [| split; [| split; [| split]]].
  - intros ls config t Hget Hne config'. subst config'.
    rewrite (request_interceptor_with_token ls config t Hget Hne). cbn.
    split; [apply lookup_insert_eq |].
    split; [| auto].
    intros h Hh. apply lookup_insert_ne. congruence.
  - intros ls config [H | H]; apply request_interceptor_without_token;
      rewrite H; reflexivity.
  - intros error w r Hr H401 w'. subst w'.
    assert (Hu : is_unauthorized error = true)
      by (apply is_unauthorized_spec; eauto).
    unfold response_rejected. rewrite Hu. cbn. unfold getItem, removeItem.
    split; [apply lookup_delete_eq |].
    split; [| auto].
    intros k Hk. apply lookup_delete_ne. congruence.
  - intros error w Hne. unfold response_rejected.
    destruct (is_unauthorized error) eqn:Hu; [| reflexivity].
    apply is_unauthorized_spec in Hu as (r & Hr & H401).
    exfalso. exact (Hne r Hr H401).
  - intros r w H401.
    unfold on_reply, validateStatus, response_rejected, is_unauthorized.
    cbn. rewrite H401. cbn.
    unfold getItem, removeItem. split; [apply lookup_delete_eq | reflexivity].
Qed.

(** C7 at work: a stored token "abc". *)
Lemma interceptors_bearer_and_401_witness :
  getItem sample_storage "token" = Some "abc"
  /\ "abc" <> ""
  /\ headers (request_interceptor sample_storage sample_config) !! "Authorization"
     = Some "Bearer abc".
Proof.
  assert (Hget : getItem sample_storage "token" = Some "abc") by reflexivity.
  assert (Hne : "abc" <> "") by discriminate.
  split; [exact Hget |]. split; [exact Hne |].
  destruct interceptors_bearer_and_401 as (Hrequest & _).
  apply (Hrequest sample_storage sample_config "abc" Hget Hne).
Defined.

End ApiSpec.

(** ** The documents slice *)

Module DocumentSliceSpec.
Import Api DocumentSlice.

Section Filter.
Context {A : Type} (keep : A -> bool).

Lemma filter_sublist (l : list A) : sublist (List.filter keep l) l.
Proof.
  induction l as [| x l IH]; cbn; [constructor |].
  destruct (keep x); [apply sublist_skip | apply sublist_cons]; exact IH.
Qed.

Lemma filter_greatest (l k : list A) :
  sublist k l -> Forall (fun x => keep x = true) k -> sublist k (List.filter keep l).
Proof.
  induction 1 as [| x k l Hs IH | x k l Hs IH]; intros Hk; cbn.
  - constructor.
  - inversion Hk as [| ? ? Hx Hk']; subst. rewrite Hx.
    apply sublist_skip, IH, Hk'.
  - destruct (keep x); [apply sublist_cons |]; apply IH, Hk.
Qed.
End Filter.

Lemma keeps_other_ids (X : string) (d : Document) :
  negb (String.eqb (id d) X) = true <-> id d <> X.
Proof. rewrite negb_true_iff. apply String.eqb_neq. Qed.

Lemma current_has_id_spec (cur : option Document) (X : string) :
  current_has_id cur X = true <-> exists d, cur = Some d /\ id d = X.
Proof.
  destruct cur as [d |]; cbn.
  - rewrite String.eqb_eq. split; [eauto | intros (d' & [= <-] & H); exact H].
  - split; [discriminate | intros (d' & [=] & _)].
Qed.

(** C8: [deleteDocument.fulfilled] with payload [X] leaves in
    [documents] the entries whose id is not [X], unchanged and in their
    order, and nothing else (the result is a sublist of the prior array,
    holds no entry with id [X], and contains every sublist of the prior
    array that holds none); [currentDocument] becomes null when its id
    was [X] and is otherwise kept; [isLoading] is false and [error] null
    afterwards; the other fields are untouched. *)
Theorem deleteDocument_fulfilled_frame (state : DocumentState) (X : string) :
  let state' := reducer state (deleteDocument_fulfilled X) in
  sublist (documents state') (documents state)
  /\ (forall d, In d (documents state') <-> In d (documents state) /\ id d <> X)
  /\ (forall k, sublist k (documents state) -> Forall (fun d => id d <> X) k ->
                sublist k (documents state'))
  /\ (forall d, currentDocument state = Some d -> id d = X ->
                currentDocument state' = None)
  /\ (forall d, currentDocument state = Some d -> id d <> X ->
                currentDocument state' = Some d)
  /\ (currentDocument state = None -> currentDocument state' = None)
  /\ isLoading state' = false
  /\ error state' = None
  /\ uploadProgress state' = uploadProgress state
  /\ total state' = total state
  /\ skip state' = skip state
  /\ limit state' = limit state.
Proof.
  intros state'. subst state'. unfold reducer.
  set (keep := fun doc : Document => negb (String.eqb (id doc) X)).
  assert (Hin : forall d, In d (List.filter keep (documents state)) <->
                          In d (documents state) /\ id d <> X).
  { intros d. rewrite List.filter_In. unfold keep. now rewrite keeps_other_ids. }
  assert (Hmax : forall k, sublist k (documents state) ->
                           Forall (fun d => id d <> X) k ->
                           sublist k (List.filter keep (documents state))).
  { intros k Hk Hall. apply filter_greatest; [exact Hk |].
    eapply Forall_impl; [exact Hall |]. intros d Hd. now apply keeps_other_ids. }
  pose proof (filter_sublist keep (documents state)) as Hsub.
  cbn. destruct (current_has_id (currentDocument state) X) eqn:Hc; cbn;
    (split; [exact Hsub |]); (split; [exact Hin |]); (split; [exact Hmax |]).
  - apply current_has_id_spec in Hc as (d0 & Hd0 & Hid0).
    repeat split; try reflexivity; intros; congruence.
  - repeat split; try reflexivity; try (intros; assumption).
    intros d Hcur Hid. exfalso.
    assert (current_has_id (currentDocument state) X = true)
      by (apply current_has_id_spec; eauto).
    congruence.
Qed.

Lemma reducer_preserves (s : DocumentState) (a : Action) :
  loading_without_error s -> loading_without_error (reducer s a).
Proof.
  unfold loading_without_error. intros Hs.
  destruct a; cbn; try (intros; reflexivity); try discriminate; exact Hs.
Qed.

Lemma fold_preserves (actions : list Action) (s : DocumentState) :
  loading_without_error s -> loading_without_error (fold_left reducer actions s).
Proof.
  revert s. induction actions as [| a actions IH]; intros s Hs; cbn; [exact Hs |].
  apply IH, reducer_preserves, Hs.
Qed.

(** C10: in every state the slice reaches from its initial state,
    [isLoading = true] implies [error = null]; every pending action sets
    [isLoading] true and [error] null; every rejected action, the only
    ones that write a non-null [error], sets [isLoading] false, and an
    action after which [error] is non-null has either set [isLoading]
    false or left both fields as they were. *)
Theorem loading_implies_no_error :
  (forall actions : list Action,
      isLoading (run actions) = true -> error (run actions) = None)
  /\ (forall (s : DocumentState) (a : Action),
         is_pending a = true ->
         isLoading (reducer s a) = true /\ error (reducer s a) = None)
  /\ (forall (s : DocumentState) (a : Action) (message : string),
         rejected_with a = Some message ->
         error (reducer s a) = Some message /\ isLoading (reducer s a) = false)
  /\ (forall (s : DocumentState) (a : Action),
         error (reducer s a) <> None ->
         isLoading (reducer s a) = false
         \/ (rejected_with a = None /\ error (reducer s a) = error s
             /\ isLoading (reducer s a) = isLoading s)).
Proof.
  split; [| split; [| split]].
  - intros actions. apply (fold_preserves actions initialState).
    intros H. reflexivity.
  - intros s a Ha. destruct a; try discriminate Ha; cbn; auto.
  - intros s a message Ha. destruct a; try discriminate Ha;
      injection Ha as <-; cbn; auto.
  - intros s a Herr. destruct a; cbn in *; auto; congruence.
Qed.

Example sample_delete_current :
  documents (reducer sample_state (deleteDocument_fulfilled "a")) = [sample_loan]
  /\ currentDocument (reducer sample_state (deleteDocument_fulfilled "a")) = None.
Proof. split; reflexivity. Qed.

Example sample_delete_other :
  documents (reducer sample_state (deleteDocument_fulfilled "b")) = [sample_lease]
  /\ currentDocument (reducer sample_state (deleteDocument_fulfilled "b"))
     = Some sample_lease.
Proof. split; reflexivity. Qed.

(** C8 at work: the current document is deleted, another one stays. *)
Lemma deleteDocument_fulfilled_frame_witness :
  currentDocument sample_state = Some sample_lease
  /\ id sample_lease = "a"
  /\ currentDocument (reducer sample_state (deleteDocument_fulfilled "a")) = None
  /\ In sample_loan (documents (reducer sample_state (deleteDocument_fulfilled "a"))).
Proof.
  split; [reflexivity |]. split; [reflexivity |].
  destruct (deleteDocument_fulfilled_frame sample_state "a")
    as (_ & Hin & _ & Hcurrent & _).
  split.
  - apply (Hcurrent sample_lease); reflexivity.
  - apply Hin. split; [right; left; reflexivity | discriminate].
Defined.

(** C10 at work: an upload is pending. *)
Lemma loading_implies_no_error_witness :
  isLoading (run [uploadDocument_rejected "Upload failed"; uploadDocument_pending]) = true
  /\ error (run [uploadDocument_rejected "Upload failed"; uploadDocument_pending]) = None.
Proof.
  assert (H : isLoading (run [uploadDocument_rejected "Upload failed";
                              uploadDocument_pending]) = true) by reflexivity.
  split; [exact H |].
  destruct loading_implies_no_error as (Hreach & _).
  apply Hreach, H.
Defined.

End DocumentSliceSpec.

(** ** The relational schema *)

Module SqlSpec.
Import Sql.

(** *** The result monad *)

Lemma bind_Ok {A B} (m : result A) (k : A -> result B) (b : B) :
  bind m k = Ok b <-> exists a, m = Ok a /\ k a = Ok b.
Proof.
  destruct m as [a | e]; cbn.
  - split; [eauto | intros (a' & [= <-] & H); exact H].
  - split; [discriminate | intros (a' & [=] & _)].
Qed.

Lemma guard_Ok (b : bool) (e : sql_error) (u : unit) : guard b e = Ok u <-> b = true.
Proof. destruct b, u; cbn; split; congruence. Qed.

(** Splits a hypothesis [do x <- m; k = Ok b] into its steps. *)
Ltac unbind H :=
  repeat match type of H with
    | bind (guard _ _) _ = Ok _ =>
        let u := fresh "u" in
        let Hg := fresh "Hguard" in
        apply bind_Ok in H as (u & Hg & H); apply guard_Ok in Hg
    | bind _ _ = Ok _ =>
        let a := fresh "a" in
        let Ha := fresh "Hstep" in
        apply bind_Ok in H as (a & Ha & H)
    end.

(** *** Tables *)

Lemma table_with_table_eq (db : database) (t : table_name) (rs : list row) :
  table (with_table db t rs) t = rs.
Proof. destruct t; reflexivity. Qed.

Lemma table_with_table_ne (db : database) (t t' : table_name) (rs : list row) :
  t <> t' -> table (with_table db t rs) t' = table db t'.
Proof. destruct t, t'; congruence || reflexivity. Qed.

Lemma with_table_same (db : database) (t : table_name) :
  with_table db t (table db t) = db.
Proof. destruct db, t; reflexivity. Qed.

(** *** Referring rows *)

Lemma sql_eq_true (a b : value) : sql_eq a b = true <-> a <> NULL /\ a = b.
Proof.
  unfold sql_eq. rewrite !andb_true_iff, !negb_true_iff, bool_decide_eq_true.
  split.
  - intros [[Ha _] ->]. split; [intros ->; discriminate | reflexivity].
  - intros [Ha <-]. destruct a; cbn; auto; congruence.
Qed.

Lemma refers_true (r : row) (c : string) (parents : list row) :
  refers r c parents = true <->
  exists p, In p parents /\ points_to r c p = true.
Proof. unfold refers. apply existsb_exists. Qed.

Lemma refers_one (r p : row) (c : string) (parents : list row) :
  In p parents -> refers r c [p] = true -> refers r c parents = true.
Proof.
  intros Hin Hone. apply refers_true in Hone as (p' & [<- | []] & Heq).
  apply refers_true. eauto.
Qed.

(** A row that refers to some parent, but to none of those a filter
    takes, refers to one the filter leaves. *)
Lemma refers_survivor (r : row) (c : string) (doomed : row -> bool) (parents : list row) :
  refers r c parents = true ->
  refers r c (List.filter doomed parents) = false ->
  refers r c (List.filter (fun p => negb (doomed p)) parents) = true.
Proof.
  intros Hall Hnone. apply refers_true in Hall as (p & Hp & Heq).
  apply refers_true. exists p. split; [| exact Heq].
  apply List.filter_In. split; [exact Hp |].
  destruct (doomed p) eqn:Hd; [| reflexivity].
  assert (refers r c (List.filter doomed parents) = true).
  { apply refers_true. exists p. split; [| exact Heq].
    apply List.filter_In. auto. }
  congruence.
Qed.

(** *** DELETE, table by table *)

Lemma delete_users (w : condition) (db : database) :
  let gone := List.filter (selects w) (rows_users db) in
  let gone_documents :=
    List.filter (fun d => refers d "user_id" gone) (rows_documents db) in
  delete users w db =
  Ok (mkDb (List.filter (fun u => negb (selects w u)) (rows_users db))
           (List.filter (fun d => negb (refers d "user_id" gone)) (rows_documents db))
           (List.filter (fun a => negb (refers a "user_id" gone))
              (List.filter (fun a => negb (refers a "document_id" gone_documents))
                 (rows_analyses db)))
           (rows_legal_templates db)).
Proof. reflexivity. Qed.

Lemma delete_documents (w : condition) (db : database) :
  let gone := List.filter (selects w) (rows_documents db) in
  delete documents w db =
  Ok (mkDb (rows_users db)
           (List.filter (fun d => negb (selects w d)) (rows_documents db))
           (List.filter (fun a => negb (refers a "document_id" gone)) (rows_analyses db))
           (rows_legal_templates db)).
Proof. reflexivity. Qed.

Lemma delete_analyses (w : condition) (db : database) :
  delete analyses w db =
  Ok (mkDb (rows_users db) (rows_documents db)
           (List.filter (fun a => negb (selects w a)) (rows_analyses db))
           (rows_legal_templates db)).
Proof. reflexivity. Qed.

Lemma delete_legal_templates (w : condition) (db : database) :
  delete legal_templates w db =
  Ok (mkDb (rows_users db) (rows_documents db) (rows_analyses db)
           (List.filter (fun a => negb (selects w a)) (rows_legal_templates db))).
Proof. reflexivity. Qed.

(** *** Foreign keys, table by table *)

Lemma foreign_keys_users (db : database) (r : row) :
  foreign_keys_hold db users r = true.
Proof. reflexivity. Qed.

Lemma foreign_keys_legal_templates (db : database) (r : row) :
  foreign_keys_hold db legal_templates r = true.
Proof. reflexivity. Qed.

Lemma foreign_keys_documents (db : database) (r : row) :
  foreign_keys_hold db documents r =
  (is_null (get r "user_id") || refers r "user_id" (rows_users db)) && true.
Proof. reflexivity. Qed.

Lemma foreign_keys_analyses (db : database) (r : row) :
  foreign_keys_hold db analyses r =
  (is_null (get r "user_id") || refers r "user_id" (rows_users db))
  && ((is_null (get r "document_id") || refers r "document_id" (rows_documents db))
      && true).
Proof. reflexivity. Qed.

(** *** Orphans *)

Lemma no_orphans_by_table (db : database) :
  no_orphans db <->
  (forall d, In d (rows_documents db) -> key_holds d "user_id" (rows_users db))
  /\ (forall a, In a (rows_analyses db) ->
                key_holds a "user_id" (rows_users db)
                /\ key_holds a "document_id" (rows_documents db)).
Proof.
  unfold no_orphans, key_holds. split.
  - intros H. split.
    + intros d Hd. specialize (H documents d Hd).
      rewrite foreign_keys_documents, andb_true_r in H.
      apply orb_true_iff in H. exact H.
    + intros a Ha. specialize (H analyses a Ha).
      rewrite foreign_keys_analyses, andb_true_r in H.
      apply andb_true_iff in H as [H1 H2].
      apply orb_true_iff in H1. apply orb_true_iff in H2. auto.
  - intros [Hd Ha] t r Hr. destruct t.
    + apply foreign_keys_users.
    + rewrite foreign_keys_documents, andb_true_r.
      apply orb_true_iff, Hd, Hr.
    + rewrite foreign_keys_analyses, andb_true_r.
      destruct (Ha r Hr) as [H1 H2].
      apply andb_true_iff. split; apply orb_true_iff; assumption.
    + apply foreign_keys_legal_templates.
Qed.

Lemma key_survives (r : row) (c : string) (doomed : row -> bool) (parents : list row) :
  key_holds r c parents ->
  refers r c (List.filter doomed parents) = false ->
  key_holds r c (List.filter (fun p => negb (doomed p)) parents).
Proof.
  intros [Hnull | Href] Hnone; [left; exact Hnull | right].
  apply refers_survivor; assumption.
Qed.

Lemma kept_iff (f : row -> bool) (rs : list row) (r : row) :
  In r (List.filter (fun x => negb (f x)) rs) <-> In r rs /\ f r = false.
Proof. rewrite List.filter_In, negb_true_iff. reflexivity. Qed.

Lemma delete_users_no_orphans (w : condition) (db db' : database) :
  delete users w db = Ok db' -> no_orphans db -> no_orphans db'.
Proof.
  rewrite delete_users. cbv zeta. intros [= <-].
  rewrite !no_orphans_by_table. cbn [rows_users rows_documents rows_analyses].
  intros [Hd Ha]. split.
  - intros d [Hin Hkept]%kept_iff. apply key_survives; auto.
  - intros a [[Hin Hdoc]%kept_iff Huser]%kept_iff.
    destruct (Ha a Hin) as [H1 H2]. split.
    + apply key_survives; assumption.
    + apply (key_survives a "document_id"
               (fun d => refers d "user_id" (List.filter (selects w) (rows_users db))));
        assumption.
Qed.

Lemma delete_documents_no_orphans (w : condition) (db db' : database) :
  delete documents w db = Ok db' -> no_orphans db -> no_orphans db'.
Proof.
  rewrite delete_documents. cbv zeta. intros [= <-].
  rewrite !no_orphans_by_table. cbn [rows_users rows_documents rows_analyses].
  intros [Hd Ha]. split.
  - intros d [Hin _]%kept_iff. auto.
  - intros a [Hin Hdoc]%kept_iff.
    destruct (Ha a Hin) as [H1 H2]. split; [exact H1 |].
    apply key_survives; assumption.
Qed.

Lemma not_kept (f : row -> bool) (rs : list row) (r : row) :
  f r = true -> ~ In r (List.filter (fun x => negb (f x)) rs).
Proof. intros Hf [_ H]%kept_iff. congruence. Qed.

Lemma refers_selected (r p : row) (c : string) (f : row -> bool) (parents : list row) :
  In p parents -> f p = true -> points_to r c p = true ->
  refers r c (List.filter f parents) = true.
Proof.
  intros Hin Hf Hp. apply refers_true. exists p. split; [| exact Hp].
  apply List.filter_In. auto.
Qed.

(** *** Rows built from the schema *)

Lemma column_named_name (name : string) (cols : list column) (c : column) :
  column_named name cols = Some c -> col_name c = name.
Proof.
  unfold column_named. intros H. apply List.find_some in H as [_ H].
  apply String.eqb_eq. exact H.
Qed.

Lemma build_get (f : column -> result value) (cols : list column) (r : row)
      (name : string) (c : column) :
  build f cols = Ok r -> column_named name cols = Some c ->
  exists v, f c = Ok v /\ get r name = v.
Proof.
  revert r. induction cols as [| c0 cols IH]; intros r Hb Hc; [discriminate |].
  cbn in Hb. unbind Hb. injection Hb as <-.
  unfold column_named in Hc. cbn in Hc. unfold get. cbn.
  destruct (String.eqb (col_name c0) name) eqn:Hn.
  - injection Hc as <-. eauto.
  - apply (IH _ Hstep0 Hc).
Qed.

Lemma row_constraints_column (cols : list column) (r : row) (name : string)
      (c : column) (u : unit) :
  row_constraints cols r = Ok u -> column_named name cols = Some c ->
  column_constraints r c = Ok tt.
Proof.
  induction cols as [| c0 cols IH]; intros Hr Hc; [discriminate |].
  cbn in Hr. unbind Hr. unfold column_named in Hc. cbn in Hc.
  destruct (String.eqb (col_name c0) name).
  - injection Hc as <-. destruct a. exact Hstep.
  - apply IH; assumption.
Qed.

Lemma assoc_set_ne (r : row) (name name' : string) (v : value) :
  name <> name' -> assoc name' (set r name v) = assoc name' r.
Proof.
  intros Hne. induction r as [| [n x] r IH]; [reflexivity |]. cbn.
  destruct (String.eqb n name) eqn:Hn; cbn.
  - apply String.eqb_eq in Hn. subst n.
    apply String.eqb_neq in Hne. rewrite Hne. reflexivity.
  - rewrite IH. reflexivity.
Qed.

Lemma get_set_ne (r : row) (name name' : string) (v : value) :
  name <> name' -> get (set r name v) name' = get r name'.
Proof. intros Hne. unfold get. rewrite assoc_set_ne by exact Hne. reflexivity. Qed.

(** *** Stored values *)

Lemma substring_length (s : string) (n m : nat) :
  (String.length (substring n m s) <= m)%nat.
Proof.
  revert n m. induction s as [| a s IH]; intros n m.
  - destruct n, m; cbn; lia.
  - destruct n as [| n]; cbn.
    + destruct m as [| m]; cbn; [lia |]. specialize (IH 0%nat m). lia.
    + apply IH.
Qed.

Lemma coerce_varchar (n : nat) (v v' : value) :
  coerce (VARCHAR n) v = Ok v' -> short_text n v'.
Proof.
  unfold short_text. destruct v; cbn; try discriminate.
  - intros [= <-]. left. reflexivity.
  - unfold varchar. destruct (String.length s <=? n)%nat eqn:Hlen.
    + intros [= <-]. right. exists s. split; [reflexivity |].
      apply Nat.leb_le. exact Hlen.
    + destruct (all_spaces _); [| discriminate].
      intros [= <-]. right. eexists. split; [reflexivity |].
      apply substring_length.
Qed.

Lemma coerce_integer (v v' : value) :
  coerce INTEGER v = Ok v' -> v' = v /\ (v = NULL \/ exists n, v = VInt n).
Proof.
  destruct v; cbn; try discriminate.
  - intros [= <-]. auto.
  - destruct (_ && _); [| discriminate]. intros [= <-]. eauto.
Qed.

(** *** What an accepted statement went through *)

Lemma insert_steps (e : env) (t : table_name) (given : row) (db db' : database) :
  insert e t given db = Ok db' ->
  exists r,
    build (insert_value e given) (schema t) = Ok r
    /\ row_constraints (schema t) r = Ok tt
    /\ foreign_keys_hold (with_table db t (table db t ++ [r])) t r = true
    /\ db' = with_table db t (table db t ++ [r]).
Proof.
  unfold insert. intros H. unbind H. injection H as <-.
  match goal with Hb : build _ _ = Ok ?r |- _ => exists r end.
  match goal with Hr : row_constraints _ _ = Ok ?u |- _ => destruct u end.
  auto.
Qed.

Lemma update_steps (e : env) (t : table_name) (given : row) (w : condition)
      (db db' : database) :
  update e t given w db = Ok db' ->
  exists rs,
    update_rows e t given w (table db t) = Ok rs
    /\ forallb (foreign_keys_hold (with_table db t rs) t)
               (updated w (table db t) rs) = true
    /\ forallb (fun fk : table_name * string * on_delete =>
                  negb (existsb
                          (fun r => refers r (snd (fst fk))
                             (List.filter (fun o => negb (refers o "id" rs))
                                (List.filter (selects w) (table db t))))
                          (table (with_table db t rs) (fst (fst fk)))))
               (referencing t) = true
    /\ db' = with_table db t rs.
Proof.
  unfold update. intros H. unbind H. injection H as <-.
  match goal with Hu : update_rows _ _ _ _ _ = Ok ?rs |- _ => exists rs end.
  auto.
Qed.

(** *** Invariants *)

(** What holds of the empty database and is kept by every accepted
    statement holds after every history. *)
Lemma fold_invariant (I : database -> Prop) (history : list (env * statement))
      (db : database) :
  (forall e s db db', I db -> exec e s db = Ok db' -> I db') ->
  I db -> I (fold_left step history db).
Proof.
  intros Hexec. revert db.
  induction history as [| [e s] history IH]; intros db Hdb; [exact Hdb |].
  cbn. apply IH. unfold step. cbn.
  destruct (exec e s db) as [db' | err] eqn:Hs; [| exact Hdb].
  apply (Hexec e s db); assumption.
Qed.

Lemma run_invariant (I : database -> Prop) (history : list (env * statement)) :
  I empty -> (forall e s db db', I db -> exec e s db = Ok db' -> I db') ->
  I (run history).
Proof. intros Hempty Hexec. unfold run. apply fold_invariant; assumption. Qed.

(** *** Invariants of the rows *)

Section RowInvariant.

Variable P : table_name -> row -> Prop.

Hypothesis P_insert :
  forall e t given r,
    build (insert_value e given) (schema t) = Ok r ->
    row_constraints (schema t) r = Ok tt -> P t r.

Hypothesis P_update :
  forall e t given old r,
    P t old -> update_row e t given old = Ok r -> P t r.

Lemma update_rows_every (e : env) (t : table_name) (given : row) (w : condition)
      (rs rs' : list row) :
  update_rows e t given w rs = Ok rs' ->
  (forall r, In r rs -> P t r) -> (forall r, In r rs' -> P t r).
Proof.
  revert rs'. induction rs as [| r0 rs IH]; intros rs' Hu Hall; cbn in Hu.
  - injection Hu as <-. intros r [].
  - unbind Hu. injection Hu as <-. intros r [<- | Hin].
    + destruct (selects w r0).
      * apply (P_update e t given r0); [apply Hall; left; reflexivity | exact Hstep].
      * injection Hstep as <-. apply Hall. left. reflexivity.
    + apply (IH _ Hstep0); [| exact Hin]. intros r' Hr'. apply Hall. right. exact Hr'.
Qed.

Lemma delete_subset (t : table_name) (w : condition) (db db' : database) :
  delete t w db = Ok db' ->
  forall t' r, In r (table db' t') -> In r (table db t').
Proof.
  destruct t;
    [rewrite delete_users | rewrite delete_documents
     | rewrite delete_analyses | rewrite delete_legal_templates];
    cbv zeta; intros [= <-] t' r; destruct t'; cbn;
    rewrite ?List.filter_In; tauto.
Qed.

Lemma exec_every (e : env) (s : statement) (db db' : database) :
  every_row P db -> exec e s db = Ok db' -> every_row P db'.
Proof.
  unfold every_row. intros Hdb Hexec t' r Hr. destruct s as [t given | t given w | t w].
  - cbn in Hexec. apply insert_steps in Hexec as (r0 & Hb & Hc & _ & ->).
    destruct (decide (t = t')) as [<- | Hne].
    + rewrite table_with_table_eq in Hr. apply in_app_or in Hr as [Hr | [<- | []]].
      * apply Hdb, Hr.
      * apply (P_insert e t given); assumption.
    + rewrite table_with_table_ne in Hr by exact Hne. apply Hdb, Hr.
  - cbn in Hexec. apply update_steps in Hexec as (rs & Hrs & _ & _ & ->).
    destruct (decide (t = t')) as [<- | Hne].
    + rewrite table_with_table_eq in Hr.
      apply (update_rows_every _ _ _ _ _ _ Hrs); [apply Hdb | exact Hr].
    + rewrite table_with_table_ne in Hr by exact Hne. apply Hdb, Hr.
  - cbn in Hexec. apply Hdb. apply (delete_subset _ _ _ _ Hexec), Hr.
Qed.

Lemma run_every (history : list (env * statement)) : every_row P (run history).
Proof.
  apply run_invariant; [| exact exec_every].
  intros t r Hr. destruct t; destruct Hr.
Qed.

End RowInvariant.

(** *** analyses.user_rating *)

Lemma user_rating_column :
  column_named "user_rating" (schema analyses) =
  Some (col "user_rating" INTEGER
          |> CHECK (And (Ge "user_rating" 1) (Le "user_rating" 5))).
Proof. reflexivity. Qed.

(** An integer or [NULL] that passes the [CHECK] is [NULL] or within
    1..5. *)
Lemma rating_checked (r : row) (c : column) (u : unit) :
  column_named "user_rating" (schema analyses) = Some c ->
  get r "user_rating" = NULL \/ (exists n, get r "user_rating" = VInt n) ->
  column_constraints r c = Ok u ->
  rating_in_range (get r "user_rating").
Proof.
  rewrite user_rating_column. intros [= <-] Hty Hc.
  destruct Hty as [Hnull | [n Hn]]; [left; exact Hnull |].
  right. exists n. split; [exact Hn |].
  unfold column_constraints in Hc. cbn in Hc.
  apply guard_Ok in Hc. unfold check_passes in Hc. cbn in Hc.
  rewrite Hn in Hc.
  destruct (1 <=? n) eqn:H1; destruct (n <=? 5) eqn:H5; try discriminate Hc.
  apply Z.leb_le in H1. apply Z.leb_le in H5. lia.
Qed.

Lemma rating_typed (v : value) :
  rating_in_range v -> v = NULL \/ exists n, v = VInt n.
Proof. intros [H | (n & H & _)]; eauto. Qed.

Lemma rating_ok_insert (e : env) (t : table_name) (given r : row) :
  build (insert_value e given) (schema t) = Ok r ->
  row_constraints (schema t) r = Ok tt -> rating_ok t r.
Proof.
  intros Hb Hr ->.
  destruct (build_get _ _ _ _ _ Hb user_rating_column) as (v & Hv & Hget).
  pose proof (row_constraints_column _ _ _ _ _ Hr user_rating_column) as Hc.
  apply (rating_checked r _ tt user_rating_column); [| exact Hc].
  rewrite Hget. unfold insert_value in Hv. cbn in Hv.
  destruct (assoc "user_rating" given) as [v0 |].
  - apply coerce_integer in Hv as [-> Hty]. exact Hty.
  - injection Hv as <-. left. reflexivity.
Qed.

Lemma update_row_steps (e : env) (t : table_name) (given old r : row) :
  update_row e t given old = Ok r ->
  exists r0, build (update_value given old) (schema t) = Ok r0
             /\ r = set r0 "updated_at" (VTimestamp (now e))
             /\ row_constraints (schema t) r = Ok tt.
Proof.
  unfold update_row. intros H. unbind H. injection H as <-. exists a.
  destruct a0. destruct t; cbn in *; auto.
Qed.

Lemma rating_ok_update (e : env) (t : table_name) (given old r : row) :
  rating_ok t old -> update_row e t given old = Ok r -> rating_ok t r.
Proof.
  intros Hold Hu ->. specialize (Hold eq_refl).
  apply update_row_steps in Hu as (r0 & Hb & -> & Hr).
  destruct (build_get _ _ _ _ _ Hb user_rating_column) as (v & Hv & Hget).
  pose proof (row_constraints_column _ _ _ _ _ Hr user_rating_column) as Hc.
  apply (rating_checked _ _ tt user_rating_column); [| exact Hc].
  rewrite get_set_ne by discriminate. rewrite Hget.
  unfold update_value in Hv. cbn in Hv.
  destruct (assoc "user_rating" given) as [v0 |].
  - apply coerce_integer in Hv as [-> Hty]. exact Hty.
  - injection Hv as <-. apply rating_typed, Hold.
Qed.

Lemma insert_rating_rejected (e : env) (db : database) (given : row) (n : Z) :
  assoc "user_rating" given = Some (VInt n) -> ~ 1 <= n <= 5 ->
  exists err, insert e analyses given db = Error err.
Proof.
  intros Hgiven Hout. destruct (insert e analyses given db) as [db' | err] eqn:Hi;
    [exfalso | eauto].
  apply insert_steps in Hi as (r & Hb & Hc & _ & _).
  destruct (build_get _ _ _ _ _ Hb user_rating_column) as (v & Hv & Hget).
  pose proof (rating_ok_insert e analyses given r Hb Hc eq_refl) as Hrange.
  unfold insert_value in Hv. cbn in Hv. rewrite Hgiven in Hv.
  apply coerce_integer in Hv as [-> _]. rewrite Hget in Hrange.
  destruct Hrange as [Hnull | (n' & [= <-] & Hn)]; [discriminate | auto].
Qed.

Lemma update_row_rating_rejected (e : env) (given old : row) (n : Z) :
  assoc "user_rating" given = Some (VInt n) -> ~ 1 <= n <= 5 ->
  exists err, update_row e analyses given old = Error err.
Proof.
  intros Hgiven Hout. destruct (update_row e analyses given old) as [r | err] eqn:Hu;
    [exfalso | eauto].
  apply update_row_steps in Hu as (r0 & Hb & -> & Hr).
  destruct (build_get _ _ _ _ _ Hb user_rating_column) as (v & Hv & Hget).
  pose proof (row_constraints_column _ _ _ _ _ Hr user_rating_column) as Hc.
  unfold update_value in Hv. cbn in Hv. rewrite Hgiven in Hv.
  apply coerce_integer in Hv as [-> _].
  assert (Hrange : rating_in_range
                     (get (set r0 "updated_at" (VTimestamp (now e))) "user_rating")).
  { apply (rating_checked _ _ tt user_rating_column); [| exact Hc].
    rewrite get_set_ne by discriminate. rewrite Hget. eauto. }
  rewrite get_set_ne in Hrange by discriminate. rewrite Hget in Hrange.
  destruct Hrange as [Hnull | (n' & [= <-] & Hn)]; [discriminate | auto].
Qed.

Lemma update_rows_selected (e : env) (t : table_name) (given : row) (w : condition)
      (rs rs' : list row) (r : row) :
  update_rows e t given w rs = Ok rs' -> In r rs -> selects w r = true ->
  exists r', update_row e t given r = Ok r'.
Proof.
  revert rs'. induction rs as [| r0 rs IH]; intros rs' Hu Hin Hsel; [destruct Hin |].
  cbn in Hu. unbind Hu. destruct Hin as [-> | Hin].
  - rewrite Hsel in Hstep. eauto.
  - apply (IH _ Hstep0 Hin Hsel).
Qed.

Lemma update_rows_untouched (e : env) (t : table_name) (given : row) (w : condition)
      (rs : list row) :
  (forall r, In r rs -> selects w r = false) -> update_rows e t given w rs = Ok rs.
Proof.
  induction rs as [| r0 rs IH]; intros Hnone; [reflexivity |]. cbn.
  rewrite (Hnone r0) by (left; reflexivity). cbn.
  rewrite IH by (intros r Hr; apply Hnone; right; exact Hr). reflexivity.
Qed.

Lemma selected_or_not (w : condition) (rs : list row) :
  (exists r, In r rs /\ selects w r = true) \/ (forall r, In r rs -> selects w r = false).
Proof.
  destruct (existsb (selects w) rs) eqn:Hex.
  - left. apply existsb_exists. exact Hex.
  - right. intros r Hr. destruct (selects w r) eqn:Hs; [| reflexivity].
    assert (existsb (selects w) rs = true) by (apply existsb_exists; eauto).
    congruence.
Qed.

(** C9: in every database a history of statements leads to, the
    [user_rating] of every analyses row is [NULL] or an integer from 1 to
    5; an [INSERT] that gives a rating outside 1..5 is refused, and so is
    an [UPDATE] that assigns one as soon as it selects a row; either
    statement leaves the database as it was. *)
Theorem user_rating_checked :
  (forall (history : list (env * statement)) (a : row),
      In a (table (run history) analyses) -> rating_in_range (get a "user_rating"))
  /\ (forall (e : env) (db : database) (given : row) (n : Z),
         assoc "user_rating" given = Some (VInt n) -> ~ 1 <= n <= 5 ->
         (exists err, exec e (INSERT analyses given) db = Error err)
         /\ step db (e, INSERT analyses given) = db)
  /\ (forall (e : env) (db : database) (given : row) (w : condition) (n : Z),
         assoc "user_rating" given = Some (VInt n) -> ~ 1 <= n <= 5 ->
         ((exists a, In a (table db analyses) /\ selects w a = true) ->
          exists err, exec e (UPDATE analyses given w) db = Error err)
         /\ step db (e, UPDATE analyses given w) = db).
Proof.
  split; [| split].
  - intros history a Ha.
    apply (run_every rating_ok rating_ok_insert rating_ok_update history analyses a Ha).
    reflexivity.
  - intros e db given n Hgiven Hout.
    destruct (insert_rating_rejected e db given n Hgiven Hout) as [err Herr].
    split; [exists err; exact Herr |]. unfold step. cbn. rewrite Herr. reflexivity.
  - intros e db given w n Hgiven Hout.
    assert (Hsel : forall a, In a (table db analyses) -> selects w a = true ->
                             exists err, exec e (UPDATE analyses given w) db = Error err).
    { intros a Ha Hs. cbn.
      destruct (update e analyses given w db) as [db' | err] eqn:Hu; [exfalso | eauto].
      apply update_steps in Hu as (rs & Hrs & _ & _ & _).
      destruct (update_rows_selected _ _ _ _ _ _ _ Hrs Ha Hs) as [r' Hr'].
      destruct (update_row_rating_rejected e given a n Hgiven Hout) as [err Herr].
      congruence. }
    split; [intros (a & Ha & Hs); eauto |].
    unfold step. cbn [fst snd].
    destruct (exec e (UPDATE analyses given w) db) as [db' | err] eqn:Hexec;
      [| reflexivity].
    destruct (selected_or_not w (table db analyses)) as [(a & Ha & Hs) | Hnone].
    + destruct (Hsel a Ha Hs) as [err Herr]. congruence.
    + cbn in Hexec. apply update_steps in Hexec as (rs & Hrs & _ & _ & ->).
      rewrite (update_rows_untouched e analyses given w _ Hnone) in Hrs.
      injection Hrs as <-. apply (with_table_same db analyses).
Qed.

(** *** documents.status and analyses.status *)

Lemma documents_status_column :
  column_named "status" (schema documents) =
  Some (col "status" (VARCHAR 50) |> DEFAULT (Lit (VText "uploaded"))).
Proof. reflexivity. Qed.

Lemma analyses_status_column :
  column_named "status" (schema analyses) =
  Some (col "status" (VARCHAR 50) |> DEFAULT (Lit (VText "pending"))).
Proof. reflexivity. Qed.

Lemma status_column (t : table_name) :
  has_status t ->
  exists c, column_named "status" (schema t) = Some c /\ col_type c = VARCHAR 50.
Proof.
  intros [-> | ->]; eexists; (split; [reflexivity |]); reflexivity.
Qed.

Lemma status_ok_insert (e : env) (t : table_name) (given r : row) :
  build (insert_value e given) (schema t) = Ok r ->
  row_constraints (schema t) r = Ok tt -> status_ok t r.
Proof.
  intros Hb _ Ht. destruct (status_column t Ht) as (c & Hc & Hty).
  destruct (build_get _ _ _ _ _ Hb Hc) as (v & Hv & <-).
  unfold insert_value in Hv. rewrite Hty in Hv.
  destruct (assoc (col_name c) given); apply (coerce_varchar _ _ _ Hv).
Qed.

Lemma status_ok_update (e : env) (t : table_name) (given old r : row) :
  status_ok t old -> update_row e t given old = Ok r -> status_ok t r.
Proof.
  intros Hold Hu Ht. specialize (Hold Ht).
  destruct (status_column t Ht) as (c & Hc & Hty).
  apply update_row_steps in Hu as (r0 & Hb & -> & _).
  destruct (build_get _ _ _ _ _ Hb Hc) as (v & Hv & Hget).
  rewrite get_set_ne by discriminate. rewrite Hget.
  unfold update_value in Hv. rewrite Hty, (column_named_name _ _ _ Hc) in Hv.
  destruct (assoc "status" given).
  - apply (coerce_varchar _ _ _ Hv).
  - injection Hv as <-. exact Hold.
Qed.

Lemma run_status (history : list (env * statement)) (t : table_name) (r : row) :
  has_status t -> In r (table (run history) t) -> short_text 50 (get r "status").
Proof.
  intros Ht Hr.
  apply (run_every status_ok status_ok_insert status_ok_update history t r Hr Ht).
Qed.

Lemma insert_default_status (e : env) (t : table_name) (given : row) (db db' : database)
      (c : column) (s : string) :
  column_named "status" (schema t) = Some c ->
  col_type c = VARCHAR 50 -> col_default c = Some (Lit (VText s)) ->
  (String.length s <= 50)%nat ->
  assoc "status" given = None ->
  exec e (INSERT t given) db = Ok db' ->
  exists r, table db' t = (table db t ++ [r])%list /\ get r "status" = VText s
            /\ forall t', t' <> t -> table db' t' = table db t'.
Proof.
  intros Hc Hty Hdef Hlen Hgiven Hexec. cbn in Hexec.
  apply insert_steps in Hexec as (r & Hb & _ & _ & ->). exists r.
  split; [apply table_with_table_eq |].
  split; [| intros t' Hne; apply table_with_table_ne; congruence].
  destruct (build_get _ _ _ _ _ Hb Hc) as (v & Hv & ->).
  unfold insert_value in Hv.
  rewrite (column_named_name _ _ _ Hc), Hgiven, Hty, Hdef in Hv. cbn in Hv.
  unfold varchar in Hv. apply Nat.leb_le in Hlen. rewrite Hlen in Hv.
  congruence.
Qed.

(** C4, as the schema has it: a documents row is accepted with a status
    that is none of the four. *)
Lemma documents_status_unconstrained :
  let history :=
    [ (mkEnv 1000 1, INSERT users [("email", VText "a@example.org");
                                   ("full_name", VText "A")]);
      (mkEnv 2000 2, INSERT documents
                       [("user_id", VUuid 1); ("filename", VText "lease.txt");
                        ("original_filename", VText "lease.txt");
                        ("file_path", VText "/uploads/lease.txt");
                        ("file_size", VInt 10240); ("file_type", VText "txt");
                        ("mime_type", VText "text/plain");
                        ("status", VText "archived")]) ] in
  map (fun d => get d "status") (table (run history) documents) = [VText "archived"]
  /\ ~ In "archived" spec_document_statuses.
Proof.
  split; [vm_compute; reflexivity |].
  unfold spec_document_statuses. cbn. intros [H | [H | [H | [H | []]]]]; discriminate.
Qed.

(** C4 (amended): whatever statements ran, the status of every
    documents row is [NULL] or a text of at most 50 characters, which is
    all the schema asks of it; and a documents row inserted without a
    status is appended with status 'uploaded', the other tables staying
    as they were. *)
Theorem documents_status_default :
  (forall (history : list (env * statement)) (d : row),
      In d (table (run history) documents) -> short_text 50 (get d "status"))
  /\ (forall (e : env) (given : row) (db db' : database),
         assoc "status" given = None ->
         exec e (INSERT documents given) db = Ok db' ->
         exists d, table db' documents = (table db documents ++ [d])%list
                   /\ get d "status" = VText "uploaded"
                   /\ forall t, t <> documents -> table db' t = table db t).
Proof.
  split.
  - intros history d. apply run_status. left. reflexivity.
  - intros e given db db'.
    apply (insert_default_status e documents given db db' _ "uploaded"
             documents_status_column); try reflexivity. cbn. lia.
Qed.

(** *** Updates that assign the feedback columns only *)

Lemma column_named_In (name : string) (cols : list column) :
  In name (map col_name cols) -> exists c, column_named name cols = Some c.
Proof.
  unfold column_named. induction cols as [| c0 cols IH]; [intros [] |].
  cbn. intros [<- | Hin].
  - rewrite String.eqb_refl. eauto.
  - destruct (String.eqb (col_name c0) name); eauto.
Qed.

Lemma update_row_feedback (e : env) (given old r : row) :
  feedback_only given -> update_row e analyses given old = Ok r ->
  same_but_feedback old r.
Proof.
  intros Hgiven Hu c Hc Hr Hf Hu'.
  apply update_row_steps in Hu as (r0 & Hb & -> & _).
  destruct (column_named_In _ _ Hc) as [cc Hcc].
  destruct (build_get _ _ _ _ _ Hb Hcc) as (v & Hv & Hget).
  rewrite get_set_ne by congruence. rewrite Hget.
  unfold update_value in Hv. rewrite (column_named_name _ _ _ Hcc) in Hv.
  destruct (assoc c given) as [x |] eqn:Hx.
  - destruct (Hgiven c x Hx); congruence.
  - congruence.
Qed.

Lemma update_rows_feedback (e : env) (given : row) (w : condition) (rs rs' : list row) :
  feedback_only given -> update_rows e analyses given w rs = Ok rs' ->
  Forall2 same_but_feedback rs rs'.
Proof.
  intros Hgiven. revert rs'. induction rs as [| r0 rs IH]; intros rs' Hu; cbn in Hu.
  - injection Hu as <-. constructor.
  - unbind Hu. injection Hu as <-. constructor; [| apply IH; exact Hstep0].
    destruct (selects w r0).
    + apply (update_row_feedback e given); assumption.
    + injection Hstep as <-. intros c _ _ _ _. reflexivity.
Qed.

(** C5, as the schema has it: an analyses row whose status is
    'completed' is updated like any other, here in its summary and in
    its status, which ends up as none of the three. *)
Lemma completed_analysis_rewritten :
  let history := sample_history in
  let rewrite :=
    (mkEnv 4000 4, UPDATE analyses [("summary", VText "second");
                                    ("status", VText "archived")]
                          (Eq "id" (VUuid 3))) in
  map (fun a => (get a "status", get a "summary")) (table (run history) analyses)
  = [(VText "completed", VText "first")]
  /\ map (fun a => (get a "status", get a "summary"))
         (table (run (history ++ [rewrite])) analyses)
     = [(VText "archived", VText "second")]
  /\ ~ In "archived" spec_analysis_statuses.
Proof.
  split; [vm_compute; reflexivity |]. split; [vm_compute; reflexivity |].
  unfold spec_analysis_statuses. cbn. intros [H | [H | [H | []]]]; discriminate.
Qed.

(** C5 (amended): whatever statements ran, the status of every analyses
    row is [NULL] or a text of at most 50 characters, which is all the
    schema asks of it; an analyses row inserted without a status is
    appended with status 'pending'; and an [UPDATE] of analyses that
    assigns no column but [user_rating] and [user_feedback] changes, in
    every row, no column of the table but these two and [updated_at],
    which the trigger sets, and no row of another table. *)
Theorem analyses_status_and_feedback :
  (forall (history : list (env * statement)) (a : row),
      In a (table (run history) analyses) -> short_text 50 (get a "status"))
  /\ (forall (e : env) (given : row) (db db' : database),
         assoc "status" given = None ->
         exec e (INSERT analyses given) db = Ok db' ->
         exists a, table db' analyses = (table db analyses ++ [a])%list
                   /\ get a "status" = VText "pending"
                   /\ forall t, t <> analyses -> table db' t = table db t)
  /\ (forall (e : env) (given : row) (w : condition) (db db' : database),
         feedback_only given ->
         exec e (UPDATE analyses given w) db = Ok db' ->
         Forall2 same_but_feedback (table db analyses) (table db' analyses)
         /\ forall t, t <> analyses -> table db' t = table db t).
Proof.
  split; [| split].
  - intros history a. apply run_status. right. reflexivity.
  - intros e given db db'.
    apply (insert_default_status e analyses given db db' _ "pending"
             analyses_status_column); try reflexivity. cbn. lia.
  - intros e given w db db' Hgiven Hexec. cbn in Hexec.
    apply update_steps in Hexec as (rs & Hrs & _ & _ & ->). split.
    + rewrite table_with_table_eq.
      apply (update_rows_feedback e given w); assumption.
    + intros t Hne. apply table_with_table_ne. congruence.
Qed.

(** *** No statement makes an orphan *)

Lemma refers_app (r : row) (c : string) (ps qs : list row) :
  refers r c ps = true -> refers r c (ps ++ qs) = true.
Proof.
  intros (p & Hp & Hpt)%refers_true. apply refers_true. exists p.
  split; [apply in_or_app; left; exact Hp | exact Hpt].
Qed.

Lemma key_holds_app (r : row) (c : string) (ps qs : list row) :
  key_holds r c ps -> key_holds r c (ps ++ qs).
Proof. intros [H | H]; [left; exact H | right; apply refers_app, H]. Qed.

Lemma foreign_keys_documents_iff (db : database) (r : row) :
  foreign_keys_hold db documents r = true <-> key_holds r "user_id" (rows_users db).
Proof.
  rewrite foreign_keys_documents, andb_true_r. unfold key_holds.
  apply orb_true_iff.
Qed.

Lemma foreign_keys_analyses_iff (db : database) (r : row) :
  foreign_keys_hold db analyses r = true <->
  key_holds r "user_id" (rows_users db) /\ key_holds r "document_id" (rows_documents db).
Proof.
  rewrite foreign_keys_analyses, andb_true_r, andb_true_iff. unfold key_holds.
  rewrite !orb_true_iff. reflexivity.
Qed.

Lemma insert_no_orphans (e : env) (t : table_name) (given : row) (db db' : database) :
  insert e t given db = Ok db' -> no_orphans db -> no_orphans db'.
Proof.
  intros Hi Hdb. apply insert_steps in Hi as (r & _ & _ & Hfk & ->).
  apply no_orphans_by_table in Hdb as [Hd Ha]. apply no_orphans_by_table.
  destruct t; cbn [with_table table rows_users rows_documents rows_analyses] in *.
  - split.
    + intros d Hin. apply key_holds_app, Hd, Hin.
    + intros a Hin. destruct (Ha a Hin). split; [apply key_holds_app |]; assumption.
  - apply foreign_keys_documents_iff in Hfk. cbn [rows_users] in Hfk. split.
    + intros d [Hin | [<- | []]]%in_app_or; [apply Hd, Hin | exact Hfk].
    + intros a Hin. destruct (Ha a Hin). split; [| apply key_holds_app]; assumption.
  - apply foreign_keys_analyses_iff in Hfk. cbn [rows_users rows_documents] in Hfk.
    split; [exact Hd |].
    intros a [Hin | [<- | []]]%in_app_or; [apply Ha, Hin | exact Hfk].
  - split; assumption.
Qed.

Lemma update_rows_kept (e : env) (t : table_name) (given : row) (w : condition)
      (old rs : list row) (p : row) :
  update_rows e t given w old = Ok rs -> In p old -> selects w p = false -> In p rs.
Proof.
  revert rs. induction old as [| r0 old IH]; intros rs Hu Hin Hsel; [destruct Hin |].
  cbn in Hu. unbind Hu. injection Hu as <-. destruct Hin as [-> | Hin].
  - rewrite Hsel in Hstep. injection Hstep as <-. left. reflexivity.
  - right. apply (IH _ Hstep0 Hin Hsel).
Qed.

Lemma update_rows_origin (e : env) (t : table_name) (given : row) (w : condition)
      (old rs : list row) (r : row) :
  update_rows e t given w old = Ok rs -> In r rs ->
  In r (updated w old rs) \/ (In r old /\ selects w r = false).
Proof.
  revert rs. induction old as [| r0 old IH]; intros rs Hu Hin; cbn in Hu.
  - injection Hu as <-. destruct Hin.
  - unbind Hu. injection Hu as <-. cbn [updated].
    destruct (selects w r0) eqn:Hsel.
    + destruct Hin as [<- | Hin]; [left; left; reflexivity |].
      destruct (IH _ Hstep0 Hin) as [H | [H1 H2]]; [left; right; exact H |].
      right. split; [right; exact H1 | exact H2].
    + injection Hstep as <-. destruct Hin as [<- | Hin].
      * right. split; [left; reflexivity | exact Hsel].
      * destruct (IH _ Hstep0 Hin) as [H | [H1 H2]]; [left; exact H |].
        right. split; [right; exact H1 | exact H2].
Qed.

(** A row whose key held before an update of its parents, and which
    refers to no parent whose identifier the update lost, has a key that
    holds after it. *)
Lemma key_after_update (e : env) (t : table_name) (given : row) (w : condition)
      (old rs : list row) (r : row) (c : string) :
  update_rows e t given w old = Ok rs ->
  refers r c (List.filter (fun o => negb (refers o "id" rs))
                          (List.filter (selects w) old)) = false ->
  key_holds r c old -> key_holds r c rs.
Proof.
  intros Hu Hlost [Hnull | Href]; [left; exact Hnull | right].
  apply refers_true in Href as (p & Hp & Hpt).
  destruct (selects w p) eqn:Hsel.
  - destruct (refers p "id" rs) eqn:Hid.
    + apply refers_true in Hid as (n & Hn & Hpn). apply refers_true.
      exists n. split; [exact Hn |]. unfold points_to in *.
      apply sql_eq_true in Hpt as [Hnn Heq]. apply sql_eq_true in Hpn as [_ Heq'].
      apply sql_eq_true. split; [exact Hnn | congruence].
    + exfalso.
      assert (refers r c (List.filter (fun o => negb (refers o "id" rs))
                                      (List.filter (selects w) old)) = true).
      { apply (refers_selected r p); [| rewrite Hid; reflexivity | exact Hpt].
        apply List.filter_In. auto. }
      congruence.
  - apply refers_true. exists p. split; [| exact Hpt].
    apply (update_rows_kept _ _ _ _ _ _ _ Hu Hp Hsel).
Qed.

Lemma lost_unreferenced (fks : list (table_name * string * on_delete))
      (child : table_name) (c : string) (a : on_delete) (lost : list row)
      (db : database) (r : row) :
  forallb (fun fk : table_name * string * on_delete =>
             negb (existsb (fun r => refers r (snd (fst fk)) lost)
                           (table db (fst (fst fk))))) fks = true ->
  In (child, c, a) fks -> In r (table db child) -> refers r c lost = false.
Proof.
  intros Hall Hfk Hr. rewrite forallb_forall in Hall. specialize (Hall _ Hfk).
  cbn in Hall. apply negb_true_iff in Hall.
  destruct (refers r c lost) eqn:Href; [| reflexivity].
  assert (existsb (fun r => refers r c lost) (table db child) = true)
    by (apply existsb_exists; eauto).
  congruence.
Qed.

Lemma update_no_orphans (e : env) (t : table_name) (given : row) (w : condition)
      (db db' : database) :
  update e t given w db = Ok db' -> no_orphans db -> no_orphans db'.
Proof.
  intros Hu Hdb. apply update_steps in Hu as (rs & Hrs & Hfk & Hlost & ->).
  rewrite forallb_forall in Hfk.
  apply no_orphans_by_table in Hdb as [Hd Ha]. apply no_orphans_by_table.
  destruct t; cbn [with_table table rows_users rows_documents rows_analyses] in *.
  - split.
    + intros d Hin. apply (key_after_update _ _ _ _ _ _ _ _ Hrs); [| apply Hd, Hin].
      apply (lost_unreferenced _ documents "user_id" CASCADE _ _ _ Hlost);
        [vm_compute; auto | exact Hin].
    + intros a Hin. destruct (Ha a Hin) as [H1 H2]. split; [| exact H2].
      apply (key_after_update _ _ _ _ _ _ _ _ Hrs); [| exact H1].
      apply (lost_unreferenced _ analyses "user_id" CASCADE _ _ _ Hlost);
        [vm_compute; auto | exact Hin].
  - split.
    + intros d Hin.
      destruct (update_rows_origin _ _ _ _ _ _ _ Hrs Hin) as [Hup | [Hold _]];
        [| apply Hd, Hold].
      apply Hfk, foreign_keys_documents_iff in Hup. exact Hup.
    + intros a Hin. destruct (Ha a Hin) as [H1 H2]. split; [exact H1 |].
      apply (key_after_update _ _ _ _ _ _ _ _ Hrs); [| exact H2].
      apply (lost_unreferenced _ analyses "document_id" CASCADE _ _ _ Hlost);
        [vm_compute; auto | exact Hin].
  - split; [exact Hd |]. intros a Hin.
    destruct (update_rows_origin _ _ _ _ _ _ _ Hrs Hin) as [Hup | [Hold _]];
      [| apply Ha, Hold].
    apply Hfk, foreign_keys_analyses_iff in Hup. exact Hup.
  - split; assumption.
Qed.

Lemma delete_no_orphans (t : table_name) (w : condition) (db db' : database) :
  delete t w db = Ok db' -> no_orphans db -> no_orphans db'.
Proof.
  destruct t.
  - apply delete_users_no_orphans.
  - apply delete_documents_no_orphans.
  - rewrite delete_analyses. intros [= <-]. rewrite !no_orphans_by_table.
    cbn [rows_users rows_documents rows_analyses]. intros [Hd Ha].
    split; [exact Hd |]. intros a [Hin _]%kept_iff. apply Ha, Hin.
  - rewrite delete_legal_templates. intros [= <-]. rewrite !no_orphans_by_table.
    cbn [rows_users rows_documents rows_analyses]. auto.
Qed.

Lemma exec_no_orphans (e : env) (s : statement) (db db' : database) :
  no_orphans db -> exec e s db = Ok db' -> no_orphans db'.
Proof.
  intros Hdb Hexec. destruct s as [t given | t given w | t w]; cbn in Hexec.
  - apply (insert_no_orphans _ _ _ _ _ Hexec Hdb).
  - apply (update_no_orphans _ _ _ _ _ _ Hexec Hdb).
  - apply (delete_no_orphans _ _ _ _ Hexec Hdb).
Qed.

Lemma run_no_orphans (history : list (env * statement)) : no_orphans (run history).
Proof.
  apply run_invariant; [| exact exec_no_orphans].
  intros t r Hr. destruct t; destruct Hr.
Qed.

(** C1: [DELETE FROM users] always goes through, and with every user
    row it deletes go the documents rows whose [user_id] refers to it, the
    analyses rows whose [user_id] refers to it, and the analyses rows whose
    [document_id] refers to one of those documents; [DELETE FROM documents]
    always goes through, and with every documents row it deletes go the
    analyses rows whose [document_id] refers to it. Neither leaves an
    orphan: in a database where every foreign key named an existing row,
    every foreign key still does; and that is the case of every database
    a history of statements leads to. *)
Theorem delete_cascades (e : env) (w : condition) (db : database) :
  (forall history : list (env * statement), no_orphans (run history))
  /\ (exists db',
      exec e (DELETE users w) db = Ok db'
      /\ (forall u, In u (table db users) -> selects w u = true ->
            ~ In u (table db' users)
            /\ (forall d, In d (table db documents) -> points_to d "user_id" u = true ->
                  ~ In d (table db' documents)
                  /\ (forall a, In a (table db analyses) ->
                        points_to a "document_id" d = true ->
                        ~ In a (table db' analyses)))
            /\ (forall a, In a (table db analyses) -> points_to a "user_id" u = true ->
                  ~ In a (table db' analyses)))
      /\ (no_orphans db -> no_orphans db'))
  /\ (exists db',
        exec e (DELETE documents w) db = Ok db'
        /\ (forall d, In d (table db documents) -> selects w d = true ->
              ~ In d (table db' documents)
              /\ (forall a, In a (table db analyses) ->
                    points_to a "document_id" d = true ->
                    ~ In a (table db' analyses)))
        /\ (no_orphans db -> no_orphans db')).
Proof.
  split; [exact run_no_orphans |]. split.
  - eexists. split; [cbn [exec]; apply delete_users |]. cbv zeta.
    split; [| apply (delete_users_no_orphans w db); apply delete_users].
    cbn [table rows_users rows_documents rows_analyses].
    intros u Hu Hsel.
    set (gone := List.filter (selects w) (rows_users db)).
    split; [apply not_kept; exact Hsel |]. split.
    + intros d Hd Hdu.
      assert (Hdoomed : refers d "user_id" gone = true)
        by (apply (refers_selected d u); assumption).
      split; [apply not_kept; exact Hdoomed |].
      intros a Ha Had [Hin _]%kept_iff. revert Hin. apply not_kept.
      apply (refers_selected a d); assumption.
    + intros a Ha Hau. apply not_kept.
      apply (refers_selected a u); assumption.
  - eexists. split; [cbn [exec]; apply delete_documents |]. cbv zeta.
    split; [| apply (delete_documents_no_orphans w db); apply delete_documents].
    cbn [table rows_users rows_documents rows_analyses].
    intros d Hd Hsel.
    split; [apply not_kept; exact Hsel |].
    intros a Ha Had. apply not_kept.
    apply (refers_selected a d); assumption.
Qed.

(** *** The properties at work on the sample database *)

Example sample_db_statuses :
  map (fun d => get d "status") (table sample_db documents) = [VText "uploaded"]
  /\ map (fun a => get a "status") (table sample_db analyses) = [VText "completed"].
Proof. split; vm_compute; reflexivity. Qed.

Example sample_delete_user :
  exec (mkEnv 4000 4) (DELETE users (Eq "id" (VUuid 1))) sample_db = Ok empty.
Proof. vm_compute. reflexivity. Qed.

Example sample_delete_document :
  exec (mkEnv 4000 4) (DELETE documents (Eq "id" (VUuid 2))) sample_db
  = Ok (mkDb (table sample_db users) [] [] []).
Proof. vm_compute. reflexivity. Qed.

Example sample_rating_refused :
  exec (mkEnv 4000 4) (UPDATE analyses [("user_rating", VInt 0)] (Eq "id" (VUuid 3)))
       sample_db = Error check_violation.
Proof. vm_compute. reflexivity. Qed.

Example sample_orphan_refused :
  exec (mkEnv 4000 4) (INSERT documents (set sample_document "user_id" (VUuid 9)))
       sample_db = Error foreign_key_violation.
Proof. vm_compute. reflexivity. Qed.

Lemma sample_db_no_orphans : no_orphans sample_db.
Proof.
  apply no_orphans_by_table. split.
  - intros d Hd. vm_compute in Hd. destruct Hd as [<- | []].
    right. vm_compute. reflexivity.
  - intros a Ha. vm_compute in Ha. destruct Ha as [<- | []].
    split; right; vm_compute; reflexivity.
Defined.

(** C1 at work: deleting the sample user leaves none of the analyses,
    and no orphan. *)
Lemma delete_cascades_witness :
  exists db',
    exec (mkEnv 4000 4) (DELETE users (Eq "id" (VUuid 1))) sample_db = Ok db'
    /\ (forall a, In a (table sample_db analyses) -> ~ In a (table db' analyses))
    /\ no_orphans db'.
Proof.
  destruct (delete_cascades (mkEnv 4000 4) (Eq "id" (VUuid 1)) sample_db)
    as (_ & (db' & Hexec & Hrows & Hkeep) & _).
  exists db'. split; [exact Hexec |]. split; [| exact (Hkeep sample_db_no_orphans)].
  intros a Ha.
  set (u := hd [] (table sample_db users)).
  assert (Hu : In u (table sample_db users)) by (vm_compute; left; reflexivity).
  assert (Hsel : selects (Eq "id" (VUuid 1)) u = true) by (vm_compute; reflexivity).
  destruct (Hrows u Hu Hsel) as (_ & _ & Hanalyses).
  apply (Hanalyses a Ha).
  vm_compute in Ha. destruct Ha as [<- | []]. vm_compute. reflexivity.
Defined.

(** C9 at work: a rating of 6 is refused. *)
Lemma user_rating_checked_witness :
  assoc "user_rating" [("user_rating", VInt 6)] = Some (VInt 6)
  /\ ~ 1 <= 6 <= 5
  /\ (exists a, In a (table sample_db analyses) /\ selects TRUE a = true)
  /\ (exists err, exec (mkEnv 4000 4) (UPDATE analyses [("user_rating", VInt 6)] TRUE)
                       sample_db = Error err).
Proof.
  assert (Hgiven : assoc "user_rating" [("user_rating", VInt 6)] = Some (VInt 6))
    by reflexivity.
  assert (Hout : ~ 1 <= 6 <= 5) by lia.
  assert (Hsel : exists a, In a (table sample_db analyses) /\ selects TRUE a = true).
  { destruct (table sample_db analyses) as [| a rest] eqn:Has; [discriminate Has |].
    exists a. split; [left; reflexivity | reflexivity]. }
  split; [exact Hgiven |]. split; [exact Hout |]. split; [exact Hsel |].
  destruct user_rating_checked as (_ & _ & Hupdate).
  destruct (Hupdate (mkEnv 4000 4) sample_db [("user_rating", VInt 6)] TRUE 6 Hgiven Hout)
    as (Hrefused & _).
  exact (Hrefused Hsel).
Defined.

(** C4 at work: a second document, inserted without a status. *)
Lemma documents_status_default_witness :
  assoc "status" sample_document = None
  /\ exec (mkEnv 4000 4) (INSERT documents sample_document) sample_db
     = Ok (step sample_db (mkEnv 4000 4, INSERT documents sample_document))
  /\ exists d,
      table (step sample_db (mkEnv 4000 4, INSERT documents sample_document)) documents
      = (table sample_db documents ++ [d])%list
      /\ get d "status" = VText "uploaded".
Proof.
  assert (Hgiven : assoc "status" sample_document = None) by reflexivity.
  assert (Hexec : exec (mkEnv 4000 4) (INSERT documents sample_document) sample_db
                  = Ok (step sample_db (mkEnv 4000 4, INSERT documents sample_document)))
    by (vm_compute; reflexivity).
  split; [exact Hgiven |]. split; [exact Hexec |].
  destruct documents_status_default as (_ & Hdefault).
  destruct (Hdefault _ _ _ _ Hgiven Hexec) as (d & Htable & Hstatus & _).
  exists d. split; assumption.
Defined.

Lemma sample_feedback_only : feedback_only sample_feedback.
Proof.
  intros c v H. unfold sample_feedback in H. cbn [assoc] in H.
  destruct (String.eqb_spec "user_rating" c) as [<- | _]; [left; reflexivity |].
  destruct (String.eqb_spec "user_feedback" c) as [<- | _]; [right; reflexivity |].
  discriminate H.
Defined.

(** C5 at work: feedback on the completed sample analysis. *)
Lemma analyses_status_and_feedback_witness :
  feedback_only sample_feedback
  /\ exec (mkEnv 4000 4) (UPDATE analyses sample_feedback (Eq "id" (VUuid 3))) sample_db
     = Ok (step sample_db (mkEnv 4000 4, UPDATE analyses sample_feedback (Eq "id" (VUuid 3))))
  /\ Forall2 same_but_feedback
       (table sample_db analyses)
       (table (step sample_db
                    (mkEnv 4000 4, UPDATE analyses sample_feedback (Eq "id" (VUuid 3))))
              analyses).
Proof.
  assert (Hexec : exec (mkEnv 4000 4) (UPDATE analyses sample_feedback (Eq "id" (VUuid 3)))
                       sample_db
                  = Ok (step sample_db (mkEnv 4000 4,
                                        UPDATE analyses sample_feedback (Eq "id" (VUuid 3)))))
    by (vm_compute; reflexivity).
  split; [exact sample_feedback_only |]. split; [exact Hexec |].
  destruct analyses_status_and_feedback as (_ & _ & Hfeedback).
  destruct (Hfeedback _ _ _ _ _ sample_feedback_only Hexec) as (Hrows & _).
  exact Hrows.
Defined.

End SqlSpec.

(** ** The analysis orchestrator *)

Module OrchestratorSpec.
Import Orchestrator.

Section WithCollaborators.

Variable templates : list LegalTemplate.
Variable generic_template : LegalTemplate.
Variable call_model : string -> LegalTemplate -> AnalysisRequest -> ModelOutcome.
Variable parse_reply : string -> option ParsedResult.

Local Abbreviation analyze :=
  (Orchestrator.analyze templates generic_template call_model parse_reply).
Local Abbreviation resolve_template :=
  (Orchestrator.resolve_template templates generic_template).

Lemma get_document_Some (st : Store) (owner id : N) (d : Document) :
  get_document st owner id = Some d <->
  documents st !! id = Some d /\ doc_owner d = owner.
Proof.
  unfold get_document. destruct (documents st !! id) as [d' |].
  - destruct (bool_decide (doc_owner d' = owner)) eqn:Ho.
    + apply bool_decide_eq_true in Ho. split.
      * intros [= <-]. auto.
      * intros [[= <-] _]. reflexivity.
    + apply bool_decide_eq_false in Ho. split; [discriminate |].
      intros [[= <-] H]. contradiction.
  - split; [discriminate | intros [[=] _]].
Qed.

Lemma get_document_None (st : Store) (owner id : N) :
  get_document st owner id = None <->
  documents st !! id = None
  \/ exists d, documents st !! id = Some d /\ doc_owner d <> owner.
Proof.
  unfold get_document. destruct (documents st !! id) as [d |].
  - destruct (bool_decide (doc_owner d = owner)) eqn:Ho.
    + apply bool_decide_eq_true in Ho. split; [discriminate |].
      intros [[=] | (d' & [= <-] & H)]. contradiction.
    + apply bool_decide_eq_false in Ho. split; [eauto | reflexivity].
  - split; [auto | reflexivity].
Qed.

(** C2: an analysis request on a document id that names no document,
    or a document of another owner, is answered 404 without a body, and
    writes nothing; the answer is the one the same request gets from a
    store in which that id names no document at all. *)
Theorem analyze_foreign_document_not_found
        (st : Store) (caller document_id : N) (req : AnalysisRequest) :
  documents st !! document_id = None
  \/ (exists d, documents st !! document_id = Some d /\ doc_owner d <> caller) ->
  let without :=
    mkStore (delete document_id (documents st)) (analyses st) (next_id st) in
  analyze st caller document_id req = (st, NotFoundOrForbidden)
  /\ status_code (snd (analyze st caller document_id req)) = 404
  /\ body (snd (analyze st caller document_id req)) = None
  /\ snd (analyze st caller document_id req)
     = snd (analyze without caller document_id req).
Proof.
  intros Hforeign without. apply get_document_None in Hforeign.
  assert (Hwithout : get_document without caller document_id = None).
  { apply get_document_None. left. apply lookup_delete_eq. }
  unfold Orchestrator.analyze. rewrite Hforeign, Hwithout.
  repeat split.
Qed.

(** C3: an analyze call whose document is found, and which therefore
    calls the external model, adds exactly one Analysis, owned by the
    caller and linked to the document, and touches no Document: with
    status completed and the parsed result when the reply validates;
    with status failed and an error message, answered as a record and
    not as a 5xx, when the reply is malformed; with status failed and
    the model's error message when the model is unreachable or timed
    out. *)
Theorem analyze_persists_one_analysis
        (st : Store) (caller document_id : N) (req : AnalysisRequest) (doc : Document) :
  get_document st caller document_id = Some doc ->
  let outcome := call_model (doc_text doc) (resolve_template (doc_category doc)) req in
  let st' := fst (analyze st caller document_id req) in
  let answer := snd (analyze st caller document_id req) in
  exists a,
    analyses st' = a :: analyses st
    /\ documents st' = documents st
    /\ an_owner a = caller
    /\ an_document a = document_id
    /\ match outcome with
       | Reply raw =>
           match parse_reply raw with
           | Some parsed =>
               an_status a = completed /\ an_result a = Some parsed
               /\ an_error a = None /\ answer = Success a
           | None =>
               an_status a = failed /\ (exists message, an_error a = Some message)
               /\ answer = Success a /\ status_code answer < 500
           end
       | Unreachable message | TimedOut message =>
           an_status a = failed /\ an_error a = Some message
       end.
Proof.
  intros Hdoc outcome st' answer. subst outcome st' answer.
  unfold Orchestrator.analyze. rewrite Hdoc.
  unfold analyze_document.
  destruct (call_model _ _ _) as [raw | message | message].
  - destruct (parse_reply raw) as [parsed |]; cbn; eexists;
      repeat split; eauto; lia.
  - cbn. eexists. repeat split.
  - cbn. eexists. repeat split.
Qed.

End WithCollaborators.

(** C2 at work: user 2 asks for an analysis of the document of user 1. *)
Lemma analyze_foreign_document_not_found_witness :
  (exists d, documents sample_store !! 7%N = Some d /\ doc_owner d <> 2%N)
  /\ status_code
       (snd (analyze [] sample_generic sample_model sample_parse
                     sample_store 2 7 sample_request)) = 404.
Proof.
  assert (H : exists d, documents sample_store !! 7%N = Some d /\ doc_owner d <> 2%N).
  { eexists. split; [reflexivity |]. cbn. discriminate. }
  split; [exact H |].
  apply (analyze_foreign_document_not_found
           [] sample_generic sample_model sample_parse sample_store 2 7 sample_request).
  right. exact H.
Defined.

(** C3 at work: user 1 asks for an analysis of their document. *)
Lemma analyze_persists_one_analysis_witness :
  get_document sample_store 1 7 = Some sample_document
  /\ exists a,
      analyses (fst (analyze [] sample_generic sample_model sample_parse
                             sample_store 1 7 sample_request))
      = a :: analyses sample_store
      /\ an_owner a = 1%N /\ an_document a = 7%N /\ an_status a = completed.
Proof.
  split; [reflexivity |].
  destruct (analyze_persists_one_analysis
              [] sample_generic sample_model sample_parse sample_store 1 7
              sample_request _ eq_refl) as (a & Hnew & _ & Howner & Hdoc & Hstatus).
  exists a. cbn in Hstatus. destruct Hstatus as (Hstatus & _). auto.
Defined.

End OrchestratorSpec.

(* ===================================================================== *)
(** * Further properties *)
(* ===================================================================== *)

(** ** A field and the last action that wrote it *)

Module LastWrite.

Section LastWrite.
Context {S A V : Type} (f : S -> V) (step : S -> A -> S) (writes : A -> option V).

Hypothesis step_writes :
  forall s a, f (step s a) = match writes a with Some v => v | None => f s end.

Lemma fold_no_write (l : list A) (s : S) :
  Forall (fun b => writes b = None) l -> f (fold_left step l s) = f s.
Proof.
  revert s. induction l as [| b l IH]; intros s Hl; [reflexivity |].
  inversion Hl as [| ? ? Hb Hl']; subst. cbn. rewrite IH by exact Hl'.
  rewrite step_writes, Hb. reflexivity.
Qed.

Lemma fold_last_write (before after : list A) (a : A) (s : S) (v : V) :
  writes a = Some v -> Forall (fun b => writes b = None) after ->
  f (fold_left step (before ++ a :: after) s) = v.
Proof.
  intros Ha Hafter. rewrite fold_left_app. cbn.
  rewrite fold_no_write by exact Hafter. rewrite step_writes, Ha. reflexivity.
Qed.

Lemma last_write_split (l : list A) :
  Forall (fun b => writes b = None) l
  \/ exists before a after v,
       l = (before ++ a :: after)%list /\ writes a = Some v
       /\ Forall (fun b => writes b = None) after.
Proof.
  induction l as [| b l IH]; [left; constructor |].
  destruct IH as [Hnone | (before & a & after & v & -> & Ha & Hafter)].
  - destruct (writes b) as [v |] eqn:Hb.
    + right. exists [], b, l, v. auto.
    + left. constructor; assumption.
  - right. exists (b :: before), a, after, v. auto.
Qed.

End LastWrite.

End LastWrite.

(** ** Runs of the documents slice *)

Module DocumentRunsSpec.
Import Api DocumentSlice DocumentRuns.

Lemma reducer_isLoading (s : DocumentState) (a : Action) :
  isLoading (reducer s a)
  = match writes_isLoading a with Some v => v | None => isLoading s end.
Proof.
  destruct a; try reflexivity. cbn. destruct (current_has_id _ _); reflexivity.
Qed.

Lemma reducer_error (s : DocumentState) (a : Action) :
  error (reducer s a) = match writes_error a with Some v => v | None => error s end.
Proof. destruct a; reflexivity. Qed.

Lemma reducer_page (s : DocumentState) (a : Action) :
  page (reducer s a) = match writes_page a with Some v => v | None => page s end.
Proof.
  destruct a; try reflexivity.
  unfold page. cbn. destruct (current_has_id _ _); reflexivity.
Qed.

Lemma keeps_Forall {V : Type} (writes : Action -> option V) (l : list Action) :
  forallb (fun a => match writes a with None => true | Some _ => false end) l = true
  <-> Forall (fun a => writes a = None) l.
Proof.
  rewrite forallb_forall, List.Forall_forall. split; intros H a Ha;
    specialize (H a Ha); destruct (writes a); congruence.
Qed.

Lemma pending_writes (a : Action) :
  is_pending a = true <-> writes_isLoading a = Some true.
Proof. destruct a; cbn; split; congruence. Qed.

Lemma rejected_writes (a : Action) (message : string) :
  rejected_with a = Some message <-> writes_error a = Some (Some message).
Proof. destruct a; cbn; split; congruence. Qed.

(** X1: after any run of actions, [isLoading] is true exactly when the
    last action that is not one of the three plain reducers is a
    [pending] one: the flag follows the most recent request event, not
    the number of requests still under way. *)
Theorem isLoading_follows_last_request (actions : list Action) :
  isLoading (run actions) = true <->
  exists before a after,
    actions = (before ++ a :: after)%list
    /\ is_pending a = true
    /\ forallb keeps_isLoading after = true.
Proof.
  unfold run. split.
  - intros Hloading.
    destruct (LastWrite.last_write_split writes_isLoading actions)
      as [Hnone | (before & a & after & v & -> & Ha & Hafter)].
    + rewrite (LastWrite.fold_no_write isLoading reducer writes_isLoading
                 reducer_isLoading) in Hloading by exact Hnone.
      discriminate Hloading.
    + rewrite (LastWrite.fold_last_write isLoading reducer writes_isLoading
                 reducer_isLoading _ _ _ _ v Ha Hafter) in Hloading.
      subst v. exists before, a, after.
      split; [reflexivity |]. split; [apply pending_writes, Ha |].
      apply (keeps_Forall writes_isLoading), Hafter.
  - intros (before & a & after & -> & Ha & Hafter).
    apply (LastWrite.fold_last_write isLoading reducer writes_isLoading
             reducer_isLoading).
    + apply pending_writes, Ha.
    + apply (keeps_Forall writes_isLoading), Hafter.
Qed.

(** X2: after any run of actions, [error] holds a message exactly when
    the last action other than [setUploadProgress] and
    [clearCurrentDocument] is a [rejected] one, and it holds that
    action's message. *)
Theorem error_follows_last_rejection (actions : list Action) (message : string) :
  error (run actions) = Some message <->
  exists before a after,
    actions = (before ++ a :: after)%list
    /\ rejected_with a = Some message
    /\ forallb keeps_error after = true.
Proof.
  unfold run. split.
  - intros Herror.
    destruct (LastWrite.last_write_split writes_error actions)
      as [Hnone | (before & a & after & v & -> & Ha & Hafter)].
    + rewrite (LastWrite.fold_no_write error reducer writes_error reducer_error)
        in Herror by exact Hnone.
      discriminate Herror.
    + rewrite (LastWrite.fold_last_write error reducer writes_error reducer_error
                 _ _ _ _ v Ha Hafter) in Herror.
      subst v. exists before, a, after.
      split; [reflexivity |]. split; [apply rejected_writes, Ha |].
      apply (keeps_Forall writes_error), Hafter.
  - intros (before & a & after & -> & Ha & Hafter).
    apply (LastWrite.fold_last_write error reducer writes_error reducer_error).
    + apply rejected_writes, Ha.
    + apply (keeps_Forall writes_error), Hafter.
Qed.

(** X3: [total], [skip] and [limit] are those of the last
    [fetchDocuments.fulfilled] payload, and 0, 0, 20 before the first one:
    no upload and no deletion adjusts them. *)
Theorem page_follows_last_fetch (actions : list Action) :
  (forallb keeps_page actions = true -> page (run actions) = (0, 0, 20))
  /\ (forall before payload after,
         actions = (before ++ fetchDocuments_fulfilled payload :: after)%list ->
         forallb keeps_page after = true ->
         page (run actions) = (dl_total payload, dl_skip payload, dl_limit payload)).
Proof.
  unfold run. split.
  - intros Hnone.
    rewrite (LastWrite.fold_no_write page reducer writes_page reducer_page);
      [reflexivity | apply (keeps_Forall writes_page), Hnone].
  - intros before payload after -> Hafter.
    apply (LastWrite.fold_last_write page reducer writes_page reducer_page);
      [reflexivity | apply (keeps_Forall writes_page), Hafter].
Qed.

(** *** Deletions *)

Lemma delete_fulfilled_state (s : DocumentState) (X : string) :
  reducer s (deleteDocument_fulfilled X)
  = mkState (List.filter (other_than X) (documents s))
            (if current_has_id (currentDocument s) X then None else currentDocument s)
            false (uploadProgress s) None (total s) (skip s) (limit s).
Proof. cbn. destruct (current_has_id _ _); reflexivity. Qed.

Lemma filter_swap {A : Type} (f g : A -> bool) (l : list A) :
  List.filter f (List.filter g l) = List.filter g (List.filter f l).
Proof.
  induction l as [| x l IH]; [reflexivity |]. cbn.
  destruct (g x) eqn:Hg; destruct (f x) eqn:Hf; cbn;
    rewrite ?Hg, ?Hf, IH; reflexivity.
Qed.

Lemma filter_twice {A : Type} (f : A -> bool) (l : list A) :
  List.filter f (List.filter f l) = List.filter f l.
Proof.
  induction l as [| x l IH]; [reflexivity |]. cbn.
  destruct (f x) eqn:Hf; cbn; rewrite ?Hf, IH; reflexivity.
Qed.

Lemma filter_all {A : Type} (f : A -> bool) (l : list A) :
  Forall (fun x => f x = true) l -> List.filter f l = l.
Proof.
  induction 1 as [| x l Hx Hl IH]; [reflexivity |]. cbn. rewrite Hx, IH. reflexivity.
Qed.

Lemma current_after_two (cur : option Document) (X Y : string) :
  (if current_has_id (if current_has_id cur X then None else cur) Y
   then None else if current_has_id cur X then None else cur)
  = (if current_has_id (if current_has_id cur Y then None else cur) X
     then None else if current_has_id cur Y then None else cur).
Proof.
  destruct (current_has_id cur X) eqn:HX; destruct (current_has_id cur Y) eqn:HY;
    cbn; rewrite ?HX, ?HY; reflexivity.
Qed.

(** X4: two [deleteDocument.fulfilled] actions lead to the same state in
    either order, and repeating one changes nothing more. *)
Theorem deletions_commute (s : DocumentState) (X Y : string) :
  reducer (reducer s (deleteDocument_fulfilled X)) (deleteDocument_fulfilled Y)
  = reducer (reducer s (deleteDocument_fulfilled Y)) (deleteDocument_fulfilled X)
  /\ reducer (reducer s (deleteDocument_fulfilled X)) (deleteDocument_fulfilled X)
     = reducer s (deleteDocument_fulfilled X).
Proof.
  rewrite !delete_fulfilled_state. cbn [documents currentDocument uploadProgress
                                        total skip limit].
  split.
  - rewrite (filter_swap (other_than Y) (other_than X)), (current_after_two _ X Y).
    reflexivity.
  - rewrite filter_twice. destruct (current_has_id (currentDocument s) X) eqn:HX;
      cbn; rewrite ?HX; reflexivity.
Qed.

(** X5: an upload that completes, followed by the deletion of the
    document it brought, leaves the list of documents as it was before
    the upload, provided no listed document had that id. *)
Theorem upload_then_delete (s : DocumentState) (d : Document) :
  Forall (fun x => id x <> id d) (documents s) ->
  documents (reducer (reducer s (uploadDocument_fulfilled d))
                     (deleteDocument_fulfilled (id d)))
  = documents s.
Proof.
  intros Hfresh. rewrite delete_fulfilled_state.
  cbn [documents reducer set_documents set_isLoading set_uploadProgress set_error
       List.filter].
  unfold other_than at 1. rewrite String.eqb_refl. cbn [negb]. apply filter_all.
  eapply Forall_impl; [exact Hfresh |]. intros x Hx. cbn in Hx.
  apply negb_true_iff, String.eqb_neq, Hx.
Qed.

Lemma upload_then_delete_witness :
  Forall (fun x => id x <> id (mkDocument "c" "nda.txt" "nda.txt" 512 "txt" None
                                          "uploaded" None None "2024-01-03" "2024-01-03"))
         (documents sample_state)
  /\ documents
       (reducer (reducer sample_state
                   (uploadDocument_fulfilled
                      (mkDocument "c" "nda.txt" "nda.txt" 512 "txt" None "uploaded"
                                  None None "2024-01-03" "2024-01-03")))
                (deleteDocument_fulfilled "c"))
     = documents sample_state.
Proof.
  assert (H : Forall (fun x => id x <> "c") (documents sample_state)).
  { repeat constructor; discriminate. }
  split; [exact H |].
  exact (upload_then_delete sample_state
           (mkDocument "c" "nda.txt" "nda.txt" 512 "txt" None "uploaded" None None
                       "2024-01-03" "2024-01-03") H).
Defined.

End DocumentRunsSpec.

(** ** A documents thunk from request to state *)

Module DocumentThunksSpec.
Import Api DocumentSlice DocumentRuns DocumentThunks.

Lemma or_else_nonempty (v : option string) (fallback : string) :
  fallback <> "" -> or_else v fallback <> "".
Proof.
  intros Hf. unfold or_else. destruct v as [s |]; [| exact Hf]. cbn.
  destruct (String.eqb_spec s ""); cbn; assumption.
Qed.

Lemma refused_rejects (reply : Reply) (w : Window) :
  refused reply = true ->
  exists error,
    receive reply w = response_rejected error w
    /\ is_unauthorized error = unauthorized reply.
Proof.
  destruct reply as [r | message]; cbn.
  - intros Hr. apply negb_true_iff in Hr. unfold on_reply. rewrite Hr.
    eexists. split; reflexivity.
  - intros _. eexists. split; reflexivity.
Qed.

Section WithBodies.

Variable detail : string -> option string.
Variable as_document : string -> Document.
Variable as_list : string -> DocumentList.

Local Abbreviation dispatch := (DocumentThunks.dispatch detail as_document as_list).

(** X6: one documents thunk whose request axios rejects (no answer, or
    a status outside 2xx) ends with [isLoading] false and a non-empty
    [error], and with the documents, the current document and the
    paging as they were before the dispatch; a 401 answer removes the
    stored token and points the browser to [/login], any other refusal
    leaves [localStorage] and the location alone. *)
Theorem refused_request_keeps_documents
        (t : Thunk) (reply : Reply) (w : Window) (s : DocumentState) :
  refused reply = true ->
  let w' := fst (dispatch t reply w s) in
  let s' := snd (dispatch t reply w s) in
  isLoading s' = false
  /\ (exists message, error s' = Some message /\ message <> "")
  /\ documents s' = documents s
  /\ currentDocument s' = currentDocument s
  /\ page s' = page s
  /\ (unauthorized reply = true ->
      getItem (localStorage w') "token" = None /\ location_href w' = "/login")
  /\ (unauthorized reply = false -> w' = w).
Proof.
  intros Hrefused.
  destruct (refused_rejects reply w Hrefused) as (err & Hreceive & Hunauth).
  unfold DocumentThunks.dispatch. rewrite Hreceive.
  unfold response_rejected. rewrite Hunauth. cbv zeta. cbn [fst snd].
  assert (Hwindow :
            (unauthorized reply = true ->
             getItem (localStorage
                        (if unauthorized reply
                         then {| localStorage := removeItem (localStorage w) "token";
                                 location_href := "/login" |}
                         else w)) "token" = None
             /\ location_href
                  (if unauthorized reply
                   then {| localStorage := removeItem (localStorage w) "token";
                           location_href := "/login" |}
                   else w) = "/login")
            /\ (unauthorized reply = false ->
                (if unauthorized reply
                 then {| localStorage := removeItem (localStorage w) "token";
                         location_href := "/login" |}
                 else w) = w)).
  { split; intros ->; [| reflexivity]. cbn. unfold getItem, removeItem.
    split; [apply lookup_delete_eq | reflexivity]. }
  destruct Hwindow as [H401 Hother].
  destruct t; cbn;
    (split; [reflexivity |]);
    (split; [eexists; split; [reflexivity | apply or_else_nonempty; discriminate] |]);
    auto.
Qed.

(** The same thunk when the reply is accepted: the browser is left
    alone, and the slice is neither loading nor in error. *)
Lemma accepted_request (t : Thunk) (reply : Reply) (w : Window) (s : DocumentState) :
  refused reply = false ->
  fst (dispatch t reply w s) = w
  /\ isLoading (snd (dispatch t reply w s)) = false
  /\ error (snd (dispatch t reply w s)) = None.
Proof.
  destruct reply as [r | message]; cbn; [| discriminate].
  intros Hr. apply negb_false_iff in Hr.
  unfold DocumentThunks.dispatch. cbn. unfold on_reply. rewrite Hr. cbn.
  destruct t; cbn; auto.
  destruct (current_has_id _ _); cbn; auto.
Qed.

End WithBodies.

(** X6 at work: the session has expired when the list is fetched. *)
Lemma refused_request_keeps_documents_witness :
  refused (Answered (mkResponse 401 "")) = true
  /\ documents (snd (dispatch (fun _ => None) (fun _ => sample_lease)
                              (fun _ => mkDocumentList [] 0 0 20)
                              fetchDocuments (Answered (mkResponse 401 ""))
                              (mkWindow sample_storage "/documents") sample_state))
     = documents sample_state
  /\ error (snd (dispatch (fun _ => None) (fun _ => sample_lease)
                          (fun _ => mkDocumentList [] 0 0 20)
                          fetchDocuments (Answered (mkResponse 401 ""))
                          (mkWindow sample_storage "/documents") sample_state))
     = Some "Failed to fetch documents".
Proof.
  split; [reflexivity |].
  destruct (refused_request_keeps_documents
              (fun _ => None) (fun _ => sample_lease) (fun _ => mkDocumentList [] 0 0 20)
              fetchDocuments (Answered (mkResponse 401 ""))
              (mkWindow sample_storage "/documents") sample_state eq_refl)
    as (_ & _ & Hdocs & _).
  split; [exact Hdocs | reflexivity].
Defined.

End DocumentThunksSpec.

(** ** The analysis slice *)

Module AnalysisSliceSpec.
Import AnalysisSlice.

Lemma reducer_feedback (s : AnalysisState) (a : Action) :
  of_feedback a = true -> reducer s a = s.
Proof.
  destruct a; try discriminate; intros _; cbn; [reflexivity | | reflexivity].
  destruct (List.find _ _); reflexivity.
Qed.

Lemma fold_without_feedback (actions : list Action) (s : AnalysisState) :
  fold_left reducer (List.filter (fun a => negb (of_feedback a)) actions) s
  = fold_left reducer actions s.
Proof.
  revert s. induction actions as [| a actions IH]; intros s; [reflexivity |].
  cbn [List.filter]. destruct (of_feedback a) eqn:Ha; cbn [negb fold_left].
  - rewrite (reducer_feedback s a Ha). apply IH.
  - apply IH.
Qed.

(** X7: the actions of the [submitFeedback] thunk never change the state
    of the slice: a run of actions leads to the state it leads to with
    every [submitFeedback] action left out, so a rating that was sent
    shows nowhere in the store. *)
Theorem feedback_leaves_no_trace (actions : list Action) :
  run actions = run (List.filter (fun a => negb (of_feedback a)) actions).
Proof. unfold run. symmetry. apply fold_without_feedback. Qed.

Lemma reducer_analyses (s : AnalysisState) (a : Action) :
  replaces_analyses a = false ->
  analyses (reducer s a) = (analyzed a ++ analyses s)%list.
Proof.
  destruct a; try discriminate; intros _; try reflexivity.
  cbn. destruct (List.find _ _); reflexivity.
Qed.

Lemma fold_analyses (l : list Action) (s : AnalysisState) :
  forallb (fun a => negb (replaces_analyses a)) l = true ->
  analyses (fold_left reducer l s)
  = (rev (flat_map analyzed l) ++ analyses s)%list.
Proof.
  revert s. induction l as [| a l IH]; intros s Hl; [reflexivity |].
  cbn in Hl. apply andb_true_iff in Hl as [Ha Hl]. apply negb_true_iff in Ha.
  cbn [fold_left flat_map]. rewrite (IH _ Hl), (reducer_analyses s a Ha).
  rewrite rev_app_distr, <- app_assoc.
  destruct a; try discriminate Ha; reflexivity.
Qed.

(** X8: the list of analyses is the list last fetched, with the results
    of the analyses completed since in front of it, the newest first;
    before the first fetch it holds the completed analyses alone. *)
Theorem analyses_since_last_fetch (actions : list Action) :
  (forallb (fun a => negb (replaces_analyses a)) actions = true ->
   analyses (run actions) = rev (flat_map analyzed actions))
  /\ (forall before payload after,
         actions = (before ++ fetchAnalyses_fulfilled payload :: after)%list ->
         forallb (fun a => negb (replaces_analyses a)) after = true ->
         analyses (run actions)
         = (rev (flat_map analyzed after) ++ al_analyses payload)%list).
Proof.
  unfold run. split.
  - intros Hnone. rewrite (fold_analyses _ _ Hnone). apply app_nil_r.
  - intros before payload after -> Hafter.
    rewrite fold_left_app. cbn [fold_left]. rewrite (fold_analyses _ _ Hafter).
    reflexivity.
Qed.

(** X9: the two flags are driven apart and share one [error]: the
    actions of [analyzeDocument] never touch [isLoading], the other
    actions never touch [isAnalyzing]; so a failed analysis leaves
    [isLoading] true with an error set when a fetch is under way, and a
    fetch that starts wipes the error a failed analysis reported. *)
Theorem flags_apart_error_shared (s : AnalysisState) :
  (forall a, of_analyze a = true -> isLoading (reducer s a) = isLoading s)
  /\ (forall a, of_analyze a = false -> isAnalyzing (reducer s a) = isAnalyzing s)
  /\ (forall message,
         let s' := reducer (reducer s fetchAnalyses_pending)
                           (analyzeDocument_rejected message) in
         isLoading s' = true /\ error s' = Some message)
  /\ (forall message,
         let s' := reducer (reducer s (analyzeDocument_rejected message))
                           fetchAnalyses_pending in
         isAnalyzing s' = false /\ error s' = None).
Proof.
  split; [| split; [| split]].
  - intros a Ha. destruct a; try discriminate Ha; reflexivity.
  - intros a Ha. destruct a; try discriminate Ha; try reflexivity.
    cbn. destruct (List.find _ _); reflexivity.
  - intros message. cbn. auto.
  - intros message. cbn. auto.
Qed.

End AnalysisSliceSpec.

(** ** Routes *)

Module RoutesSpec.
Import Routes.

Section WithRouter.

Variable matches : string -> Route.

(** The two locations App.tsx navigates to are routed as its table
    says. *)
Hypothesis dashboard_matches : matches "/dashboard" = route_dashboard.
Hypothesis login_matches : matches "/login" = route_login.

(** X10: whatever the location and however the router matches the
    others, rendering settles on a screen after at most two
    [Navigate] elements, and more steps change nothing; a visitor who
    is not signed in ends on [Login] or [Register] and on no other
    screen, a signed-in user never ends on either of the two. *)
Theorem routes_guard (isAuthenticated : bool) (location : string) :
  exists p,
    render matches 3 isAuthenticated location = Some p
    /\ (forall extra, render matches (3 + extra) isAuthenticated location = Some p)
    /\ is_public p = negb isAuthenticated
    /\ p <> LoadingScreen.
Proof.
  destruct isAuthenticated; destruct (matches location) eqn:Hroute;
    cbn; rewrite Hroute; cbn;
    rewrite ?dashboard_matches, ?login_matches; cbn;
    rewrite ?dashboard_matches, ?login_matches; cbn;
    eexists; (split; [reflexivity |]);
    (split; [intros extra; reflexivity |]);
    (split; [reflexivity | discriminate]).
Qed.

End WithRouter.

(** X10 at work: a visitor opens a document without being signed in. *)
Lemma routes_guard_witness :
  sample_matches "/dashboard" = route_dashboard
  /\ sample_matches "/login" = route_login
  /\ render sample_matches 3 false "/documents" = Some Login.
Proof.
  split; [reflexivity |]. split; [reflexivity |].
  destruct (routes_guard sample_matches eq_refl eq_refl false "/documents")
    as (p & Hp & _).
  rewrite Hp. vm_compute in Hp. symmetry. exact Hp.
Defined.

End RoutesSpec.

(** ** The dashboard *)

Module DashboardSpec.
Import Api DocumentSlice Dashboard.

Lemma firstn_incl {A : Type} (n : nat) (l : list A) (x : A) :
  In x (firstn n l) -> In x l.
Proof.
  revert l. induction n as [| n IH]; intros l Hx; [destruct Hx |].
  destruct l as [| y l]; [destruct Hx |]. destruct Hx as [-> | Hx].
  - left. reflexivity.
  - right. apply IH, Hx.
Qed.

(** X11: the recent activity of the dashboard shows the three first
    documents of the slice: a completed upload comes first and pushes
    the others down, after a deletion no item has the deleted id, and
    the "no documents" item shows exactly when the list is empty. *)
Theorem recent_activity_follows_slice (s : DocumentState) :
  (forall d,
      recent_activity (documents (reducer s (uploadDocument_fulfilled d)))
      = d :: firstn 2 (documents s)
      /\ shows_no_documents (documents (reducer s (uploadDocument_fulfilled d))) = false)
  /\ (forall X x,
         In x (recent_activity (documents (reducer s (deleteDocument_fulfilled X)))) ->
         In x (documents s) /\ id x <> X)
  /\ (forall l, shows_no_documents l = true <-> recent_activity l = [])
  /\ (forall l, length (recent_activity l) = Nat.min 3 (length l)).
Proof.
  split; [| split; [| split]].
  - intros d. split; reflexivity.
  - intros X x Hx. unfold recent_activity in Hx.
    apply firstn_incl in Hx.
    rewrite DocumentRunsSpec.delete_fulfilled_state in Hx. cbn [documents] in Hx.
    apply List.filter_In in Hx as [Hin Hkeep]. split; [exact Hin |].
    apply String.eqb_neq, negb_true_iff, Hkeep.
  - intros l. unfold shows_no_documents, recent_activity. rewrite Z.eqb_eq.
    destruct l as [| x l]; cbn [length firstn]; split; try reflexivity;
      try discriminate; try lia.
  - intros l. unfold recent_activity. apply length_firstn.
Qed.

End DashboardSpec.

(** ** The Netlify configuration *)

Module NetlifyConfigSpec.
Import Api NetlifyConfig.





End NetlifyConfigSpec.

(** ** The calls of the client *)

Module ApiCallsSpec.
Import ApiCalls.





End ApiCallsSpec.

(** ** More about the tables of init.sql *)

Module SqlMore.
Import Sql SqlSpec SqlNotions.

(** *** Columns by name *)

Lemma schema_names_distinct (t : table_name) : NoDup (map col_name (schema t)).
Proof. destruct t; apply (bool_decide_unpack _); vm_compute; exact I. Qed.

Lemma column_named_of_In (cols : list column) (c : column) :
  NoDup (map col_name cols) -> In c cols -> column_named (col_name c) cols = Some c.
Proof.
  unfold column_named. induction cols as [| c0 cols IH]; intros Hnd Hin; [destruct Hin |].
  cbn in Hnd. apply NoDup_cons in Hnd as [Hfresh Hnd]. cbn.
  destruct Hin as [-> | Hin]; [rewrite String.eqb_refl; reflexivity |].
  destruct (String.eqb_spec (col_name c0) (col_name c)) as [Heq | _]; [| auto].
  exfalso. apply Hfresh. rewrite Heq. apply list_elem_of_In, in_map, Hin.
Qed.

Lemma schema_column (t : table_name) (c : column) :
  In c (schema t) -> column_named (col_name c) (schema t) = Some c.
Proof. apply column_named_of_In, schema_names_distinct. Qed.

Lemma row_constraints_In (cols : list column) (r : row) (c : column) (u : unit) :
  row_constraints cols r = Ok u -> In c cols -> column_constraints r c = Ok tt.
Proof.
  induction cols as [| c0 cols IH]; intros Hr Hin; [destruct Hin |].
  cbn in Hr. unbind Hr. destruct Hin as [-> | Hin].
  - destruct a. exact Hstep.
  - apply IH; assumption.
Qed.

Lemma column_constraints_required (r : row) (c : column) (u : unit) :
  column_constraints r c = Ok u -> required c = true -> get r (col_name c) <> NULL.
Proof.
  unfold column_constraints, required. intros H Hreq. unbind H.
  rewrite Hreq in Hguard. cbn in Hguard. intros Hnull. rewrite Hnull in Hguard.
  discriminate Hguard.
Qed.

(** *** Required columns *)

Lemma filled_insert (e : env) (t : table_name) (given r : row) :
  build (insert_value e given) (schema t) = Ok r ->
  row_constraints (schema t) r = Ok tt -> filled t r.
Proof.
  intros _ Hr c Hc Hreq.
  apply (column_constraints_required r c tt); [| exact Hreq].
  apply (row_constraints_In _ _ _ _ Hr Hc).
Qed.

Lemma filled_update (e : env) (t : table_name) (given old r : row) :
  filled t old -> update_row e t given old = Ok r -> filled t r.
Proof.
  intros _ Hu c Hc Hreq. apply update_row_steps in Hu as (r0 & _ & _ & Hr).
  apply (column_constraints_required r c tt); [| exact Hreq].
  apply (row_constraints_In _ _ _ _ Hr Hc).
Qed.

Lemma run_filled (history : list (env * statement)) (t : table_name) (r : row) :
  In r (table (run history) t) -> filled t r.
Proof. apply (run_every (fun t r => filled t r) filled_insert filled_update). Qed.

(** X14: whatever statements ran, every row holds a value in every
    column that is [NOT NULL] or the primary key; and an [INSERT] that
    leaves out such a column, or gives it [NULL], is refused when the
    column has no default. *)
Theorem required_columns_filled :
  (forall (history : list (env * statement)) (t : table_name) (r : row),
      In r (table (run history) t) -> filled t r)
  /\ (forall (e : env) (t : table_name) (given : row) (db : database) (c : column),
         In c (schema t) -> required c = true -> col_default c = None ->
         assoc (col_name c) given = None \/ assoc (col_name c) given = Some NULL ->
         exists err, exec e (INSERT t given) db = Error err).
Proof.
  split; [exact run_filled |].
  intros e t given db c Hc Hreq Hdef Hgiven. cbn.
  destruct (insert e t given db) as [db' | err] eqn:Hi; [exfalso | eauto].
  apply insert_steps in Hi as (r & Hb & Hr & _ & _).
  destruct (build_get _ _ _ _ _ Hb (schema_column t c Hc)) as (v & Hv & Hget).
  assert (Hnull : v = NULL).
  { unfold insert_value in Hv. rewrite Hdef in Hv.
    destruct Hgiven as [Hg | Hg]; rewrite Hg in Hv; destruct (col_type c);
      cbn in Hv; congruence. }
  rewrite Hnull in Hget. exact (filled_insert e t given r Hb Hr c Hc Hreq Hget).
Qed.

(** X14 at work: a user without an email. *)
Lemma required_columns_filled_witness :
  exists err,
    exec (mkEnv 1000 1) (INSERT users [("full_name", VText "A")]) empty = Error err.
Proof.
  destruct required_columns_filled as (_ & Hrefused).
  apply (Hrefused (mkEnv 1000 1) users [("full_name", VText "A")] empty
                  (col "email" (VARCHAR 255) |> UNIQUE |> NOT_NULL)).
  - right. left. reflexivity.
  - reflexivity.
  - reflexivity.
  - left. reflexivity.
Defined.

(** *** Keys *)

Lemma column_values_cons (n : string) (r : row) (rs : list row) :
  column_values n (r :: rs) =
  if negb (is_null (get r n)) then get r n :: column_values n rs
  else column_values n rs.
Proof. reflexivity. Qed.

Lemma column_values_app (n : string) (a b : list row) :
  column_values n (a ++ b)%list = (column_values n a ++ column_values n b)%list.
Proof. unfold column_values. rewrite map_app. apply List.filter_app. Qed.

Lemma column_values_In (n : string) (rs : list row) (r : row) :
  In r rs -> get r n <> NULL -> In (get r n) (column_values n rs).
Proof.
  intros Hin Hv. unfold column_values. apply List.filter_In. split.
  - apply in_map with (f := fun r => get r n). exact Hin.
  - destruct (get r n); [congruence | reflexivity ..].
Qed.

Lemma column_values_filter_In (n : string) (f : row -> bool) (rs : list row) (v : value) :
  In v (column_values n (List.filter f rs)) -> In v (column_values n rs).
Proof.
  induction rs as [| r rs IH]; [auto |]. cbn [List.filter].
  destruct (f r); rewrite ?column_values_cons;
    destruct (negb (is_null (get r n))); cbn; intuition.
Qed.

Lemma column_values_filter_NoDup (n : string) (f : row -> bool) (rs : list row) :
  NoDup (column_values n rs) -> NoDup (column_values n (List.filter f rs)).
Proof.
  induction rs as [| r rs IH]; [auto |]. cbn [List.filter].
  rewrite column_values_cons.
  destruct (f r); rewrite ?column_values_cons;
    destruct (negb (is_null (get r n))); intros Hnd; auto.
  - apply NoDup_cons in Hnd as [Hfresh Hnd]. apply NoDup_cons. split; [| auto].
    intros Hin. apply Hfresh. apply list_elem_of_In.
    apply (column_values_filter_In n f). apply list_elem_of_In. exact Hin.
  - apply NoDup_cons in Hnd as [_ Hnd]. auto.
Qed.

Lemma column_values_all (n : string) (rs : list row) :
  (forall r, In r rs -> get r n <> NULL) ->
  column_values n rs = map (fun r => get r n) rs.
Proof.
  induction rs as [| r rs IH]; intros Hall; [reflexivity |].
  rewrite column_values_cons, IH by (intros r' Hr'; apply Hall; right; exact Hr').
  specialize (Hall r (or_introl eq_refl)). cbn [map].
  destruct (get r n); [congruence | reflexivity ..].
Qed.

Lemma unique_holds_filter (t : table_name) (f : row -> bool) (rs : list row) :
  unique_holds t rs = true -> unique_holds t (List.filter f rs) = true.
Proof.
  unfold unique_holds. rewrite !forallb_forall. intros H c Hc. specialize (H c Hc).
  apply orb_true_iff in H as [H | H]; [rewrite H; reflexivity |].
  apply orb_true_iff. right. apply bool_decide_eq_true.
  apply column_values_filter_NoDup. apply bool_decide_eq_true in H. exact H.
Qed.

Lemma unique_column (t : table_name) (c : column) (rs : list row) :
  unique_holds t rs = true -> In c (schema t) -> keyed c = true ->
  NoDup (column_values (col_name c) rs).
Proof.
  unfold unique_holds, keyed. rewrite forallb_forall. intros H Hc Hk.
  specialize (H c Hc). rewrite Hk in H. cbn in H. apply bool_decide_eq_true in H. exact H.
Qed.

Lemma insert_unique (e : env) (t : table_name) (given : row) (db db' : database) :
  insert e t given db = Ok db' ->
  exists r, build (insert_value e given) (schema t) = Ok r
            /\ unique_holds t (table db t ++ [r]) = true
            /\ db' = with_table db t (table db t ++ [r]).
Proof.
  unfold insert. intros H. unbind H. injection H as <-.
  match goal with Hb : build _ _ = Ok ?r |- _ => exists r end. auto.
Qed.

Lemma update_unique (e : env) (t : table_name) (given : row) (w : condition)
      (db db' : database) :
  update e t given w db = Ok db' ->
  exists rs, unique_holds t rs = true /\ db' = with_table db t rs.
Proof.
  unfold update. intros H. unbind H. injection H as <-.
  match goal with Hu : update_rows _ _ _ _ _ = Ok ?rs |- _ => exists rs end. auto.
Qed.

Lemma keys_distinct_with_table (db : database) (t : table_name) (rs : list row) :
  keys_distinct db -> unique_holds t rs = true -> keys_distinct (with_table db t rs).
Proof.
  intros Hdb Hrs t'. destruct (decide (t = t')) as [<- | Hne].
  - rewrite table_with_table_eq. exact Hrs.
  - rewrite table_with_table_ne by exact Hne. apply Hdb.
Qed.

Lemma exec_keys_distinct (e : env) (s : statement) (db db' : database) :
  keys_distinct db -> exec e s db = Ok db' -> keys_distinct db'.
Proof.
  intros Hdb Hx. destruct s as [t given | t given w | t w].
  - change (insert e t given db = Ok db') in Hx.
    apply insert_unique in Hx as (r & _ & Hu & ->).
    apply keys_distinct_with_table; assumption.
  - change (update e t given w db = Ok db') in Hx.
    apply update_unique in Hx as (rs & Hu & ->).
    apply keys_distinct_with_table; assumption.
  - change (delete t w db = Ok db') in Hx. destruct t;
      [rewrite delete_users in Hx | rewrite delete_documents in Hx
       | rewrite delete_analyses in Hx | rewrite delete_legal_templates in Hx];
      injection Hx as <-; intros t'; destruct t'; cbn [table rows_users rows_documents
        rows_analyses rows_legal_templates];
      repeat apply unique_holds_filter; first
        [ exact (Hdb users) | exact (Hdb documents) | exact (Hdb analyses)
        | exact (Hdb legal_templates) ].
Qed.

Lemma run_keys_distinct (history : list (env * statement)) :
  keys_distinct (run history).
Proof.
  apply run_invariant.
  - intros t. destruct t; reflexivity.
  - intros e s db db'. apply exec_keys_distinct.
Qed.

Lemma id_column (t : table_name) :
  In (col "id" UUID |> PRIMARY_KEY |> DEFAULT uuid_generate_v4) (schema t).
Proof. destruct t; left; reflexivity. Qed.

Lemma run_ids_distinct (history : list (env * statement)) (t : table_name) :
  NoDup (map (fun r => get r "id") (table (run history) t)).
Proof.
  rewrite <- column_values_all.
  - apply (unique_column t _ _ (run_keys_distinct history t) (id_column t)). reflexivity.
  - intros r Hr. apply (run_filled history t r Hr _ (id_column t)). reflexivity.
Qed.

(** X15: whatever statements ran, no two rows of a table have the same
    [id], and no value other than [NULL] occurs twice in a [UNIQUE] or
    primary key column (the email and the firebase_uid of users, every
    [id]); and an [INSERT] that gives such a column a value some row
    already holds there is refused. *)
Theorem keys_stay_distinct :
  (forall (history : list (env * statement)) (t : table_name),
      NoDup (map (fun r => get r "id") (table (run history) t)))
  /\ (forall (history : list (env * statement)) (t : table_name) (c : column),
         In c (schema t) -> keyed c = true ->
         NoDup (column_values (col_name c) (table (run history) t)))
  /\ (forall (e : env) (t : table_name) (given : row) (db : database) (c : column)
             (u : row) (v : value),
         In c (schema t) -> keyed c = true ->
         In u (table db t) -> get u (col_name c) = v -> v <> NULL ->
         assoc (col_name c) given = Some v -> coerce (col_type c) v = Ok v ->
         exists err, exec e (INSERT t given) db = Error err).
Proof.
  split; [exact run_ids_distinct | split].
  - intros history t c Hc Hk.
    apply (unique_column t c _ (run_keys_distinct history t) Hc Hk).
  - intros e t given db c u v Hc Hk Hu Hv Hnn Hgiven Hfit. cbn.
    destruct (insert e t given db) as [db' | err] eqn:Hi; [exfalso | eauto].
    apply insert_unique in Hi as (r & Hb & Huniq & _).
    destruct (build_get _ _ _ _ _ Hb (schema_column t c Hc)) as (v' & Hv' & Hget).
    unfold insert_value in Hv'. rewrite Hgiven, Hfit in Hv'. injection Hv' as <-.
    pose proof (unique_column t c _ Huniq Hc Hk) as Hnd.
    rewrite column_values_app in Hnd. apply NoDup_app in Hnd as (_ & Hapart & _).
    apply (Hapart v).
    + apply list_elem_of_In. rewrite <- Hv. apply column_values_In; [exact Hu |].
      rewrite Hv. exact Hnn.
    + apply list_elem_of_In. rewrite <- Hget. apply column_values_In; [left; reflexivity |].
      rewrite Hget. exact Hnn.
Qed.

(** X15 at work: a second user with the email of the first. *)
Lemma keys_stay_distinct_witness :
  exists err,
    exec (mkEnv 4000 4)
         (INSERT users [("email", VText "a@example.org"); ("full_name", VText "B")])
         sample_db = Error err.
Proof.
  destruct keys_stay_distinct as (_ & _ & Hrefused).
  apply (Hrefused (mkEnv 4000 4) users _ sample_db
                  (col "email" (VARCHAR 255) |> UNIQUE |> NOT_NULL)
                  (hd [] (table sample_db users)) (VText "a@example.org")).
  - right. left. reflexivity.
  - reflexivity.
  - left. reflexivity.
  - reflexivity.
  - discriminate.
  - reflexivity.
  - reflexivity.
Defined.

(** *** Owners *)

Lemma NoDup_map_In {A B : Type} (f : A -> B) (l : list A) (x y : A) :
  NoDup (map f l) -> In x l -> In y l -> f x = f y -> x = y.
Proof.
  induction l as [| a l IH]; intros Hnd Hx Hy Hf; [destruct Hx |].
  cbn in Hnd. apply NoDup_cons in Hnd as [Hfresh Hnd].
  destruct Hx as [-> | Hx], Hy as [-> | Hy]; auto.
  - exfalso. apply Hfresh. rewrite Hf. apply list_elem_of_In, in_map, Hy.
  - exfalso. apply Hfresh. rewrite <- Hf. apply list_elem_of_In, in_map, Hx.
Qed.

Lemma one_parent_of (r : row) (c : string) (parents : list row) :
  NoDup (map (fun p => get p "id") parents) ->
  key_holds r c parents -> get r c <> NULL -> one_parent r c parents.
Proof.
  intros Hnd [Hnull | Href] Hv.
  - destruct (get r c); [congruence | discriminate Hnull ..].
  - apply refers_true in Href as (p & Hp & Hpoints). exists p.
    split; [exact Hp | split; [exact Hpoints |]].
    intros p' Hp' Hpoints'. unfold points_to in Hpoints, Hpoints'.
    apply sql_eq_true in Hpoints as [_ Heq]. apply sql_eq_true in Hpoints' as [_ Heq'].
    apply (NoDup_map_In (fun p => get p "id") parents); auto. congruence.
Qed.

(** X16: whatever statements ran, every document belongs to one user
    exactly, and every analysis to one user and to one document exactly:
    the row it names exists, and no other row has that [id]. *)
Theorem one_owner (history : list (env * statement)) :
  let db := run history in
  (forall d, In d (table db documents) -> one_parent d "user_id" (table db users))
  /\ (forall a, In a (table db analyses) ->
                one_parent a "user_id" (table db users)
                /\ one_parent a "document_id" (table db documents)).
Proof.
  cbn zeta. destruct (proj1 (no_orphans_by_table _) (run_no_orphans history))
    as [Hdocs Hans].
  split.
  - intros d Hd. apply one_parent_of.
    + apply (run_ids_distinct history users).
    + apply Hdocs, Hd.
    + apply (run_filled history documents d Hd
               (col "user_id" UUID |> NOT_NULL |> REFERENCES users CASCADE));
        [right; left; reflexivity | reflexivity].
  - intros a Ha. destruct (Hans a Ha) as [Hu Hd]. split; apply one_parent_of.
    + apply (run_ids_distinct history users).
    + exact Hu.
    + apply (run_filled history analyses a Ha
               (col "user_id" UUID |> NOT_NULL |> REFERENCES users CASCADE));
        [right; left; reflexivity | reflexivity].
    + apply (run_ids_distinct history documents).
    + exact Hd.
    + apply (run_filled history analyses a Ha
               (col "document_id" UUID |> NOT_NULL |> REFERENCES documents CASCADE));
        [right; right; left; reflexivity | reflexivity].
Qed.

(** *** The trigger *)

Lemma build_assoc (f : column -> result value) (cols : list column) (r : row)
      (name : string) (c : column) :
  build f cols = Ok r -> column_named name cols = Some c -> assoc name r <> None.
Proof.
  revert r. induction cols as [| c0 cols IH]; intros r Hb Hc; [discriminate |].
  cbn in Hb. unbind Hb. injection Hb as <-.
  unfold column_named in Hc. cbn in Hc. cbn.
  destruct (String.eqb (col_name c0) name) eqn:Hn; [discriminate |].
  apply (IH _ Hstep0 Hc).
Qed.

Lemma get_set_eq (r : row) (name : string) (v : value) :
  assoc name r <> None -> get (set r name v) name = v.
Proof.
  unfold get. induction r as [| [n x] r IH]; intros H; cbn in *; [congruence |].
  destruct (String.eqb n name) eqn:Hn; cbn; rewrite Hn; [reflexivity | auto].
Qed.

Lemma updated_at_column (t : table_name) :
  column_named "updated_at" (schema t)
  = Some (col "updated_at" TIMESTAMP |> DEFAULT CURRENT_TIMESTAMP).
Proof. destruct t; reflexivity. Qed.

Lemma update_row_stamped (e : env) (t : table_name) (given old r : row) :
  update_row e t given old = Ok r -> get r "updated_at" = VTimestamp (now e).
Proof.
  intros Hu. apply update_row_steps in Hu as (r0 & Hb & -> & _).
  apply get_set_eq. apply (build_assoc _ _ _ _ _ Hb (updated_at_column t)).
Qed.

Lemma update_rows_stamped (e : env) (t : table_name) (given : row) (w : condition)
      (rs rs' : list row) :
  update_rows e t given w rs = Ok rs' -> Forall2 (stamped e w) rs rs'.
Proof.
  revert rs'. induction rs as [| r rs IH]; intros rs' Hu; cbn in Hu.
  - injection Hu as <-. constructor.
  - unbind Hu. injection Hu as <-. constructor; [| apply IH; exact Hstep0].
    unfold stamped. destruct (selects w r).
    + apply (update_row_stamped e t given r a Hstep).
    + injection Hstep as <-. reflexivity.
Qed.

(** X17: after an accepted [UPDATE], every row of the table that the
    [WHERE] clause selected carries the time of the statement in
    [updated_at], whatever the statement assigned to that column; the
    rows it did not select, and their order, are as they were. *)
Theorem updated_at_is_the_clock (e : env) (t : table_name) (given : row)
        (w : condition) (db db' : database) :
  exec e (UPDATE t given w) db = Ok db' ->
  Forall2 (stamped e w) (table db t) (table db' t).
Proof.
  intros Hx. change (update e t given w db = Ok db') in Hx.
  apply update_steps in Hx as (rs & Hu & _ & _ & ->).
  rewrite table_with_table_eq. apply (update_rows_stamped e t given w _ _ Hu).
Qed.

(** X17 at work: an [UPDATE] that tries to backdate [updated_at]. *)
Lemma updated_at_is_the_clock_witness :
  let e := mkEnv 9000 9 in
  let s := UPDATE analyses [("updated_at", VTimestamp 5)] TRUE in
  exec e s sample_db = Ok (step sample_db (e, s))
  /\ Forall2 (stamped e TRUE) (table sample_db analyses)
             (table (step sample_db (e, s)) analyses).
Proof.
  cbn zeta.
  assert (H : exec (mkEnv 9000 9) (UPDATE analyses [("updated_at", VTimestamp 5)] TRUE)
                   sample_db
              = Ok (step sample_db
                      (mkEnv 9000 9, UPDATE analyses [("updated_at", VTimestamp 5)] TRUE)))
    by (vm_compute; reflexivity).
  split; [exact H |].
  exact (updated_at_is_the_clock _ _ _ _ _ _ H).
Defined.

(** *** What a DELETE leaves *)

Lemma clear_of_filter (r : row) (c : string) (doomed : row -> bool) (parents : list row) :
  clear_of r c doomed parents -> refers r c (List.filter doomed parents) = false.
Proof.
  intros Hclear. destruct (refers r c (List.filter doomed parents)) eqn:Href; [| reflexivity].
  apply refers_true in Href as (p & Hp & Hpoints). apply List.filter_In in Hp as [Hp Hd].
  rewrite (Hclear p Hp Hd) in Hpoints. discriminate.
Qed.

(** X18: a [DELETE] takes nothing more than the cascade asks for. From
    users: the users not selected stay, as do the documents of no deleted
    user and the analyses of no deleted user and of no document of a
    deleted user. From documents: the documents not selected stay, as do
    the analyses of no deleted document, and users are untouched. From
    analyses or legal_templates: the other tables are untouched. The
    templates are touched by no [DELETE] on another table. *)
Theorem delete_spares_the_rest (w : condition) (db : database) :
  (exists db', delete users w db = Ok db'
     /\ (forall u, In u (table db users) -> selects w u = false ->
                   In u (table db' users))
     /\ (forall d, In d (table db documents) ->
                   clear_of d "user_id" (selects w) (table db users) ->
                   In d (table db' documents))
     /\ (forall a, In a (table db analyses) ->
                   clear_of a "user_id" (selects w) (table db users) ->
                   clear_of a "document_id"
                     (fun d => refers d "user_id" (List.filter (selects w) (table db users)))
                     (table db documents) ->
                   In a (table db' analyses))
     /\ table db' legal_templates = table db legal_templates)
  /\ (exists db', delete documents w db = Ok db'
        /\ table db' users = table db users
        /\ (forall d, In d (table db documents) -> selects w d = false ->
                      In d (table db' documents))
        /\ (forall a, In a (table db analyses) ->
                      clear_of a "document_id" (selects w) (table db documents) ->
                      In a (table db' analyses))
        /\ table db' legal_templates = table db legal_templates)
  /\ (exists db', delete analyses w db = Ok db'
        /\ table db' users = table db users
        /\ table db' documents = table db documents
        /\ (forall a, In a (table db analyses) -> selects w a = false ->
                      In a (table db' analyses))
        /\ table db' legal_templates = table db legal_templates)
  /\ (exists db', delete legal_templates w db = Ok db'
        /\ table db' users = table db users
        /\ table db' documents = table db documents
        /\ table db' analyses = table db analyses
        /\ (forall l, In l (table db legal_templates) -> selects w l = false ->
                      In l (table db' legal_templates))).
Proof.
  repeat split.
  - eexists. split; [apply delete_users |]. cbn [table rows_users rows_documents
      rows_analyses rows_legal_templates]. repeat split.
    + intros u Hu Hw. apply kept_iff. auto.
    + intros d Hd Hclear. apply kept_iff. split; [exact Hd |].
      apply clear_of_filter, Hclear.
    + intros a Ha Hu Hd. apply kept_iff. split.
      * apply kept_iff. split; [exact Ha |]. apply clear_of_filter, Hd.
      * apply clear_of_filter, Hu.
  - eexists. split; [apply delete_documents |]. cbn [table rows_users rows_documents
      rows_analyses rows_legal_templates]. repeat split.
    + intros d Hd Hw. apply kept_iff. auto.
    + intros a Ha Hclear. apply kept_iff. split; [exact Ha |].
      apply clear_of_filter, Hclear.
  - eexists. split; [apply delete_analyses |]. cbn [table rows_users rows_documents
      rows_analyses rows_legal_templates]. repeat split.
    intros a Ha Hw. apply kept_iff. auto.
  - eexists. split; [apply delete_legal_templates |]. cbn [table rows_users
      rows_documents rows_analyses rows_legal_templates]. repeat split.
    intros l Hl Hw. apply kept_iff. auto.
Qed.

(** *** Foreign keys on INSERT *)

(** Case analysis over the columns of a table definition. *)
Ltac columns H :=
  cbv [schema users_columns documents_columns analyses_columns
       legal_templates_columns] in H;
  repeat (destruct H as [<- | H]); [.. | destruct H].

Lemma references_other (t : table_name) (c : column) (parent : table_name)
      (act : on_delete) :
  In c (schema t) -> col_references c = Some (parent, act) -> parent <> t.
Proof.
  intros Hc. destruct t; columns Hc; cbn; intros Href; try discriminate Href;
    injection Href as <- <-; discriminate.
Qed.

Lemma coerce_uuid (ty : sql_type) (k : N) (v : value) :
  coerce ty (VUuid k) = Ok v -> v = VUuid k.
Proof.
  destruct ty; cbn; try discriminate. destruct (k <? 2 ^ 128)%N; congruence.
Qed.

(** X19: an [INSERT] whose foreign key column ([user_id] of documents,
    [user_id] and [document_id] of analyses) holds an identifier that no
    row of the referenced table has is refused. *)
Theorem dangling_reference_refused (e : env) (t : table_name) (given : row)
        (db : database) (c : column) (parent : table_name) (act : on_delete) (k : N) :
  In c (schema t) -> col_references c = Some (parent, act) ->
  assoc (col_name c) given = Some (VUuid k) ->
  (forall p, In p (table db parent) -> get p "id" <> VUuid k) ->
  exists err, exec e (INSERT t given) db = Error err.
Proof.
  intros Hc Href Hgiven Hnone. cbn.
  destruct (insert e t given db) as [db' | err] eqn:Hi; [exfalso | eauto].
  apply insert_steps in Hi as (r & Hb & _ & Hfk & _).
  destruct (build_get _ _ _ _ _ Hb (schema_column t c Hc)) as (v & Hv & Hget).
  unfold insert_value in Hv. rewrite Hgiven in Hv. apply coerce_uuid in Hv.
  unfold foreign_keys_hold in Hfk. rewrite forallb_forall in Hfk.
  specialize (Hfk c Hc). rewrite Href, Hget, Hv in Hfk. cbn [is_null orb] in Hfk.
  rewrite table_with_table_ne in Hfk
    by (intros Heq; apply (references_other t c parent act Hc Href); congruence).
  apply refers_true in Hfk as (p & Hp & Hpoints). unfold points_to in Hpoints.
  rewrite Hget, Hv in Hpoints. apply sql_eq_true in Hpoints as [_ Heq].
  apply (Hnone p Hp). congruence.
Qed.

(** X19 at work: a document for a user that does not exist. *)
Lemma dangling_reference_refused_witness :
  exists err,
    exec (mkEnv 4000 4)
         (INSERT documents (("user_id", VUuid 7) :: List.tl sample_document))
         sample_db = Error err.
Proof.
  apply (dangling_reference_refused (mkEnv 4000 4) documents _ sample_db
           (col "user_id" UUID |> NOT_NULL |> REFERENCES users CASCADE) users CASCADE 7).
  - right. left. reflexivity.
  - reflexivity.
  - reflexivity.
  - intros p [<- | []]. vm_compute. discriminate.
Defined.

(** *** Defaults *)

Lemma default_stored (e : env) (t : table_name) (c : column) (v : value) :
  In c (schema t) ->
  coerce (col_type c) (eval_default e (col_default c)) = Ok v ->
  v = eval_default e (col_default c).
Proof.
  intros Hc. destruct t; columns Hc; cbn; intros H;
    try (destruct (fresh_uuid e <? 2 ^ 128)%N); try congruence;
    vm_compute in H; congruence.
Qed.

(** X20: an accepted [INSERT] adds one row, after the rows the table
    had, and touches no other table; a column the statement leaves out
    holds its declared default in that row ([NULL] where none is
    declared, the generated identifier for [id], the time of the
    statement for [created_at] and [updated_at]), a column it names
    holds the given value as the column's type stores it. *)
Theorem insert_appends_with_defaults (e : env) (t : table_name) (given : row)
        (db db' : database) :
  exec e (INSERT t given) db = Ok db' ->
  exists r,
    table db' t = (table db t ++ [r])%list
    /\ (forall t', t' <> t -> table db' t' = table db t')
    /\ (forall c, In c (schema t) -> assoc (col_name c) given = None ->
                  get r (col_name c) = eval_default e (col_default c))
    /\ (forall c v, In c (schema t) -> assoc (col_name c) given = Some v ->
                    coerce (col_type c) v = Ok (get r (col_name c))).
Proof.
  intros Hx. change (insert e t given db = Ok db') in Hx.
  apply insert_steps in Hx as (r & Hb & _ & _ & ->). exists r.
  split; [apply table_with_table_eq | split; [| split]].
  - intros t' Hne. apply table_with_table_ne. congruence.
  - intros c Hc Hgiven.
    destruct (build_get _ _ _ _ _ Hb (schema_column t c Hc)) as (v & Hv & Hget).
    unfold insert_value in Hv. rewrite Hgiven in Hv. rewrite Hget.
    apply (default_stored e t c v Hc Hv).
  - intros c v Hc Hgiven.
    destruct (build_get _ _ _ _ _ Hb (schema_column t c Hc)) as (v' & Hv & Hget).
    unfold insert_value in Hv. rewrite Hgiven in Hv. rewrite Hget. exact Hv.
Qed.

(** X20 at work: a second document for the user of the sample. *)
Lemma insert_appends_with_defaults_witness :
  let e := mkEnv 4000 4 in
  let s := INSERT documents sample_document in
  exec e s sample_db = Ok (step sample_db (e, s))
  /\ exists r,
       table (step sample_db (e, s)) documents = (table sample_db documents ++ [r])%list
       /\ get r "retention_days" = VInt 30.
Proof.
  cbn zeta.
  assert (H : exec (mkEnv 4000 4) (INSERT documents sample_document) sample_db
              = Ok (step sample_db (mkEnv 4000 4, INSERT documents sample_document)))
    by (vm_compute; reflexivity).
  split; [exact H |].
  destruct (insert_appends_with_defaults _ _ _ _ _ H) as (r & Hrows & _ & Hdef & _).
  exists r. split; [exact Hrows |].
  apply (Hdef (col "retention_days" INTEGER |> DEFAULT (Lit (VInt 30)))).
  - do 19 right. left. reflexivity.
  - reflexivity.
Defined.

(** *** Types *)

Lemma coerce_has_type (ty : sql_type) (v v' : value) :
  coerce ty v = Ok v' -> has_type ty v'.
Proof.
  destruct v, ty; cbn; intros H; try discriminate H;
    try (injection H as <-; exact I).
  - destruct (u <? 2 ^ 128)%N eqn:Hu; [| discriminate H]. injection H as <-.
    cbn. apply N.ltb_lt. exact Hu.
  - destruct (coerce_varchar n (VText s) v' H) as [-> | (s' & -> & Hs)]; [exact I |].
    exact Hs.
  - destruct ((- 2 ^ 31 <=? n) && (n <? 2 ^ 31)) eqn:Hn; [| discriminate H].
    injection H as <-. apply andb_true_iff in Hn as [Hlo Hhi].
    cbn. split; [apply Z.leb_le, Hlo | apply Z.ltb_lt, Hhi].
  - destruct (Z.abs digits <? 10 ^ Z.of_nat precision) eqn:Hd; [| discriminate H].
    injection H as <-. cbn. apply Z.ltb_lt. exact Hd.
Qed.

Lemma typed_insert (e : env) (t : table_name) (given r : row) :
  build (insert_value e given) (schema t) = Ok r ->
  row_constraints (schema t) r = Ok tt -> typed t r.
Proof.
  intros Hb _ c Hc.
  destruct (build_get _ _ _ _ _ Hb (schema_column t c Hc)) as (v & Hv & ->).
  unfold insert_value in Hv.
  destruct (assoc (col_name c) given); apply (coerce_has_type _ _ _ Hv).
Qed.

Lemma updated_at_type (t : table_name) (c : column) :
  In c (schema t) -> col_name c = "updated_at" -> col_type c = TIMESTAMP.
Proof.
  intros Hc Hn. apply schema_column in Hc. rewrite Hn, updated_at_column in Hc.
  injection Hc as <-. reflexivity.
Qed.

Lemma typed_update (e : env) (t : table_name) (given old r : row) :
  typed t old -> update_row e t given old = Ok r -> typed t r.
Proof.
  intros Hold Hu c Hc. apply update_row_steps in Hu as (r0 & Hb & -> & _).
  destruct (String.eqb_spec "updated_at" (col_name c)) as [Heq | Hne].
  - rewrite <- Heq, get_set_eq
      by (apply (build_assoc _ _ _ _ _ Hb (updated_at_column t))).
    rewrite (updated_at_type t c Hc (eq_sym Heq)). exact I.
  - rewrite get_set_ne by exact Hne.
    destruct (build_get _ _ _ _ _ Hb (schema_column t c Hc)) as (v & Hv & ->).
    unfold update_value in Hv. destruct (assoc (col_name c) given).
    + apply (coerce_has_type _ _ _ Hv).
    + injection Hv as <-. apply Hold, Hc.
Qed.

(** X21: whatever statements ran, every column of every row holds
    [NULL] or a value of the column's declared type: a text within the
    length of its [VARCHAR], an integer within 32 bits, a decimal within
    its precision, an identifier within 128 bits. *)
Theorem rows_are_typed (history : list (env * statement)) (t : table_name) (r : row) :
  In r (table (run history) t) -> typed t r.
Proof. apply (run_every (fun t r => typed t r) typed_insert typed_update). Qed.

(** X21 at work: the document of the sample. *)
Lemma rows_are_typed_witness : typed documents (hd [] (table sample_db documents)).
Proof. apply (rows_are_typed sample_history). left. reflexivity. Defined.

End SqlMore.

(** ** The seed script *)

Module SeedsSpec.
Import Sql SqlSpec SqlNotions SqlMore Seeds.

Lemma varchar_short (n : nat) (s : string) :
  (String.length s <= n)%nat -> varchar n s = Ok (VText s).
Proof. intros H. unfold varchar. apply Nat.leb_le in H. rewrite H. reflexivity. Qed.

Lemma with_table_twice (db : database) (t : table_name) (a b : list row) :
  with_table (with_table db t a) t b = with_table db t b.
Proof. destruct t; reflexivity. Qed.

Section WithJson.

Variable json : string -> string -> string.

Lemma statement_build (e : env) (x : entry) :
  (fresh_uuid e < 2 ^ 128)%N -> fits x ->
  build (insert_value e (values json x)) (schema legal_templates)
  = Ok (seeded_row json e x).
Proof.
  intros Hid (Hname & Hcategory & Hsubcategory).
  apply N.ltb_lt in Hid.
  cbn -[varchar N.ltb N.pow]. rewrite Hid.
  rewrite !varchar_short by assumption. cbn. reflexivity.
Qed.

Lemma statement_accepted (e : env) (x : entry) (db : database) :
  (fresh_uuid e < 2 ^ 128)%N -> fits x ->
  NoDup (column_values "id" (table db legal_templates)) ->
  (forall l, In l (table db legal_templates) -> get l "id" <> VUuid (fresh_uuid e)) ->
  exec e (statement_of json x) db
  = Ok (with_table db legal_templates
                   (table db legal_templates ++ [seeded_row json e x])).
Proof.
  intros Hid Hfits Hnd Hnew.
  unfold statement_of. cbn [exec]. unfold insert.
  replace (column_list legal_templates _) with (Ok (A := unit) tt) by reflexivity.
  cbn [bind]. rewrite (statement_build e x Hid Hfits). cbn [bind].
  replace (row_constraints (schema legal_templates) (seeded_row json e x))
    with (Ok (A := unit) tt) by reflexivity.
  cbn [bind].
  assert (Hu : unique_holds legal_templates
                 (table db legal_templates ++ [seeded_row json e x]) = true).
  { unfold unique_holds. apply forallb_forall. intros c Hc.
    destruct (keyed c) eqn:Hk; [| unfold keyed in Hk; rewrite Hk; reflexivity].
    apply orb_true_iff. right. apply bool_decide_eq_true.
    assert (col_name c = "id") as ->.
    { revert Hk. cbv [schema legal_templates_columns] in Hc.
      repeat (destruct Hc as [<- | Hc]); try destruct Hc; cbn; congruence. }
    rewrite column_values_app. apply NoDup_app. split; [exact Hnd | split].
    - intros v Hv Hv'. apply list_elem_of_In in Hv, Hv'.
      cbn in Hv'. destruct Hv' as [<- | []].
      unfold column_values in Hv. apply List.filter_In in Hv as [Hv _].
      apply in_map_iff in Hv as (l & Hl & Hin). apply (Hnew l Hin Hl).
    - cbn. apply NoDup_singleton. }
  rewrite Hu. cbn [guard bind].
  replace (foreign_keys_hold _ legal_templates (seeded_row json e x)) with true
    by reflexivity.
  reflexivity.
Qed.

Lemma entries_seeded (xs : list entry) :
  Forall fits xs ->
  forall (es : list env) (db : database),
    length es = length xs ->
    NoDup (column_values "id" (table db legal_templates)) ->
    fresh_for es db ->
    fold_left step (combine es (map (statement_of json) xs)) db
    = with_table db legal_templates
        (table db legal_templates
         ++ map (fun ex => seeded_row json (fst ex) (snd ex)) (combine es xs)).
Proof.
  induction 1 as [| x xs Hx _ IH]; intros es db Hlen Hnd (Hids & Hdistinct & Hnew).
  - destruct es; [| discriminate Hlen]. cbn [combine map fold_left].
    rewrite app_nil_r. symmetry. apply with_table_same.
  - destruct es as [| e es]; [discriminate Hlen |]. injection Hlen as Hlen.
    apply Forall_cons in Hids as [Hid Hids]. cbn in Hdistinct.
    apply NoDup_cons in Hdistinct as [He Hdistinct].
    cbn [map combine fold_left fst snd]. unfold step at 2. cbn [fst snd].
    rewrite (statement_accepted e x db Hid Hx Hnd)
      by (intros l Hl; apply (Hnew e l); [left; reflexivity | exact Hl]).
    rewrite IH; [| exact Hlen | |].
    + rewrite with_table_twice, table_with_table_eq, <- app_assoc. reflexivity.
    + rewrite table_with_table_eq, column_values_app. apply NoDup_app.
      split; [exact Hnd | split; [| cbn; apply NoDup_singleton]].
      intros v Hv Hv'. apply list_elem_of_In in Hv, Hv'. cbn in Hv'.
      destruct Hv' as [<- | []].
      unfold column_values in Hv. apply List.filter_In in Hv as [Hv _].
      apply in_map_iff in Hv as (l & Hl & Hin).
      apply (Hnew e l); [left; reflexivity | exact Hin | exact Hl].
    + split; [exact Hids | split; [exact Hdistinct |]].
      intros e' l He' Hl. rewrite table_with_table_eq in Hl.
      apply in_app_iff in Hl as [Hl | [<- | []]].
      * apply (Hnew e' l); [right; exact He' | exact Hl].
      * cbn. intros Heq. apply He. injection Heq as ->.
        apply list_elem_of_In, in_map, He'.
Qed.

(** X22: run on any database whose templates have distinct ids, with
    four generated identifiers that are new, the seed script is
    accepted statement by statement: it adds its four templates after
    those already there, in the order of the script, each one active,
    at version '1.0', with usage_count 0, no effectiveness_score and
    no last_used, created and updated at the time of its statement; the
    other tables are untouched. Nothing in it depends on the templates
    already there, so a second run adds the four once more. *)
Theorem script_seeds_four_templates (es : list env) (db : database) :
  length es = 4%nat ->
  NoDup (column_values "id" (table db legal_templates)) ->
  fresh_for es db ->
  run_script json es db
  = with_table db legal_templates
      (table db legal_templates
       ++ map (fun ex => seeded_row json (fst ex) (snd ex)) (combine es entries)).
Proof.
  intros Hlen Hnd Hfresh. unfold run_script, script.
  apply entries_seeded; [| exact Hlen | exact Hnd | exact Hfresh].
  unfold entries, fits. repeat constructor; cbn; lia.
Qed.

End WithJson.

(** X22 at work: the script on the database init.sql creates. *)
Lemma script_seeds_four_templates_witness :
  let es := [mkEnv 100 1; mkEnv 200 2; mkEnv 300 3; mkEnv 400 4] in
  map (fun l => (get l "category", get l "is_active"))
      (table (run_script (fun _ _ => "[]") es empty) legal_templates)
  = [ (VText "rental_agreement", VBool true); (VText "loan_contract", VBool true);
      (VText "employment_contract", VBool true); (VText "terms_of_service", VBool true) ].
Proof.
  cbn zeta.
  rewrite (script_seeds_four_templates (fun _ _ => "[]")
             [mkEnv 100 1; mkEnv 200 2; mkEnv 300 3; mkEnv 400 4] empty).
  - reflexivity.
  - reflexivity.
  - constructor.
  - split; [| split].
    + repeat constructor.
    + apply (bool_decide_unpack _). vm_compute. exact I.
    + intros e l _ [].
Defined.

End SeedsSpec.
